(** * gin-trading-bot: the signal / position state machine

    A shallow embedding of the decision core of the bot
    ([src/indicators/technical_indicators.py],
    [src/strategy/trading_strategy.py], [src/position_manager.py],
    [backtest.py], the trade execution and the monitoring of [main.py] and
    the notification they wait for) together with the properties its
    specification states about it.

    Numbers.  The code computes on doubles; the embedding has two layers.

    The series of pandas and the amounts derived from them are embedded in
    exact arithmetic: rationals with one extra element [NaN], which also
    stands for the quotient of a numpy division by zero ([inf] or [nan]:
    nothing finite).  Every comparison that involves [NaN] is false, as in
    IEEE 754.  What is stated on this layer is of two kinds: values, which
    the doubles of the code follow up to rounding, and the structure of a
    run (what is stored, opened, closed, raised, and in which order), which
    is stated relative to the answers of the comparisons and does not
    depend on where a comparison flips.

    Where a statement depends on the answer of a comparison with a level
    that the code computes in floating point - the exit rule, the entry
    rule, the sizing - the function is embedded on the binary64 numbers of
    IEEE 754 themselves ([Binary64]), and the statement is made there.
    The validation of the configuration, which tests what kind of value a
    key holds, is embedded on the values of JSON ([Json]). *)

From Stdlib Require Import QArith Qabs Lqa Lia List Bool ZArith.
From Stdlib Require Floats.
From stdpp Require Import base option gmap strings.
Import ListNotations.

Local Open Scope Q_scope.

(** ** Floats with a not-a-number element *)

Inductive float : Type :=
| NaN
| Fin (q : Q).

Declare Scope float_scope.
Delimit Scope float_scope with F.
Bind Scope float_scope with float.

Module Float.

Definition lift2 (op : Q -> Q -> Q) (a b : float) : float :=
  match a, b with
  | Fin x, Fin y => Fin (op x y)
  | _, _ => NaN
  end.

Definition add : float -> float -> float := lift2 Qplus.
Definition sub : float -> float -> float := lift2 Qminus.
Definition mul : float -> float -> float := lift2 Qmult.

(** The division of numpy: a zero divisor raises nothing and gives
    nothing finite ([inf] or [nan], here [NaN]). *)
Definition div (a b : float) : float :=
  match a, b with
  | Fin x, Fin y => if Qeq_bool y 0 then NaN else Fin (x / y)
  | _, _ => NaN
  end.

Definition neg (a : float) : float :=
  match a with
  | Fin x => Fin (- x)
  | NaN => NaN
  end.

Definition cmp (test : Q -> Q -> bool) (a b : float) : bool :=
  match a, b with
  | Fin x, Fin y => test x y
  | _, _ => false
  end.

Definition Qlt_bool (x y : Q) : bool := negb (Qle_bool y x).

Definition eqb : float -> float -> bool := cmp Qeq_bool.
Definition leb : float -> float -> bool := cmp Qle_bool.
Definition ltb : float -> float -> bool := cmp Qlt_bool.
Definition geb (a b : float) : bool := leb b a.
Definition gtb (a b : float) : bool := ltb b a.

Definition isnan (a : float) : bool :=
  match a with
  | NaN => true
  | Fin _ => false
  end.

End Float.

Infix "+" := Float.add : float_scope.
Infix "-" := Float.sub : float_scope.
Infix "*" := Float.mul : float_scope.
Infix "/" := Float.div : float_scope.
Notation "- x" := (Float.neg x) : float_scope.
Infix "==?" := Float.eqb (at level 70, no associativity) : float_scope.
Infix "<=?" := Float.leb : float_scope.
Infix "<?" := Float.ltb : float_scope.
Infix ">=?" := Float.geb (at level 70, no associativity) : float_scope.
Infix ">?" := Float.gtb (at level 70, no associativity) : float_scope.

(** Float literals of the source. *)
Definition f0 : float := Fin 0.
Definition f1 : float := Fin 1.
Definition f50 : float := Fin 50.
Definition f100 : float := Fin 100.
(** [1e-10] *)
Definition eps : float := Fin (1 # 10000000000).

(** ** pandas Series *)

Definition Series : Type := list float.

Module Pandas.

(** [Series.diff()]: first position undefined, then [x_t - x_{t-1}]. *)
Fixpoint diff_from (prev : float) (xs : Series) : Series :=
  match xs with
  | [] => []
  | x :: rest => (x - prev)%F :: diff_from x rest
  end.

Definition diff (xs : Series) : Series :=
  match xs with
  | [] => []
  | x :: rest => NaN :: diff_from x rest
  end.

(** [Series.where(cond, other)]: keep the entry where [cond] is true,
    put [other] elsewhere (also where the entry is NaN, the comparison
    being false there). *)
Definition where_ (cond : float -> bool) (other : float) (xs : Series)
  : Series :=
  map (fun x => if cond x then x else other) xs.

(** The trailing window of at most [w] entries that ends at index [i]. *)
Definition window_at (w : nat) (xs : Series) (i : nat) : Series :=
  skipn (i + 1 - w) (firstn (i + 1) xs).

(** The observations of a window: its entries that are not NaN. *)
Fixpoint observations (xs : Series) : list Q :=
  match xs with
  | [] => []
  | NaN :: rest => observations rest
  | Fin q :: rest => q :: observations rest
  end.

(** [Series.rolling(window=w, min_periods=m).agg()]: a position is
    defined when its window holds at least [m] observations. *)
Definition rolling (w min_periods : nat) (agg : list Q -> float)
           (xs : Series) : Series :=
  map (fun i =>
         let obs := observations (window_at w xs i) in
         if (min_periods <=? length obs)%nat then agg obs else NaN)
      (seq 0 (length xs)).

Definition Qsum (l : list Q) : Q := fold_right Qplus 0 l.

Definition Qlen (l : list Q) : Q := inject_Z (Z.of_nat (length l)).

Definition Qmean (l : list Q) : Q := Qsum l / Qlen l.

Definition mean (obs : list Q) : float :=
  (Fin (Qsum obs) / Fin (Qlen obs))%F.

(** Sample variance (ddof = 1), the default of [rolling(...).std()]. *)
Definition Qvar (l : list Q) : Q :=
  Qsum (map (fun x => (x - Qmean l) * (x - Qmean l)) l) / (Qlen l - 1).

Definition std (sqrt : float -> float) (obs : list Q) : float :=
  if (length obs <=? 1)%nat then NaN else sqrt (Fin (Qvar obs)).

Definition fillna (v : float) (xs : Series) : Series :=
  map (fun x => if Float.isnan x then v else x) xs.

(** Element-wise arithmetic of two series, and of a series and a scalar. *)
Fixpoint zip_with (op : float -> float -> float) (xs ys : Series)
  : Series :=
  match xs, ys with
  | x :: xs', y :: ys' => op x y :: zip_with op xs' ys'
  | _, _ => []
  end.

(** [Series.iloc[-1]].  On an empty series pandas raises IndexError; the
    strategy reads the last entry of series of 20 entries and more only,
    and the default is never seen. *)
Definition iloc_last (xs : Series) : float := List.last xs NaN.

End Pandas.

(** ** technical_indicators.py *)

Module TechnicalIndicators.
Import Pandas.

Definition calculate_rsi (prices : Series) (period : nat) : Series :=
  let delta := diff prices in
  let gains := where_ (fun d => (d >? f0)%F) f0 delta in
  let losses := map Float.neg (where_ (fun d => (d <? f0)%F) f0 delta) in
  let avg_gains := rolling period 1 mean gains in
  let avg_losses := rolling period 1 mean losses in
  let rs := zip_with Float.div avg_gains (map (fun l => (l + eps)%F) avg_losses) in
  let rsi := map (fun r => (f100 - f100 / (f1 + r))%F) rs in
  let rsi := fillna f50 rsi in
  rsi.

Section Bollinger.
(** numpy's square root, as used by the rolling standard deviation. *)
Variable sqrt : float -> float.

Definition calculate_bollinger_bands (prices : Series) (period : nat)
           (std_dev : float) : Series * Series * Series :=
  let middle_band := rolling period period mean prices in
  let std := rolling period period (std sqrt) prices in
  let upper_band :=
    zip_with Float.add middle_band (map (fun s => (s * std_dev)%F) std) in
  let lower_band :=
    zip_with Float.sub middle_band (map (fun s => (s * std_dev)%F) std) in
  (upper_band, middle_band, lower_band).
End Bollinger.

Definition calculate_price_distance_from_bb_lower (price lower_band : float)
  : float :=
  if (lower_band ==? f0)%F then f0
  else
    let distance_percent := ((lower_band - price) / lower_band * f100)%F in
    distance_percent.

Definition is_long_signal (rsi price lower_band rsi_threshold
                           distance_threshold : float) : bool :=
  let rsi_condition := (rsi <? rsi_threshold)%F in
  let distance :=
    calculate_price_distance_from_bb_lower price lower_band in
  let distance_condition := (distance >=? distance_threshold)%F in
  rsi_condition && distance_condition.

End TechnicalIndicators.

(** ** Exceptions *)

Inductive exn : Type :=
| ValueError (msg : string)
| TypeError
| KeyError
| AttributeError
| ZeroDivisionError
| Exception (msg : string).

Inductive result (A : Type) : Type :=
| Ok (a : A)
| Raise (e : exn).

Arguments Ok {A} a.
Arguments Raise {A} e.

#[global] Instance result_ret : MRet result := fun A a => Ok a.

#[global] Instance result_bind : MBind result := fun A B k r =>
  match r with
  | Ok a => k a
  | Raise e => Raise e
  end.

(** Using a value that may be Python's [None] as a number. *)
Definition number {A : Type} (o : option A) : result A :=
  match o with
  | Some a => Ok a
  | None => Raise TypeError
  end.

(** ** Configuration *)

(** One entry of [config['pairs']]: a dict, every key of which may be
    absent; the numbers are those of the JSON file. *)
Record SymbolConfig : Type := {
  enabled : option bool;
  leverage : option Q;
  trade_volume : option Q;
  rsi_long_threshold : option Q;
  shadow_distance_threshold : option Q;
  take_profit_percent : option Q;
  stop_loss_percent : option Q
}.

(** The empty dict [{}]. *)
Definition no_config : SymbolConfig :=
  {| enabled := None; leverage := None; trade_volume := None;
     rsi_long_threshold := None; shadow_distance_threshold := None;
     take_profit_percent := None; stop_loss_percent := None |}.

(** [not symbol_config]: the dict is empty. *)
Definition is_empty (c : SymbolConfig) : bool :=
  match c with
  | {| enabled := None; leverage := None; trade_volume := None;
       rsi_long_threshold := None; shadow_distance_threshold := None;
       take_profit_percent := None; stop_loss_percent := None |} => true
  | _ => false
  end.

(** [d.get(key, dflt)] *)
Definition get {A : Type} (field : option A) (dflt : A) : A :=
  match field with
  | Some v => v
  | None => dflt
  end.

(** [config.get('pairs', {}).get(symbol, {})]; the configuration is its
    ['pairs'] mapping. *)
Definition pairs_get (config : gmap string SymbolConfig) (symbol : string)
  : SymbolConfig :=
  get (config !! symbol) no_config.

(** ** Data model *)

Inductive Signal : Type := NONE | LONG | ERROR.

(** [side.upper() == 'LONG'] or anything else, read as SHORT. *)
Inductive Side : Type := Long | Short.

Inductive Status : Type := OPEN | CLOSED.

Definition Signal_eqb (a b : Signal) : bool :=
  match a, b with
  | NONE, NONE | LONG, LONG | ERROR, ERROR => true
  | _, _ => false
  end.

Definition Status_eqb (a b : Status) : bool :=
  match a, b with
  | OPEN, OPEN | CLOSED, CLOSED => true
  | _, _ => false
  end.

(** The dict [analyze_symbol] returns; [None] is Python's [None] (or, for
    the last two keys, a key that is absent). *)
Module Analysis.
Record t : Type := {
  symbol : string;
  signal : Signal;
  reason : string;
  rsi : option float;
  bb_upper : option float;
  bb_middle : option float;
  bb_lower : option float;
  current_price : option float;
  distance_from_bb_lower : option float;
  config : option SymbolConfig
}.
End Analysis.

(** A row of the OHLCV frame, with its index entry (seconds).  The frames
    the strategy is given hold numbers only ([standardize_dataframe] drops
    the rows with a NaN). *)
Module Candle.
Record t : Type := {
  timestamp : Z;
  open : Q;
  high : Q;
  low : Q;
  close : Q;
  volume : Q
}.
End Candle.

Definition DataFrame : Type := list Candle.t.

(** [df['close']] *)
Definition close_of (df : DataFrame) : Series :=
  map (fun row => Fin (Candle.close row)) df.

(** [df.index[i]], for [i] in range. *)
Definition index_at (df : DataFrame) (i : nat) : Z :=
  nth i (map Candle.timestamp df) 0%Z.

(** What [should_close_position] reads of a position dict. *)
Class PositionData (A : Type) : Type := {
  entry_price_of : A -> float;
  side_of : A -> Side
}.

(** ** trading_strategy.py *)

Module TradingStrategy.
Import Pandas.

Definition rsi_period : nat := 6.
Definition bb_period : nat := 20.
Definition bb_std_dev : float := Fin 2.

Definition join_and (reasons : list string) : string :=
  String.concat " AND " reasons.

Section Strategy.
(** [self.config]. *)
Variable config : gmap string SymbolConfig.
(** numpy's square root. *)
Variable sqrt : float -> float.
(** Number formatting of the f-strings: [{x:.2f}] and [{x}]. *)
Variable fmt2f : float -> string.
Variable fmt : float -> string.

Definition analyze_symbol (symbol : string) (df : DataFrame) : Analysis.t :=
  if (length df <? Nat.max rsi_period bb_period)%nat then
    {| Analysis.symbol := symbol;
       Analysis.signal := NONE;
       Analysis.reason := "Insufficient data";
       Analysis.rsi := None;
       Analysis.bb_upper := None;
       Analysis.bb_middle := None;
       Analysis.bb_lower := None;
       Analysis.current_price := None;
       Analysis.distance_from_bb_lower := None;
       Analysis.config := None |}
  else
    let rsi :=
      TechnicalIndicators.calculate_rsi (close_of df) rsi_period in
    let '(bb_upper, bb_middle, bb_lower) :=
      TechnicalIndicators.calculate_bollinger_bands
        sqrt (close_of df) bb_period bb_std_dev in
    let current_price := iloc_last (close_of df) in
    let current_rsi := iloc_last rsi in
    let current_bb_lower := iloc_last bb_lower in
    let current_bb_upper := iloc_last bb_upper in
    let current_bb_middle := iloc_last bb_middle in
    let symbol_config := pairs_get config symbol in
    if is_empty symbol_config || negb (get (enabled symbol_config) false)
    then
      {| Analysis.symbol := symbol;
         Analysis.signal := NONE;
         Analysis.reason := "Symbol not configured or disabled";
         Analysis.rsi := Some current_rsi;
         Analysis.bb_upper := Some current_bb_upper;
         Analysis.bb_middle := Some current_bb_middle;
         Analysis.bb_lower := Some current_bb_lower;
         Analysis.current_price := Some current_price;
         Analysis.distance_from_bb_lower := None;
         Analysis.config := None |}
    else
      let rsi_threshold := Fin (get (rsi_long_threshold symbol_config) 30) in
      let distance_threshold :=
        Fin (get (shadow_distance_threshold symbol_config) (3 # 2)) in
      let is_long_signal :=
        TechnicalIndicators.is_long_signal
          current_rsi current_price current_bb_lower
          rsi_threshold distance_threshold in
      let distance_from_bb :=
        TechnicalIndicators.calculate_price_distance_from_bb_lower
          current_price current_bb_lower in
      let '(signal, reason) :=
        if is_long_signal then
          (LONG,
           "RSI(" +:+ fmt2f current_rsi +:+ ") < " +:+ fmt rsi_threshold
           +:+ " AND price " +:+ fmt2f distance_from_bb
           +:+ "% below BB lower")
        else
          let reasons :=
            (if (current_rsi >=? rsi_threshold)%F
             then ["RSI(" +:+ fmt2f current_rsi +:+ ") >= "
                   +:+ fmt rsi_threshold]
             else [])
            ++
            (if (distance_from_bb <? distance_threshold)%F
             then ["Price only " +:+ fmt2f distance_from_bb
                   +:+ "% below BB (need " +:+ fmt distance_threshold
                   +:+ "%)"]
             else []) in
          (NONE,
           match reasons with
           | [] => "No signal conditions met"
           | _ => join_and reasons
           end) in
      {| Analysis.symbol := symbol;
         Analysis.signal := signal;
         Analysis.reason := reason;
         Analysis.rsi := Some current_rsi;
         Analysis.bb_upper := Some current_bb_upper;
         Analysis.bb_middle := Some current_bb_middle;
         Analysis.bb_lower := Some current_bb_lower;
         Analysis.current_price := Some current_price;
         Analysis.distance_from_bb_lower := Some distance_from_bb;
         Analysis.config := Some symbol_config |}.

(** The price is the one of an analysis, a numpy scalar read from the
    frame: the quotient by a price of zero is [inf] (here [NaN]) and
    nothing is raised.  For a Python float, see
    [Binary64.TradingStrategy.calculate_position_size]. *)
Definition calculate_position_size (symbol : string)
           (current_price : float) : float :=
  let symbol_config := pairs_get config symbol in
  let trade_volume_usdt := Fin (get (trade_volume symbol_config) 20) in
  let quantity := (trade_volume_usdt / current_price)%F in
  quantity.

Definition calculate_take_profit_stop_loss (symbol : string)
           (entry_price : float) (side : Side) : float * float :=
  let symbol_config := pairs_get config symbol in
  let tp_percent :=
    (Fin (get (take_profit_percent symbol_config) 2) / f100)%F in
  let sl_percent :=
    (Fin (get (stop_loss_percent symbol_config) 1) / f100)%F in
  match side with
  | Long =>
      let take_profit := (entry_price * (f1 + tp_percent))%F in
      let stop_loss := (entry_price * (f1 - sl_percent))%F in
      (take_profit, stop_loss)
  | Short =>
      let take_profit := (entry_price * (f1 - tp_percent))%F in
      let stop_loss := (entry_price * (f1 + sl_percent))%F in
      (take_profit, stop_loss)
  end.

Definition should_close_position {A : Type} `{PositionData A}
           (symbol : string) (position_data : A) (current_price : float)
  : bool * string :=
  let entry_price := entry_price_of position_data in
  let side := side_of position_data in
  if (entry_price ==? f0)%F then (false, "No entry price available")
  else
    let '(take_profit, stop_loss) :=
      calculate_take_profit_stop_loss symbol entry_price side in
    match side with
    | Long =>
        if (current_price >=? take_profit)%F then (true, "Take Profit")
        else if (current_price <=? stop_loss)%F then (true, "Stop Loss")
        else (false, "No exit signal")
    | Short =>
        if (current_price <=? take_profit)%F then (true, "Take Profit")
        else if (current_price >=? stop_loss)%F then (true, "Stop Loss")
        else (false, "No exit signal")
    end.

End Strategy.

End TradingStrategy.

(** ** position_manager.py *)

Module Position.
Record t : Type := {
  id : string;
  symbol : string;
  side : Side;
  quantity : float;
  entry_price : float;
  leverage : float;
  take_profit : float;
  stop_loss : float;
  rsi_at_entry : option float;
  entry_time : string;
  status : Status;
  exit_price : option float;
  exit_time : option string;
  pnl : float;
  pnl_percent : float;
  exit_reason : option string
}.
End Position.

#[global] Instance Position_data : PositionData Position.t :=
  {| entry_price_of := Position.entry_price; side_of := Position.side |}.

(** A Python dict with string keys: insertion ordered, assignment to a key
    that is present keeps its place. *)
Module Dict.
Section Dict.
Context {V : Type}.

Definition t : Type := list (string * V).

Fixpoint lookup (d : t) (k : string) : option V :=
  match d with
  | [] => None
  | (k', v) :: rest => if String.eqb k k' then Some v else lookup rest k
  end.

Fixpoint set (d : t) (k : string) (v : V) : t :=
  match d with
  | [] => [(k, v)]
  | (k', v') :: rest =>
      if String.eqb k k' then (k, v) :: rest else (k', v') :: set rest k v
  end.

Definition values (d : t) : list V := map snd d.
End Dict.
Arguments t V : clear implicits.
End Dict.

(** The readings of [datetime.now()] a call makes: the [strftime] stamp
    used in the id and the [isoformat] text. *)
Module Clock.
Record t : Type := { stamp : string; iso : string }.
End Clock.

Module PositionManager.

(** [self.positions]; the JSON file that mirrors it is not modelled
    ([save_positions] swallows its own errors). *)
Definition positions_t : Type := Dict.t Position.t.

Definition add_position (positions : positions_t) (now : Clock.t)
           (symbol : string) (side : Side) (quantity entry_price
            leverage take_profit stop_loss : float)
           (rsi_at_entry : option float) : string * positions_t :=
  let position_id := symbol +:+ "_" +:+ Clock.stamp now in
  let position_data :=
    {| Position.id := position_id;
       Position.symbol := symbol;
       Position.side := side;
       Position.quantity := quantity;
       Position.entry_price := entry_price;
       Position.leverage := leverage;
       Position.take_profit := take_profit;
       Position.stop_loss := stop_loss;
       Position.rsi_at_entry := rsi_at_entry;
       Position.entry_time := Clock.iso now;
       Position.status := OPEN;
       Position.exit_price := None;
       Position.exit_time := None;
       Position.pnl := f0;
       Position.pnl_percent := f0;
       Position.exit_reason := None |} in
  (position_id, Dict.set positions position_id position_data).

(** The result and the store after the call.  The numbers of the store
    are Python floats, as the signatures say and as [positions.json] gives
    them back: between them [price_change / entry_price] raises
    ZeroDivisionError for an entry price of zero, before anything is
    written.  (A numpy scalar left in the store by the running session
    gives [inf] or [nan] there instead; what is stated below of a
    successful close assumes an entry price other than zero.) *)
Definition close_position (positions : positions_t) (now : Clock.t)
           (position_id : string) (exit_price : float) (reason : string)
  : result Position.t * positions_t :=
  match Dict.lookup positions position_id with
  | None =>
      (Raise (ValueError ("Position " +:+ position_id +:+ " not found")),
       positions)
  | Some position =>
      if negb (Status_eqb (Position.status position) OPEN) then
        (Raise (ValueError ("Position " +:+ position_id +:+ " is not open")),
         positions)
      else
        let entry_price := Position.entry_price position in
        let quantity := Position.quantity position in
        let side := Position.side position in
        let leverage := Position.leverage position in
        let price_change :=
          match side with
          | Long => (exit_price - entry_price)%F
          | Short => (entry_price - exit_price)%F
          end in
        if (entry_price ==? f0)%F then (Raise ZeroDivisionError, positions)
        else
        let pnl :=
          (price_change / entry_price * quantity * entry_price * leverage)%F in
        let pnl_percent := (price_change / entry_price * f100 * leverage)%F in
        let position :=
          {| Position.id := Position.id position;
             Position.symbol := Position.symbol position;
             Position.side := Position.side position;
             Position.quantity := Position.quantity position;
             Position.entry_price := Position.entry_price position;
             Position.leverage := Position.leverage position;
             Position.take_profit := Position.take_profit position;
             Position.stop_loss := Position.stop_loss position;
             Position.rsi_at_entry := Position.rsi_at_entry position;
             Position.entry_time := Position.entry_time position;
             Position.status := CLOSED;
             Position.exit_price := Some exit_price;
             Position.exit_time := Some (Clock.iso now);
             Position.pnl := pnl;
             Position.pnl_percent := pnl_percent;
             Position.exit_reason := Some reason |} in
        (Ok position, Dict.set positions position_id position)
  end.

Definition get_open_positions (positions : positions_t) : list Position.t :=
  List.filter (fun pos => Status_eqb (Position.status pos) OPEN)
              (Dict.values positions).

Definition get_position_by_symbol (positions : positions_t)
           (symbol : string) : option Position.t :=
  List.find (fun position => String.eqb (Position.symbol position) symbol)
            (get_open_positions positions).

Definition has_open_position (positions : positions_t) (symbol : string)
  : bool :=
  match get_position_by_symbol positions symbol with
  | Some _ => true
  | None => false
  end.

End PositionManager.

(** ** main.py: trade execution *)

(** What the outside answers to the calls [execute_trade] makes; [false]
    is an exception: of the exchange client for the first two, of the
    event loop the notifier asks for ([asyncio.get_event_loop()]) for the
    third. *)
Module Exchange.
Record t : Type := {
  set_leverage_ok : bool;
  place_market_order_ok : bool;
  notify_position_opened_ok : bool
}.
End Exchange.

Module TradingBot.
Import PositionManager.

(** [notify_position_opened] of telegram_notifier.py: the message formats
    the RSI with [{rsi:.2f}], which raises TypeError for [None], and reads
    the time of the event loop; the sending itself swallows its errors. *)
Definition notify_position_opened (exchange : Exchange.t)
           (rsi : option float) : result unit :=
  _ ← number rsi;
  if negb (Exchange.notify_position_opened_ok exchange)
  then Raise (Exception "notify_position_opened")
  else Ok tt.

Section Bot.
Variable config : gmap string SymbolConfig.

(** The body of the [try] block: how it ends and the store it leaves.  The
    notification comes after [add_position]: when it raises, the position
    is in the store already.  The analysis is the dict of
    [analyze_symbol], whose numbers are numpy's: the quotient of the trade
    volume by a price of zero is [inf] there, not an exception. *)
Definition execute_trade_try (positions : positions_t) (now : Clock.t)
           (exchange : Exchange.t) (analysis : Analysis.t)
  : result unit * positions_t :=
  let symbol := Analysis.symbol analysis in
  let symbol_config := get (Analysis.config analysis) no_config in
  let current_price := Analysis.current_price analysis in
  let leverage := Fin (get (leverage symbol_config) 10) in
  if negb (Exchange.set_leverage_ok exchange)
  then (Raise (Exception "set_leverage"), positions)
  else
    match number current_price with
    | Raise e => (Raise e, positions)
    | Ok price =>
        let quantity :=
          TradingStrategy.calculate_position_size config symbol price in
        let '(take_profit, stop_loss) :=
          TradingStrategy.calculate_take_profit_stop_loss
            config symbol price Long in
        if negb (Exchange.place_market_order_ok exchange)
        then (Raise (Exception "place_market_order"), positions)
        else
          let '(position_id, positions) :=
            add_position positions now symbol Long quantity price leverage
                         take_profit stop_loss (Analysis.rsi analysis) in
          (notify_position_opened exchange (Analysis.rsi analysis),
           positions)
    end.

(** The answer and the store after the call. *)
Definition execute_trade (positions : positions_t) (now : Clock.t)
           (exchange : Exchange.t) (analysis : Analysis.t)
  : bool * positions_t :=
  let symbol := Analysis.symbol analysis in
  let signal := Analysis.signal analysis in
  if negb (Signal_eqb signal LONG) then (false, positions)
  else if has_open_position positions symbol then (false, positions)
  else
    match execute_trade_try positions now exchange analysis with
    | (Ok _, positions') => (true, positions')
    | (Raise _, positions') => (false, positions')
    end.

End Bot.

End TradingBot.

(** ** backtest.py *)

(** The position dict of the replay. *)
Module BacktestPosition.
Record t : Type := {
  symbol : string;
  side : Side;
  entry_time : Z;
  entry_price : float;
  quantity : float;
  take_profit : float;
  stop_loss : float;
  rsi_at_entry : option float;
  leverage : float
}.
End BacktestPosition.

#[global] Instance BacktestPosition_data : PositionData BacktestPosition.t :=
  {| entry_price_of := BacktestPosition.entry_price;
     side_of := BacktestPosition.side |}.

Module Trade.
Record t : Type := {
  symbol : string;
  side : Side;
  entry_time : Z;
  exit_time : Z;
  entry_price : float;
  exit_price : float;
  quantity : float;
  leverage : float;
  rsi_at_entry : option float;
  pnl_percent : float;
  pnl_usdt : float;
  exit_reason : option string;
  duration_minutes : float
}.
End Trade.

Module Backtester.

(** The loop variables [position] and [trades]. *)
Definition state : Type := option BacktestPosition.t * list Trade.t.

Section Backtest.
Variable config : gmap string SymbolConfig.
Variable sqrt : float -> float.
Variable fmt2f : float -> string.
Variable fmt : float -> string.

(** The exit test of the replay, on the levels stored at entry. *)
Definition exit_check (position : BacktestPosition.t)
           (current_price : option float) : result (bool * option string) :=
  match BacktestPosition.side position with
  | Long =>
      price ← number current_price;
      if (price >=? BacktestPosition.take_profit position)%F
      then Ok (true, Some "Take Profit")
      else if (price <=? BacktestPosition.stop_loss position)%F
           then Ok (true, Some "Stop Loss")
           else Ok (false, None)
  | Short => Ok (false, None)
  end.

Definition open_position (symbol : string) (symbol_config : SymbolConfig)
           (current_time : Z) (analysis : Analysis.t)
  : result BacktestPosition.t :=
  entry_price ← number (Analysis.current_price analysis);
  let quantity :=
    TradingStrategy.calculate_position_size config symbol entry_price in
  let '(take_profit, stop_loss) :=
    TradingStrategy.calculate_take_profit_stop_loss
      config symbol entry_price Long in
  Ok {| BacktestPosition.symbol := symbol;
        BacktestPosition.side := Long;
        BacktestPosition.entry_time := current_time;
        BacktestPosition.entry_price := entry_price;
        BacktestPosition.quantity := quantity;
        BacktestPosition.take_profit := take_profit;
        BacktestPosition.stop_loss := stop_loss;
        BacktestPosition.rsi_at_entry := Analysis.rsi analysis;
        BacktestPosition.leverage :=
          Fin (get (leverage symbol_config) 10) |}.

Definition make_trade (symbol : string) (symbol_config : SymbolConfig)
           (position : BacktestPosition.t) (current_time : Z)
           (exit_price : float) (exit_reason : option string) : Trade.t :=
  let price_change :=
    match BacktestPosition.side position with
    | Long => (exit_price - BacktestPosition.entry_price position)%F
    | Short => (BacktestPosition.entry_price position - exit_price)%F
    end in
  let pnl_percent :=
    (price_change / BacktestPosition.entry_price position * f100
     * BacktestPosition.leverage position)%F in
  let pnl_usdt :=
    (price_change / BacktestPosition.entry_price position
     * Fin (get (trade_volume symbol_config) 20)
     * BacktestPosition.leverage position)%F in
  {| Trade.symbol := symbol;
     Trade.side := BacktestPosition.side position;
     Trade.entry_time := BacktestPosition.entry_time position;
     Trade.exit_time := current_time;
     Trade.entry_price := BacktestPosition.entry_price position;
     Trade.exit_price := exit_price;
     Trade.quantity := BacktestPosition.quantity position;
     Trade.leverage := BacktestPosition.leverage position;
     Trade.rsi_at_entry := BacktestPosition.rsi_at_entry position;
     Trade.pnl_percent := pnl_percent;
     Trade.pnl_usdt := pnl_usdt;
     Trade.exit_reason := exit_reason;
     Trade.duration_minutes :=
       Fin (inject_Z (current_time
                      - BacktestPosition.entry_time position) / 60) |}.

(** One iteration of the loop over the bars. *)
Definition bar (symbol : string) (symbol_config : SymbolConfig)
           (df : DataFrame) (st : state) (i : nat) : result state :=
  let '(position, trades) := st in
  let current_data := firstn (i + 1) df in
  let current_time := index_at df i in
  let analysis :=
    TradingStrategy.analyze_symbol
      config sqrt fmt2f fmt symbol current_data in
  match position with
  | None =>
      if Signal_eqb (Analysis.signal analysis) LONG then
        position ← open_position symbol symbol_config current_time
                                 analysis;
        Ok (Some position, trades)
      else Ok (None, trades)
  | Some position =>
      let current_price := Analysis.current_price analysis in
      '(should_close, exit_reason) ← exit_check position current_price;
      if (should_close : bool) then
        exit_price ← number current_price;
        let trade :=
          make_trade symbol symbol_config position current_time
                     exit_price exit_reason in
        Ok (None, trades ++ [trade])
      else Ok (Some position, trades)
  end.

Fixpoint bars (step : state -> nat -> result state) (range : list nat)
         (st : state) : result state :=
  match range with
  | [] => Ok st
  | i :: rest => st' ← step st i; bars step rest st'
  end.

(** [range(max(20, 6), len(df))] *)
Definition bar_range (df : DataFrame) : list nat :=
  seq (Nat.max 20 6) (length df - Nat.max 20 6).

Definition run_backtest (symbol : string) (df : DataFrame)
  : result (list Trade.t) :=
  let symbol_config := pairs_get config symbol in
  if is_empty symbol_config || negb (get (enabled symbol_config) false)
  then Ok []
  else
    '(position, trades) ←
      bars (bar symbol symbol_config df) (bar_range df) (None, []);
    Ok trades.

End Backtest.

End Backtester.

(** ** trading_strategy.py: the configuration helpers *)

Module StrategyConfig.

(** [get_enabled_symbols].  Python lists the symbols in the insertion order
    of the dict; here they come in the order in which the map enumerates
    its keys.  What is stated of the list below is about its members. *)
Definition get_enabled_symbols (config : gmap string SymbolConfig)
  : list string :=
  List.map fst
    (List.filter (fun item => get (enabled (snd item)) false)
                 (map_to_list config)).

End StrategyConfig.

(** ** position_manager.py: reports *)

Module UnrealizedPnl.
Record t : Type := {
  unrealized_pnl : float;
  unrealized_pnl_percent : float;
  entry_price : float;
  current_price : float
}.
End UnrealizedPnl.

Module Summary.
Record t : Type := {
  total_positions : nat;
  open_positions : nat;
  closed_positions : nat;
  total_pnl : float;
  winning_trades : nat;
  losing_trades : nat;
  win_rate : float
}.
End Summary.

(** [sum(xs)] of Python: from 0, left to right. *)
Definition fsum (xs : list float) : float := fold_left Float.add xs f0.

(** An [int] as a float. *)
Definition of_nat (n : nat) : float := Fin (inject_Z (Z.of_nat n)).

Module PositionReports.
Import PositionManager.

(** As in [close_position], the quotient by an entry price of zero
    raises ZeroDivisionError between Python floats. *)
Definition calculate_unrealized_pnl (positions : positions_t)
           (symbol : string) (current_price : float)
  : result (option UnrealizedPnl.t) :=
  match get_position_by_symbol positions symbol with
  | None => Ok None
  | Some position =>
      let entry_price := Position.entry_price position in
      let quantity := Position.quantity position in
      let side := Position.side position in
      let leverage := Position.leverage position in
      let price_change :=
        match side with
        | Long => (current_price - entry_price)%F
        | Short => (entry_price - current_price)%F
        end in
      if (entry_price ==? f0)%F then Raise ZeroDivisionError
      else
      let unrealized_pnl :=
        (price_change / entry_price * quantity * entry_price * leverage)%F in
      let unrealized_pnl_percent :=
        (price_change / entry_price * f100 * leverage)%F in
      Ok (Some
            {| UnrealizedPnl.unrealized_pnl := unrealized_pnl;
               UnrealizedPnl.unrealized_pnl_percent := unrealized_pnl_percent;
               UnrealizedPnl.entry_price := entry_price;
               UnrealizedPnl.current_price := current_price |})
  end.

Definition get_position_summary (positions : positions_t) : Summary.t :=
  let all_positions := Dict.values positions in
  let closed_positions :=
    List.filter (fun pos => Status_eqb (Position.status pos) CLOSED)
                all_positions in
  let open_positions :=
    List.filter (fun pos => Status_eqb (Position.status pos) OPEN)
                all_positions in
  let total_pnl := fsum (map Position.pnl closed_positions) in
  let winning_trades :=
    length (List.filter (fun pos => (Position.pnl pos >? f0)%F)
                        closed_positions) in
  let losing_trades :=
    length (List.filter (fun pos => (Position.pnl pos <? f0)%F)
                        closed_positions) in
  let win_rate :=
    match closed_positions with
    | [] => f0
    | _ => (of_nat winning_trades / of_nat (length closed_positions)
            * f100)%F
    end in
  {| Summary.total_positions := length all_positions;
     Summary.open_positions := length open_positions;
     Summary.closed_positions := length closed_positions;
     Summary.total_pnl := total_pnl;
     Summary.winning_trades := winning_trades;
     Summary.losing_trades := losing_trades;
     Summary.win_rate := win_rate |}.

End PositionReports.

(** ** main.py: monitoring of the open positions *)

(** What the outside answers during the visit of one open position: the
    ticker price ([Raise] when the client fails), whether the close order
    goes through, and the clock. *)
Module Visit.
Record t : Type := {
  current_price : result float;
  close_position_ok : bool;
  now : Clock.t
}.
End Visit.

Module Monitor.
Import PositionManager.

Section Monitor.
Variable config : gmap string SymbolConfig.

(** The body of the loop, with its [try]: every exception - of the
    ticker, of the close order, of [close_position] - is logged and the
    loop goes on. *)
Definition monitor_position (positions : positions_t)
           (position : Position.t) (visit : Visit.t) : positions_t :=
  let symbol := Position.symbol position in
  match Visit.current_price visit with
  | Raise _ => positions
  | Ok current_price =>
      let '(should_close, reason) :=
        TradingStrategy.should_close_position
          config symbol position current_price in
      if (should_close : bool) then
        if negb (Visit.close_position_ok visit) then positions
        else
          snd (close_position positions (Visit.now visit)
                              (Position.id position) current_price reason)
      else positions
  end.

(** The loop over the list of open positions taken at its start; the
    [i]-th visit gets the [i]-th answers of the outside. *)
Fixpoint monitor_loop (open_positions : list Position.t)
         (visits : nat -> Visit.t) (i : nat) (positions : positions_t)
  : positions_t :=
  match open_positions with
  | [] => positions
  | position :: rest =>
      monitor_loop rest visits (S i)
                   (monitor_position positions position (visits i))
  end.

Definition monitor_positions (positions : positions_t)
           (visits : nat -> Visit.t) : positions_t :=
  let open_positions := get_open_positions positions in
  monitor_loop open_positions visits 0 positions.

End Monitor.

End Monitor.

(** ** backtest.py: the metrics of a list of trades *)

(** [profit_factor]: [float('inf')] without a losing trade, else a
    quotient. *)
Inductive profit_factor_t : Type :=
| Infinite
| Factor (x : float).

Module Metrics.
Record t : Type := {
  total_trades : nat;
  winning_trades : nat;
  losing_trades : nat;
  win_rate : float;
  total_pnl : float;
  avg_pnl : float;
  avg_win : float;
  avg_loss : float;
  profit_factor : profit_factor_t;
  avg_duration_minutes : float
}.
End Metrics.

Definition fabs (x : float) : float :=
  match x with
  | Fin q => Fin (Qabs.Qabs q)
  | NaN => NaN
  end.

Module BacktestMetrics.

(** [calculate_symbol_metrics]; [None] is the empty dict it returns for an
    empty list. *)
Definition calculate_symbol_metrics (trades : list Trade.t)
  : option Metrics.t :=
  match trades with
  | [] => None
  | _ =>
      let total_trades := length trades in
      let winning_trades :=
        length (List.filter (fun t => (Trade.pnl_percent t >? f0)%F) trades) in
      let losing_trades :=
        length (List.filter (fun t => (Trade.pnl_percent t <? f0)%F) trades) in
      let win_rate := (of_nat winning_trades / of_nat total_trades * f100)%F in
      let total_pnl := fsum (map Trade.pnl_usdt trades) in
      let avg_pnl := (total_pnl / of_nat total_trades)%F in
      let winning_pnl :=
        List.filter (fun x => (x >? f0)%F) (map Trade.pnl_usdt trades) in
      let losing_pnl :=
        List.filter (fun x => (x <? f0)%F) (map Trade.pnl_usdt trades) in
      let avg_win :=
        match winning_pnl with
        | [] => f0
        | _ => (fsum winning_pnl / of_nat (length winning_pnl))%F
        end in
      let avg_loss :=
        match losing_pnl with
        | [] => f0
        | _ => (fsum losing_pnl / of_nat (length losing_pnl))%F
        end in
      let profit_factor :=
        match losing_pnl with
        | [] => Infinite
        | _ => Factor (fabs (fsum winning_pnl / fsum losing_pnl)%F)
        end in
      let durations := map Trade.duration_minutes trades in
      let avg_duration := (fsum durations / of_nat (length durations))%F in
      Some {| Metrics.total_trades := total_trades;
              Metrics.winning_trades := winning_trades;
              Metrics.losing_trades := losing_trades;
              Metrics.win_rate := win_rate;
              Metrics.total_pnl := total_pnl;
              Metrics.avg_pnl := avg_pnl;
              Metrics.avg_win := avg_win;
              Metrics.avg_loss := avg_loss;
              Metrics.profit_factor := profit_factor;
              Metrics.avg_duration_minutes := avg_duration |}
  end.

End BacktestMetrics.

(** * The rules on doubles

    Python's [float] and numpy's [float64] are the binary64 numbers of
    IEEE 754: Rocq's primitive floats, with the same rounding to nearest,
    the same infinities and the same NaN.  The rules of the code that
    compare a number with a level - the entry rule and the exit rule - and
    the sizing of a position are embedded on them as well, operation by
    operation in the order of the source: what the code decides at a price
    within one rounding of a level is decided by that rounding, which the
    exact layer above does not see. *)

Module Binary64.

Definition t : Set := PrimFloat.float.

(** An [int] as a double: the nearest double, ties to even; exact below
    2^53. *)
Definition of_Z (z : Z) : t :=
  FloatOps.SF2Prim
    (SpecFloat.binary_normalize FloatOps.prec FloatOps.emax z 0 false).

(** The double of a number of the JSON configuration, or of a decimal
    literal of the source: numerator and denominator as doubles, and their
    quotient rounded - the double nearest to the number when both are
    below 2^53, as for every decimal of up to 15 digits. *)
Definition of_Q (q : Q) : t :=
  PrimFloat.div (of_Z (Qnum q)) (of_Z (Zpos (Qden q))).

Definition zero : t := of_Z 0.
Definition one : t := of_Z 1.
Definition hundred : t := of_Z 100.

Declare Scope binary64_scope.
Delimit Scope binary64_scope with b64.
Bind Scope binary64_scope with t.

(** The operations of IEEE 754 and its comparisons, false on NaN. *)
Definition add (a b : t) : t := PrimFloat.add a b.
Definition sub (a b : t) : t := PrimFloat.sub a b.
Definition mul (a b : t) : t := PrimFloat.mul a b.
Definition div (a b : t) : t := PrimFloat.div a b.
Definition eqb (a b : t) : bool := PrimFloat.eqb a b.
Definition leb (a b : t) : bool := PrimFloat.leb a b.
Definition ltb (a b : t) : bool := PrimFloat.ltb a b.
Definition geb (a b : t) : bool := PrimFloat.leb b a.
Definition isnan (a : t) : bool := PrimFloat.is_nan a.

Infix "+" := add : binary64_scope.
Infix "-" := sub : binary64_scope.
Infix "*" := mul : binary64_scope.
Infix "/" := div : binary64_scope.
Infix "==?" := eqb : binary64_scope.
Infix "<=?" := leb : binary64_scope.
Infix "<?" := ltb : binary64_scope.
Infix ">=?" := geb : binary64_scope.

(** [a / b] between Python floats: a zero divisor raises
    ZeroDivisionError (numpy's float64 gives [inf] or [nan] instead). *)
Definition truediv (a b : t) : result t :=
  if (b ==? zero)%b64 then Raise ZeroDivisionError else Ok (a / b)%b64.

(** *** technical_indicators.py *)

Module TechnicalIndicators.

Definition calculate_price_distance_from_bb_lower (price lower_band : t)
  : t :=
  if (lower_band ==? zero)%b64 then zero
  else
    let distance_percent := ((lower_band - price) / lower_band * hundred)%b64 in
    distance_percent.

Definition is_long_signal (rsi price lower_band rsi_threshold
                           distance_threshold : t) : bool :=
  let rsi_condition := (rsi <? rsi_threshold)%b64 in
  let distance :=
    calculate_price_distance_from_bb_lower price lower_band in
  let distance_condition := (distance >=? distance_threshold)%b64 in
  rsi_condition && distance_condition.

End TechnicalIndicators.

(** What [should_close_position] reads of a position dict:
    [float(position_data.get('entry_price', 0))] and the side. *)
Module PositionData.
Record t : Type := {
  entry_price : Binary64.t;
  side : Side
}.
End PositionData.

(** *** trading_strategy.py *)

Module TradingStrategy.

Section Strategy.
(** [self.config]; its numbers are turned into doubles by [of_Q]. *)
Variable config : gmap string SymbolConfig.

(** The price is a Python float, as the signature says. *)
Definition calculate_position_size (symbol : string) (current_price : t)
  : result t :=
  let symbol_config := pairs_get config symbol in
  let trade_volume_usdt := of_Q (get (trade_volume symbol_config) 20) in
  quantity ← truediv trade_volume_usdt current_price;
  Ok quantity.

Definition calculate_take_profit_stop_loss (symbol : string)
           (entry_price : t) (side : Side) : t * t :=
  let symbol_config := pairs_get config symbol in
  let tp_percent :=
    (of_Q (get (take_profit_percent symbol_config) 2) / hundred)%b64 in
  let sl_percent :=
    (of_Q (get (stop_loss_percent symbol_config) 1) / hundred)%b64 in
  match side with
  | Long =>
      let take_profit := (entry_price * (one + tp_percent))%b64 in
      let stop_loss := (entry_price * (one - sl_percent))%b64 in
      (take_profit, stop_loss)
  | Short =>
      let take_profit := (entry_price * (one - tp_percent))%b64 in
      let stop_loss := (entry_price * (one + sl_percent))%b64 in
      (take_profit, stop_loss)
  end.

Definition should_close_position (symbol : string)
           (position_data : PositionData.t) (current_price : t)
  : bool * string :=
  let entry_price := PositionData.entry_price position_data in
  let side := PositionData.side position_data in
  if (entry_price ==? zero)%b64 then (false, "No entry price available")
  else
    let '(take_profit, stop_loss) :=
      calculate_take_profit_stop_loss symbol entry_price side in
    match side with
    | Long =>
        if (current_price >=? take_profit)%b64 then (true, "Take Profit")
        else if (current_price <=? stop_loss)%b64 then (true, "Stop Loss")
        else (false, "No exit signal")
    | Short =>
        if (current_price <=? take_profit)%b64 then (true, "Take Profit")
        else if (current_price >=? stop_loss)%b64 then (true, "Stop Loss")
        else (false, "No exit signal")
    end.

End Strategy.

End TradingStrategy.

(** *** backtest.py *)

Module Backtester.

(** What the exit test of the replay reads of its position dict. *)
Record position : Type := {
  side : Side;
  entry_price : Binary64.t;
  take_profit : Binary64.t;
  stop_loss : Binary64.t
}.

Section Backtest.
Variable config : gmap string SymbolConfig.

(** The position dict built when the replay enters at [entry_price]. *)
Definition open_position (symbol : string) (entry_price : t) : position :=
  let '(take_profit, stop_loss) :=
    TradingStrategy.calculate_take_profit_stop_loss
      config symbol entry_price Long in
  {| side := Long;
     entry_price := entry_price;
     take_profit := take_profit;
     stop_loss := stop_loss |}.

(** The exit test of the replay, on the levels stored at entry. *)
Definition exit_check (position : position) (current_price : t)
  : bool * option string :=
  match side position with
  | Long =>
      if (current_price >=? take_profit position)%b64
      then (true, Some "Take Profit")
      else if (current_price <=? stop_loss position)%b64
           then (true, Some "Stop Loss")
           else (false, None)
  | Short => (false, None)
  end.

End Backtest.

End Backtester.

End Binary64.

(** * The configuration as [json.load] returns it

    [validate_symbol_config] tests what kind of value a key holds; it is
    embedded on the values of JSON, with Python's reading of them: a
    [bool] is an [int], every comparison with a NaN is false, and only a
    dict has [get] and takes a string as index. *)

Module Json.

#[local] Unset Elimination Schemes.

Inductive value : Type :=
| Null
| Bool (b : bool)
| Int (z : Z)
| Float (x : Binary64.t)
| Str (s : string)
| Array (items : list value)
| Object (fields : gmap string value).

#[local] Set Elimination Schemes.

(** A dict without keys. *)
Definition no_fields (fields : gmap string value) : bool :=
  match map_to_list fields with
  | [] => true
  | _ => false
  end.

(** [bool(v)] *)
Definition truthy (v : value) : bool :=
  match v with
  | Null => false
  | Bool b => b
  | Int z => negb (z =? 0)%Z
  | Float x => negb (Binary64.eqb x Binary64.zero)
  | Str s => negb (String.eqb s "")
  | Array items => match items with [] => false | _ => true end
  | Object fields => negb (no_fields fields)
  end.

(** [isinstance(v, (int, float))]; [bool] is a subclass of [int]. *)
Definition is_number (v : value) : bool :=
  match v with
  | Bool _ | Int _ | Float _ => true
  | _ => false
  end.

(** [True] is 1 and [False] is 0. *)
Definition of_bool (b : bool) : Z := if b then 1%Z else 0%Z.

(** [v <= n], [v > n] and [v >= n] for a number [v] and an int literal
    [n]. *)
Definition le (v : value) (n : Z) : bool :=
  match v with
  | Bool b => (of_bool b <=? n)%Z
  | Int z => (z <=? n)%Z
  | Float x => Binary64.leb x (Binary64.of_Z n)
  | _ => false
  end.

Definition gt (v : value) (n : Z) : bool :=
  match v with
  | Bool b => (n <? of_bool b)%Z
  | Int z => (n <? z)%Z
  | Float x => Binary64.ltb (Binary64.of_Z n) x
  | _ => false
  end.

Definition ge (v : value) (n : Z) : bool :=
  match v with
  | Bool b => (n <=? of_bool b)%Z
  | Int z => (n <=? z)%Z
  | Float x => Binary64.geb x (Binary64.of_Z n)
  | _ => false
  end.

(** [v.get(key, default)]: a method of dicts only. *)
Definition get_default (v : value) (key : string) (default : value)
  : result value :=
  match v with
  | Object fields => Ok (get (fields !! key) default)
  | _ => Raise AttributeError
  end.

(** [key in v] for a string [key]: a key of a dict, an item of a list, a
    part of a string; nothing else can be searched. *)
Definition contains (v : value) (key : string) : result bool :=
  match v with
  | Object fields =>
      Ok (match fields !! key with Some _ => true | None => false end)
  | Array items =>
      Ok (existsb (fun item =>
                     match item with
                     | Str s => String.eqb s key
                     | _ => false
                     end) items)
  | Str s =>
      Ok (match String.index 0 key s with Some _ => true | None => false end)
  | _ => Raise TypeError
  end.

(** [v[key]] for a string [key]: only a dict takes one. *)
Definition getitem (v : value) (key : string) : result value :=
  match v with
  | Object fields =>
      match fields !! key with
      | Some item => Ok item
      | None => Raise KeyError
      end
  | _ => Raise TypeError
  end.

End Json.

(** ** trading_strategy.py and main.py: validation of the configuration *)

Module RawConfig.

(** [config['pairs']]: what a symbol holds is any value of JSON, a dict
    in a well-formed configuration. *)
Definition pairs : Type := gmap string Json.value.

(** The loop of [get_enabled_symbols]. *)
Fixpoint enabled_loop (items : list (string * Json.value))
         (enabled_symbols : list string) : result (list string) :=
  match items with
  | [] => Ok enabled_symbols
  | (symbol, config) :: rest =>
      enabled ← Json.get_default config "enabled" (Json.Bool false);
      if Json.truthy enabled
      then enabled_loop rest (enabled_symbols ++ [symbol])
      else enabled_loop rest enabled_symbols
  end.

(** [get_enabled_symbols] on these entries: [config.get('enabled', False)]
    is read as a truth value, and raises on an entry that is no dict.  The
    symbols come in the order in which the map enumerates its keys. *)
Definition get_enabled_symbols (config : pairs) : result (list string) :=
  enabled_loop (map_to_list config) [].

Definition required_fields : list string :=
  ["leverage"; "shadow_distance_threshold"; "trade_volume";
   "rsi_long_threshold"; "take_profit_percent"; "stop_loss_percent"]%string.

Section Validate.
Variable config : pairs.
(** The text of a value in an f-string: [{value}]. *)
Variable fmt : Json.value -> string.

(** The loop over the required fields: the message of the first field that
    is missing, is not a number, or is at or below zero. *)
Fixpoint check_fields (symbol : string) (symbol_config : Json.value)
         (fields : list string) : result (option string) :=
  match fields with
  | [] => Ok None
  | field :: rest =>
      found ← Json.contains symbol_config field;
      if negb found
      then Ok (Some ("Missing required field '" +:+ field +:+ "' for "
                     +:+ symbol))
      else
        value ← Json.getitem symbol_config field;
        if negb (Json.is_number value) || Json.le value 0
        then Ok (Some ("Invalid value for '" +:+ field +:+ "' in "
                       +:+ symbol +:+ ": " +:+ fmt value))
        else check_fields symbol symbol_config rest
  end.

Definition validate_symbol_config (symbol : string)
  : result (bool * string) :=
  let symbol_config := get (config !! symbol) (Json.Object ∅) in
  if negb (Json.truthy symbol_config)
  then Ok (false, "No configuration found for " +:+ symbol)
  else
    failure ← check_fields symbol symbol_config required_fields;
    match failure with
    | Some message => Ok (false, message)
    | None =>
        leverage ← Json.getitem symbol_config "leverage";
        if Json.gt leverage 125
        then Ok (false, "Leverage too high for " +:+ symbol +:+ ": "
                        +:+ fmt leverage)
        else
          rsi_long_threshold ←
            Json.getitem symbol_config "rsi_long_threshold";
          if Json.ge rsi_long_threshold 100
          then Ok (false, "RSI threshold too high for " +:+ symbol +:+ ": "
                          +:+ fmt rsi_long_threshold)
          else Ok (true, "Configuration valid")
    end.

(** The loop of [validate_configuration] over the enabled symbols. *)
Fixpoint validate_loop (enabled_symbols : list string) : result bool :=
  match enabled_symbols with
  | [] => Ok true
  | symbol :: rest =>
      '(is_valid, error_msg) ← validate_symbol_config symbol;
      if negb (is_valid : bool) then Ok false else validate_loop rest
  end.

Definition validate_configuration_try : result bool :=
  enabled_symbols ← get_enabled_symbols config;
  match enabled_symbols with
  | [] => Ok false
  | _ => validate_loop enabled_symbols
  end.

(** [TradingBot.validate_configuration] of main.py: what its [try] block
    raises is answered by False. *)
Definition validate_configuration : bool :=
  match validate_configuration_try with
  | Ok answer => answer
  | Raise _ => false
  end.

End Validate.

End RawConfig.

(** * Vocabulary of the properties *)

(** ** Values of a series *)

Module RsiSpec.

(** A finite number that is not negative. *)
Definition nonneg (x : float) : Prop :=
  match x with
  | Fin q => 0 <= q
  | NaN => False
  end.

(** Undefined, or a finite number that is not negative. *)
Definition nan_or_nonneg (x : float) : Prop :=
  match x with
  | Fin q => 0 <= q
  | NaN => True
  end.

Definition in_0_100 (x : float) : Prop :=
  match x with
  | Fin q => 0 <= q <= 100
  | NaN => False
  end.

(** Undefined, or a finite number above zero. *)
Definition nan_or_pos (x : float) : Prop :=
  match x with
  | Fin q => 0 < q
  | NaN => True
  end.

(** A finite number equal to zero. *)
Definition zero (x : float) : Prop :=
  match x with
  | Fin q => q == 0
  | NaN => False
  end.

End RsiSpec.

(** ** Configuration entries *)

(** A value that passes the test of the field loop,
    [isinstance(value, (int, float))] and not [value <= 0]: [True], an int
    above zero, or a float that is not at or below zero - a float above
    zero, or a NaN. *)
Definition above_zero (v : Json.value) : Prop :=
  match v with
  | Json.Bool b => b = true
  | Json.Int z => (0 < z)%Z
  | Json.Float x => Binary64.leb x Binary64.zero = false
  | _ => False
  end.

(** An entry that holds the six required fields, each with a value that
    passes the test of the loop, a leverage that is not above 125 and an
    RSI threshold that is not at or above 100. *)
Definition valid_entry (c : gmap string Json.value) : Prop :=
  (forall field, In field RawConfig.required_fields ->
                 exists v, c !! field = Some v /\ above_zero v)
  /\ (forall v, c !! "leverage"%string = Some v -> Json.gt v 125 = false)
  /\ (forall v, c !! "rsi_long_threshold"%string = Some v ->
                Json.ge v 100 = false).

(** An entry whose [enabled] value reads as true. *)
Definition enabled_entry (c : gmap string Json.value) : Prop :=
  exists v, c !! "enabled"%string = Some v /\ Json.truthy v = true.

(** ** Exit percents *)

(** The percents in force for a symbol: those of its entry, 2 and 1 when
    the entry gives none. *)
Definition tp_percent_of (config : gmap string SymbolConfig)
           (symbol : string) : Q :=
  get (take_profit_percent (pairs_get config symbol)) 2.

Definition sl_percent_of (config : gmap string SymbolConfig)
           (symbol : string) : Q :=
  get (stop_loss_percent (pairs_get config symbol)) 1.

(** ** Decisions and stores *)

(** The replay and the live check take the same decision: both close, for
    the same reason, or both hold. *)
Definition same_decision (replay : bool * option string)
           (live : bool * string) : Prop :=
  match replay, live with
  | (true, Some reason), (true, reason') => reason = reason'
  | (false, _), (false, _) => True
  | _, _ => False
  end.

(** The OPEN positions of a symbol. *)
Definition open_positions_of (positions : PositionManager.positions_t)
           (symbol : string) : list Position.t :=
  List.filter (fun position => String.eqb (Position.symbol position) symbol)
              (PositionManager.get_open_positions positions).

(** ** Runs of the replay *)

Module BacktestRun.
Import Backtester.

(** The states the loop goes through: the one it starts from, then the one
    after each bar. *)
Fixpoint trace (step : state -> nat -> result state) (range : list nat)
         (st : state) : result (list state) :=
  match range with
  | [] => Ok [st]
  | i :: rest =>
      st' ← step st i;
      states ← trace step rest st';
      Ok (st :: states)
  end.

Definition last_state (states : list state) : state :=
  List.last states (None, []).

(** 1 when a position is open, 0 when none is. *)
Definition open_now (st : state) : nat :=
  match fst st with
  | Some _ => 1
  | None => 0
  end.

(** The bars that open a position: none before, one after. *)
Fixpoint opens (states : list state) : nat :=
  match states with
  | [] => 0
  | st :: rest =>
      match rest with
      | [] => 0
      | st' :: _ =>
          (if (open_now st =? 0)%nat && (open_now st' =? 1)%nat
           then 1 else 0) + opens rest
      end
  end.

(** The bars that close a position: one before, none after. *)
Fixpoint closes (states : list state) : nat :=
  match states with
  | [] => 0
  | st :: rest =>
      match rest with
      | [] => 0
      | st' :: _ =>
          (if (open_now st =? 1)%nat && (open_now st' =? 0)%nat
           then 1 else 0) + closes rest
      end
  end.

(** What one bar may do.  With no position at its start it records no
    trade.  With a position at its start it keeps that position and the
    trades, or it appends the trade of that position and leaves no position:
    it never ends with another position. *)
Definition bar_effect (st st' : state) : Prop :=
  match fst st with
  | None => snd st' = snd st
  | Some position =>
      (fst st' = Some position /\ snd st' = snd st)
      \/ (fst st' = None
          /\ exists trade,
              snd st' = snd st ++ [trade]
              /\ Trade.entry_time trade
                 = BacktestPosition.entry_time position
              /\ Trade.entry_price trade
                 = BacktestPosition.entry_price position)
  end.

(** A relation holds of each state and the next. *)
Fixpoint adjacent (R : state -> state -> Prop) (states : list state) : Prop :=
  match states with
  | [] => True
  | st :: rest =>
      match rest with
      | [] => True
      | st' :: _ => R st st' /\ adjacent R rest
      end
  end.

End BacktestRun.

(** ** Open positions of a store *)

(** The positions of a symbol that count as open. *)
Definition is_open_of (symbol : string) (position : Position.t) : bool :=
  Status_eqb (Position.status position) OPEN
  && String.eqb (Position.symbol position) symbol.

(** No symbol has two OPEN positions. *)
Definition at_most_one_open (positions : PositionManager.positions_t)
  : Prop :=
  forall symbol, (length (open_positions_of positions symbol) <= 1)%nat.

(** A pass over the store that only closes positions: the store keeps its
    size, no symbol gains an OPEN position, and a CLOSED position stays as
    it is. *)
Definition only_closes (positions positions' : PositionManager.positions_t)
  : Prop :=
  length positions' = length positions
  /\ (forall symbol,
         (length (open_positions_of positions' symbol)
          <= length (open_positions_of positions symbol))%nat)
  /\ forall position_id position,
      Dict.lookup positions position_id = Some position ->
      Position.status position = CLOSED ->
      Dict.lookup positions' position_id = Some position.

(** ** Profit and loss of a list of trades *)

(** The amounts of the trades that are numbers. *)
Definition pnl_amounts (trades : list Trade.t) : list Q :=
  Pandas.observations (map Trade.pnl_usdt trades).

(** The sum of the gains, and the sum of the losses (zero or below). *)
Definition gross_profit (trades : list Trade.t) : Q :=
  Pandas.Qsum (List.filter (fun q => Float.Qlt_bool 0 q) (pnl_amounts trades)).

Definition gross_loss (trades : list Trade.t) : Q :=
  Pandas.Qsum (List.filter (fun q => Float.Qlt_bool q 0) (pnl_amounts trades)).

(** ** Positions and trades of the replay *)

(** A position of the replay entered at a close of the frame, with the
    levels and the leverage of the configuration. *)
Definition entered_at_close (config : gmap string SymbolConfig)
           (symbol : string) (closes : list Q)
           (position : BacktestPosition.t) : Prop :=
  BacktestPosition.side position = Long
  /\ exists e,
      In e closes
      /\ BacktestPosition.entry_price position = Fin e
      /\ BacktestPosition.take_profit position
         = Fin (e * (1 + tp_percent_of config symbol / 100))
      /\ BacktestPosition.stop_loss position
         = Fin (e * (1 - sl_percent_of config symbol / 100))
      /\ BacktestPosition.leverage position
         = Fin (get (leverage (pairs_get config symbol)) 10).

(** A trade entered at a close and left at a later close that has reached
    one of the two levels of the entry. *)
Definition closed_at_level (config : gmap string SymbolConfig)
           (symbol : string) (closes : list Q) (trade : Trade.t) : Prop :=
  Trade.side trade = Long
  /\ exists e x,
      In e closes /\ In x closes
      /\ Trade.entry_price trade = Fin e
      /\ Trade.exit_price trade = Fin x
      /\ ((Trade.exit_reason trade = Some "Take Profit"%string
           /\ e * (1 + tp_percent_of config symbol / 100) <= x)
          \/ (Trade.exit_reason trade = Some "Stop Loss"%string
              /\ x <= e * (1 - sl_percent_of config symbol / 100)
              /\ x < e * (1 + tp_percent_of config symbol / 100)))
      /\ Trade.pnl_percent trade
         = ((Fin x - Fin e) / Fin e * f100
            * Fin (get (leverage (pairs_get config symbol)) 10))%F
      /\ Trade.pnl_usdt trade
         = ((Fin x - Fin e) / Fin e
            * Fin (get (trade_volume (pairs_get config symbol)) 20)
            * Fin (get (leverage (pairs_get config symbol)) 10))%F.

(** A LONG trade entered at a close of the frame and left at a close of
    the frame, for one of the two reasons. *)
Definition between_closes (closes : list Q) (trade : Trade.t) : Prop :=
  Trade.side trade = Long
  /\ (exists e, In e closes /\ Trade.entry_price trade = Fin e)
  /\ (exists x, In x closes /\ Trade.exit_price trade = Fin x)
  /\ (Trade.exit_reason trade = Some "Take Profit"%string
      \/ Trade.exit_reason trade = Some "Stop Loss"%string).

(** A "Take Profit" trade left at or above its entry price, without a
    loss; a "Stop Loss" trade left at or below it, without a gain. *)
Definition right_side_of_entry (trade : Trade.t) : Prop :=
  exists e x percent,
    Trade.entry_price trade = Fin e
    /\ Trade.exit_price trade = Fin x
    /\ Trade.pnl_percent trade = Fin percent
    /\ (Trade.exit_reason trade = Some "Take Profit"%string ->
        e <= x /\ 0 <= percent)
    /\ (Trade.exit_reason trade = Some "Stop Loss"%string ->
        x <= e /\ percent <= 0).

(** What holds of the loop variables of the replay after every bar. *)
Definition replay_invariant (config : gmap string SymbolConfig)
           (symbol : string) (closes : list Q) (st : Backtester.state)
  : Prop :=
  match fst st with
  | Some position => entered_at_close config symbol closes position
  | None => True
  end
  /\ Forall (closed_at_level config symbol closes) (snd st).

(** ** Price series *)

(** No close is above the close before it. *)
Fixpoint never_rises (qs : list Q) : Prop :=
  match qs with
  | [] => True
  | a :: rest =>
      match rest with
      | [] => True
      | b :: _ => b <= a /\ never_rises rest
      end
  end.

(** The closes of the window of [period] bars that ends at bar [i]. *)
Definition trailing (period : nat) (qs : list Q) (i : nat) : list Q :=
  skipn (i + 1 - period) (firstn (i + 1) qs).

(** ** Orders of the live path *)

(** The order of an analysis goes through: the signal is LONG, the symbol
    has no OPEN position, the analysis carries a price and both calls of
    the exchange succeed. *)
Definition order_placed (positions : PositionManager.positions_t)
           (exchange : Exchange.t) (analysis : Analysis.t) : Prop :=
  Analysis.signal analysis = LONG
  /\ PositionManager.has_open_position positions (Analysis.symbol analysis)
     = false
  /\ (exists price, Analysis.current_price analysis = Some price)
  /\ Exchange.set_leverage_ok exchange = true
  /\ Exchange.place_market_order_ok exchange = true.

(** The notification of the opened position goes through: the analysis
    carries an RSI and the event loop answers. *)
Definition notified (exchange : Exchange.t) (analysis : Analysis.t) : Prop :=
  (exists rsi, Analysis.rsi analysis = Some rsi)
  /\ Exchange.notify_position_opened_ok exchange = true.

(** The price of the analysis is not the number zero. *)
Definition price_not_zero (analysis : Analysis.t) : Prop :=
  forall e, Analysis.current_price analysis = Some (Fin e) -> ~ e == 0.


(** ** Exit levels on doubles *)

(** A level of an entry price as the code computes it:
    [entry_price * (1 + percent / 100)] or
    [entry_price * (1 - percent / 100)], each operation rounded. *)
Definition level64 (entry_price : Binary64.t)
           (op : Binary64.t -> Binary64.t -> Binary64.t) (percent : Q)
  : Binary64.t :=
  Binary64.mul entry_price
               (op Binary64.one
                   (Binary64.div (Binary64.of_Q percent) Binary64.hundred)).


(** * Concrete data *)

(** A square root to six decimals, to run the strategy on concrete bars;
    no square root of a negative number. *)
Definition sqrt6 (x : float) : float :=
  match x with
  | Fin q =>
      if Qle_bool 0 q
      then Fin (Z.sqrt (Qnum q * 1000000000000 / Zpos (Qden q)) # 1000000)
      else NaN
  | NaN => NaN
  end.

Definition no_fmt (x : float) : string := "".

Definition btc : string := "BTCUSDT".

(** The configuration of the end-to-end scenarios of the specification. *)
Definition btc_config : SymbolConfig :=
  {| enabled := Some true; leverage := Some 10; trade_volume := Some 20;
     rsi_long_threshold := Some 30; shadow_distance_threshold := Some (3 # 2);
     take_profit_percent := Some 2; stop_loss_percent := Some 1 |}.

Definition config1 : gmap string SymbolConfig := {[ btc := btc_config ]}.

Definition candle (t : Z) (c : Q) : Candle.t :=
  {| Candle.timestamp := t; Candle.open := c; Candle.high := c;
     Candle.low := c; Candle.close := c; Candle.volume := 1 |}.

(** Bars 900 seconds apart with the given closes. *)
Fixpoint bars_from (t : Z) (closes : list Q) : DataFrame :=
  match closes with
  | [] => []
  | c :: rest => candle t c :: bars_from (t + 900) rest
  end.

(** Twenty flat bars, a fall to zero, a recovery. *)
Definition crash_bars : DataFrame :=
  bars_from 0 (repeat 100 20 ++ [0; 5; 5]).

(** Twenty flat bars, a fall of ten percent, a rise. *)
Definition dip_bars : DataFrame :=
  bars_from 0 (repeat 100 20 ++ [90; 91; 92; 95]).

(** A position of the replay entered at price zero. *)
Definition zero_entry : BacktestPosition.t :=
  {| BacktestPosition.symbol := btc;
     BacktestPosition.side := Long;
     BacktestPosition.entry_time := 18000;
     BacktestPosition.entry_price := Fin 0;
     BacktestPosition.quantity := NaN;
     BacktestPosition.take_profit := Fin (0 * (1 + 2 / 100));
     BacktestPosition.stop_loss := Fin (0 * (1 - 1 / 100));
     BacktestPosition.rsi_at_entry := Some (Fin (0 # 6000000000036));
     BacktestPosition.leverage := Fin 10 |}.

Definition entry_100 : BacktestPosition.t :=
  {| BacktestPosition.symbol := btc;
     BacktestPosition.side := Long;
     BacktestPosition.entry_time := 0;
     BacktestPosition.entry_price := Fin 100;
     BacktestPosition.quantity := Fin (20 / 100);
     BacktestPosition.take_profit := Fin (100 * (1 + 2 / 100));
     BacktestPosition.stop_loss := Fin (100 * (1 - 1 / 100));
     BacktestPosition.rsi_at_entry := None;
     BacktestPosition.leverage := Fin 10 |}.

Definition clock1 : Clock.t :=
  {| Clock.stamp := "20240101_000000"; Clock.iso := "2024-01-01T00:00:00" |}.

Definition clock2 : Clock.t :=
  {| Clock.stamp := "20240101_001500"; Clock.iso := "2024-01-01T00:15:00" |}.

Definition exchange_ok : Exchange.t :=
  {| Exchange.set_leverage_ok := true;
     Exchange.place_market_order_ok := true;
     Exchange.notify_position_opened_ok := true |}.

(** A store with one OPEN position of BTCUSDT. *)
Definition positions1 : PositionManager.positions_t :=
  snd (PositionManager.add_position
         [] clock1 btc Long (Fin (1 # 5)) (Fin 100) (Fin 10) (Fin 102) (Fin 99)
         (Some (Fin 20))).

(** The analysis of the bar that falls to zero, and of the bar that falls
    by ten percent. *)
Definition crash_analysis : Analysis.t :=
  TradingStrategy.analyze_symbol config1 sqrt6 no_fmt no_fmt btc
                                 (firstn 21 crash_bars).

Definition dip_analysis : Analysis.t :=
  TradingStrategy.analyze_symbol config1 sqrt6 no_fmt no_fmt btc
                                 (firstn 21 dip_bars).

(** The position the replay opens on the bar that falls by ten percent. *)
Definition dip_entry : BacktestPosition.t :=
  {| BacktestPosition.symbol := btc;
     BacktestPosition.side := Long;
     BacktestPosition.entry_time := 18000;
     BacktestPosition.entry_price := Fin 90;
     BacktestPosition.quantity := Fin (20 / 90);
     BacktestPosition.take_profit := Fin (90 * (1 + 2 / 100));
     BacktestPosition.stop_loss := Fin (90 * (1 - 1 / 100));
     BacktestPosition.rsi_at_entry := Some (Fin (0 # 600000000036));
     BacktestPosition.leverage := Fin 10 |}.

Definition flat3 : Series := repeat (Fin 100) 3.

Definition up4 : Series := [Fin 100; Fin 101; Fin 103; Fin 102].

(** The position of [positions1]. *)
Definition position1 : Position.t :=
  {| Position.id := "BTCUSDT_20240101_000000";
     Position.symbol := btc;
     Position.side := Long;
     Position.quantity := Fin (1 # 5);
     Position.entry_price := Fin 100;
     Position.leverage := Fin 10;
     Position.take_profit := Fin 102;
     Position.stop_loss := Fin 99;
     Position.rsi_at_entry := Some (Fin 20);
     Position.entry_time := "2024-01-01T00:00:00";
     Position.status := OPEN;
     Position.exit_price := None;
     Position.exit_time := None;
     Position.pnl := f0;
     Position.pnl_percent := f0;
     Position.exit_reason := None |}.

(** A SHORT position entered at 100. *)
Definition short_100 : BacktestPosition.t :=
  {| BacktestPosition.symbol := btc;
     BacktestPosition.side := Short;
     BacktestPosition.entry_time := 0;
     BacktestPosition.entry_price := Fin 100;
     BacktestPosition.quantity := Fin (20 / 100);
     BacktestPosition.take_profit := Fin (100 * (1 - 2 / 100));
     BacktestPosition.stop_loss := Fin (100 * (1 + 1 / 100));
     BacktestPosition.rsi_at_entry := None;
     BacktestPosition.leverage := Fin 10 |}.

(** A ticker at 102 and an exchange that closes. *)
Definition visit_102 : Visit.t :=
  {| Visit.current_price := Ok (Fin 102);
     Visit.close_position_ok := true;
     Visit.now := clock2 |}.

(** The bars of [dip_bars] with long wicks: highs 50 above the close, lows
    at zero. *)
Definition dip_bars_wicks : DataFrame :=
  map (fun row =>
         {| Candle.timestamp := Candle.timestamp row;
            Candle.open := Candle.open row;
            Candle.high := Candle.close row + 50;
            Candle.low := 0;
            Candle.close := Candle.close row;
            Candle.volume := 7 |})
      dip_bars.

Definition dip_closes : list Q := map Candle.close dip_bars.

Definition falling5 : list Q := [100; 99; 99; 97; 90].

(** The configuration entries with a symbol that is not enabled. *)
Definition config2 : gmap string SymbolConfig :=
  <[ "ETHUSDT"%string :=
       {| enabled := Some false; leverage := Some 10; trade_volume := Some 20;
          rsi_long_threshold := Some 30;
          shadow_distance_threshold := Some (3 # 2);
          take_profit_percent := Some 2; stop_loss_percent := Some 1 |} ]>
  config1.

(** An analysis that carries no RSI: that of the bar that falls by ten
    percent, with [None] under ['rsi']. *)
Definition dip_analysis_no_rsi : Analysis.t :=
  {| Analysis.symbol := Analysis.symbol dip_analysis;
     Analysis.signal := Analysis.signal dip_analysis;
     Analysis.reason := Analysis.reason dip_analysis;
     Analysis.rsi := None;
     Analysis.bb_upper := Analysis.bb_upper dip_analysis;
     Analysis.bb_middle := Analysis.bb_middle dip_analysis;
     Analysis.bb_lower := Analysis.bb_lower dip_analysis;
     Analysis.current_price := Analysis.current_price dip_analysis;
     Analysis.distance_from_bb_lower :=
       Analysis.distance_from_bb_lower dip_analysis;
     Analysis.config := Analysis.config dip_analysis |}.

(** Positions on doubles: LONG and SHORT at 90.0, LONG at 0.0. *)
Definition long_90 : Binary64.PositionData.t :=
  {| Binary64.PositionData.entry_price := Binary64.of_Q 90;
     Binary64.PositionData.side := Long |}.

Definition short_90 : Binary64.PositionData.t :=
  {| Binary64.PositionData.entry_price := Binary64.of_Q 90;
     Binary64.PositionData.side := Short |}.

Definition long_0 : Binary64.PositionData.t :=
  {| Binary64.PositionData.entry_price := Binary64.of_Q 0;
     Binary64.PositionData.side := Long |}.

(** The doubles [91.8], [89.1] and [88.2]. *)
Definition d91_8 : Binary64.t := Binary64.of_Q (918 # 10).
Definition d89_1 : Binary64.t := Binary64.of_Q (891 # 10).
Definition d88_2 : Binary64.t := Binary64.of_Q (882 # 10).

(** A price of about [1e-315]: one, divided 21 times by [1e15]. *)
Definition tiny_price : Binary64.t :=
  Nat.iter 21
           (fun x => Binary64.div x (Binary64.of_Z 1000000000000000))
           Binary64.one.

(** Entries of a configuration as [json.load] returns them: a usual one;
    one whose numbers are all NaN, enabled by the int 1; one with a
    leverage of 126; one that is not enabled and holds nothing else. *)
Definition raw_entry (enabled : Json.value)
           (leverage shadow trade_volume rsi tp sl : Json.value)
  : Json.value :=
  Json.Object
    (<[ "enabled"%string := enabled ]>
     (<[ "leverage"%string := leverage ]>
      (<[ "shadow_distance_threshold"%string := shadow ]>
       (<[ "trade_volume"%string := trade_volume ]>
        (<[ "rsi_long_threshold"%string := rsi ]>
         (<[ "take_profit_percent"%string := tp ]>
          (<[ "stop_loss_percent"%string := sl ]> ∅))))))).

Definition raw_btc : Json.value :=
  raw_entry (Json.Bool true) (Json.Int 10)
            (Json.Float (Binary64.of_Q (3 # 2))) (Json.Int 20) (Json.Int 30)
            (Json.Float (Binary64.of_Q 2)) (Json.Float (Binary64.of_Q 1)).

Definition json_nan : Json.value := Json.Float PrimFloat.nan.

Definition raw_nan : Json.value :=
  raw_entry (Json.Int 1) json_nan json_nan json_nan json_nan json_nan
            json_nan.

Definition raw_high_leverage : Json.value :=
  raw_entry (Json.Bool true) (Json.Int 126)
            (Json.Float (Binary64.of_Q (3 # 2))) (Json.Int 20) (Json.Int 30)
            (Json.Float (Binary64.of_Q 2)) (Json.Float (Binary64.of_Q 1)).

Definition raw_disabled : Json.value :=
  Json.Object {[ "enabled"%string := Json.Bool false ]}.

Definition raw_config : RawConfig.pairs :=
  <[ "BTCUSDT"%string := raw_btc ]>
  (<[ "NANUSDT"%string := raw_nan ]>
   (<[ "ETHUSDT"%string := raw_disabled ]> ∅)).

(** A configuration with entries that are no dicts: a number, a string
    and a list. *)
Definition raw_config_no_dicts : RawConfig.pairs :=
  <[ "BTCUSDT"%string := raw_btc ]>
  (<[ "ADAUSDT"%string := Json.Int 5 ]>
   (<[ "SOLUSDT"%string := Json.Str "my leverage" ]>
    (<[ "DOTUSDT"%string := Json.Array [Json.Str "fields"] ]> ∅))).

Definition no_fmt_json (v : Json.value) : string := "".


(** * Properties *)

(** ** Comparisons of finite floats *)

Lemma Qlt_bool_iff (x y : Q) : Float.Qlt_bool x y = true <-> x < y.
Proof.
  unfold Float.Qlt_bool. rewrite negb_true_iff.
  split; intros H.
  - apply Qnot_le_lt. intros Hle. apply Qle_bool_iff in Hle. congruence.
  - destruct (Qle_bool y x) eqn:E; [|reflexivity].
    apply Qle_bool_iff in E. exfalso. apply (Qlt_not_le _ _ H E).
Qed.

Lemma ltb_Fin (x y : Q) : (Fin x <? Fin y)%F = true <-> x < y.
Proof. apply Qlt_bool_iff. Qed.

Lemma leb_Fin (x y : Q) : (Fin x <=? Fin y)%F = true <-> x <= y.
Proof. apply Qle_bool_iff. Qed.

Lemma geb_Fin (x y : Q) : (Fin x >=? Fin y)%F = true <-> y <= x.
Proof. apply Qle_bool_iff. Qed.

Lemma gtb_Fin (x y : Q) : (Fin x >? Fin y)%F = true <-> y < x.
Proof. apply Qlt_bool_iff. Qed.

Lemma eqb_Fin (x y : Q) : (Fin x ==? Fin y)%F = true <-> x == y.
Proof. apply Qeq_bool_iff. Qed.

Lemma div_Fin (x y : Q) : ~ y == 0 -> (Fin x / Fin y)%F = Fin (x / y).
Proof.
  intros Hy. unfold Float.div.
  destruct (Qeq_bool y 0) eqn:E; [|reflexivity].
  apply Qeq_bool_iff in E. contradiction.
Qed.

(** ** The RSI series *)

Module RsiFacts.
Import Pandas TechnicalIndicators RsiSpec.

Lemma gains_nonneg (delta : Series) :
  Forall nonneg (where_ (fun d => (d >? f0)%F) f0 delta).
Proof.
  unfold where_. apply Forall_map. apply Forall_forall. intros d _.
  destruct (d >? f0)%F eqn:E.
  - destruct d as [|q]; [discriminate|].
    apply gtb_Fin in E. simpl. lra.
  - simpl. lra.
Qed.

Lemma losses_nonneg (delta : Series) :
  Forall nonneg (map Float.neg (where_ (fun d => (d <? f0)%F) f0 delta)).
Proof.
  unfold where_. rewrite map_map. apply Forall_map.
  apply Forall_forall. intros d _.
  destruct (d <? f0)%F eqn:E.
  - destruct d as [|q]; [discriminate|].
    apply ltb_Fin in E. simpl. lra.
  - simpl. lra.
Qed.

Lemma observations_nonneg (xs : Series) :
  Forall nonneg xs -> Forall (fun q => 0 <= q) (observations xs).
Proof.
  induction 1 as [|x xs Hx _ IH]; simpl; [constructor|].
  destruct x as [|q]; [contradiction|]. constructor; assumption.
Qed.

Lemma Qsum_nonneg (l : list Q) :
  Forall (fun q => 0 <= q) l -> 0 <= Qsum l.
Proof.
  induction 1 as [|q l Hq _ IH]; simpl; [lra|].
  unfold Qsum in *. simpl. lra.
Qed.

Lemma Qlen_pos (l : list Q) : (1 <= length l)%nat -> 0 < Qlen l.
Proof.
  intros H. unfold Qlen.
  change 0 with (inject_Z 0). rewrite <- Zlt_Qlt. lia.
Qed.

Lemma mean_nonneg (l : list Q) :
  (1 <= length l)%nat -> Forall (fun q => 0 <= q) l -> nonneg (mean l).
Proof.
  intros Hlen Hl. unfold mean.
  pose proof (Qlen_pos l Hlen) as Hpos.
  rewrite div_Fin by lra. simpl.
  apply Qle_shift_div_l; [assumption|].
  pose proof (Qsum_nonneg l Hl). lra.
Qed.

Lemma window_Forall (P : float -> Prop) (w : nat) (xs : Series) (i : nat) :
  Forall P xs -> Forall P (window_at w xs i).
Proof. intros H. unfold window_at. apply Forall_drop, Forall_take, H. Qed.

Lemma rolling_mean_nonneg (w : nat) (xs : Series) :
  Forall nonneg xs -> Forall nan_or_nonneg (rolling w 1 mean xs).
Proof.
  intros H. unfold rolling. apply Forall_map. apply Forall_forall.
  intros i _. cbv beta zeta.
  destruct (1 <=? length (observations (window_at w xs i)))%nat eqn:E;
    [|exact I].
  apply Nat.leb_le in E.
  assert (Hm : nonneg (mean (observations (window_at w xs i)))).
  { apply mean_nonneg; [assumption|].
    apply observations_nonneg, window_Forall, H. }
  destruct (mean _); [exact I | exact Hm].
Qed.

Lemma zip_with_Forall (P Q R : float -> Prop) (op : float -> float -> float)
      (xs ys : Series) :
  (forall x y, P x -> Q y -> R (op x y)) ->
  Forall P xs -> Forall Q ys -> Forall R (zip_with op xs ys).
Proof.
  intros Hop Hxs. revert ys.
  induction Hxs as [|x xs Hx _ IH]; intros ys Hys; simpl; [constructor|].
  destruct Hys as [|y ys Hy Hys]; constructor; auto.
Qed.

Lemma zip_with_length (op : float -> float -> float) (xs ys : Series) :
  length xs = length ys -> length (zip_with op xs ys) = length xs.
Proof.
  revert ys. induction xs as [|x xs IH]; intros [|y ys] H; simpl in *;
    try discriminate; auto.
Qed.

Lemma rolling_length (w m : nat) (agg : list Q -> float) (xs : Series) :
  length (rolling w m agg xs) = length xs.
Proof. unfold rolling. rewrite length_map, length_seq. reflexivity. Qed.

Lemma diff_length (xs : Series) : length (diff xs) = length xs.
Proof.
  destruct xs as [|x xs]; [reflexivity|]. simpl. f_equal.
  revert x. induction xs as [|y ys IH]; intros x; simpl; auto.
Qed.

(** [avg_losses + 1e-10] *)
Lemma plus_eps_pos (l : float) : nan_or_nonneg l -> nan_or_pos (l + eps)%F.
Proof. destruct l as [|l]; simpl; [exact id|]. intros Hl. lra. Qed.

(** [avg_gains / (avg_losses + 1e-10)] *)
Lemma rs_nonneg (g d : float) :
  nan_or_nonneg g -> nan_or_pos d -> nan_or_nonneg (g / d)%F.
Proof.
  destruct g as [|g], d as [|d]; simpl; try exact (fun _ _ => I).
  intros Hg Hd.
  destruct (Qeq_bool _ _); [exact I|]. simpl.
  apply Qle_shift_div_l; lra.
Qed.

(** [100 - 100 / (1 + rs)], NaN filled with 50 *)
Lemma rsi_of_rs_bounded (r : float) :
  nan_or_nonneg r ->
  in_0_100 (let x := (f100 - f100 / (f1 + r))%F in
            if Float.isnan x then f50 else x).
Proof.
  destruct r as [|r]; simpl; [lra|]. intros Hr.
  destruct (Qeq_bool (1 + r) 0) eqn:E; simpl; [lra|].
  assert (H0 : 0 <= 100 / (1 + r)) by (apply Qle_shift_div_l; lra).
  assert (H1 : 100 / (1 + r) <= 100) by (apply Qle_shift_div_r; lra).
  lra.
Qed.

Lemma calculate_rsi_bounded (prices : Series) (period : nat) :
  Forall in_0_100 (calculate_rsi prices period).
Proof.
  unfold calculate_rsi, fillna. rewrite map_map.
  apply Forall_map.
  eapply Forall_impl; [|intros r Hr; apply (rsi_of_rs_bounded r Hr)].
  eapply zip_with_Forall; [exact rs_nonneg | | ].
  - apply rolling_mean_nonneg, gains_nonneg.
  - apply Forall_map.
    eapply Forall_impl; [|intros l Hl; apply (plus_eps_pos l Hl)].
    apply rolling_mean_nonneg, losses_nonneg.
Qed.

Lemma calculate_rsi_length (prices : Series) (period : nat) :
  length (calculate_rsi prices period) = length prices.
Proof.
  unfold calculate_rsi, fillna, where_.
  rewrite !length_map, zip_with_length;
    rewrite ?length_map, !rolling_length, ?length_map, ?diff_length;
    reflexivity.
Qed.

(** *** Series without price movement *)

Lemma zero_nonnan (xs : Series) :
  Forall zero xs -> length (observations xs) = length xs.
Proof.
  induction 1 as [|x xs Hx _ IH]; simpl; [reflexivity|].
  destruct x; [contradiction|]. simpl. congruence.
Qed.

Lemma observations_zero (xs : Series) :
  Forall zero xs -> Forall (fun q => q == 0) (observations xs).
Proof.
  induction 1 as [|x xs Hx _ IH]; simpl; [constructor|].
  destruct x; [contradiction|]. constructor; assumption.
Qed.

Lemma Qsum_zero (l : list Q) : Forall (fun q => q == 0) l -> Qsum l == 0.
Proof.
  induction 1 as [|q l Hq _ IH]; simpl; [reflexivity|].
  unfold Qsum in *. simpl. lra.
Qed.

Lemma mean_zero (l : list Q) :
  (1 <= length l)%nat -> Forall (fun q => q == 0) l -> zero (mean l).
Proof.
  intros Hlen Hl. unfold mean.
  pose proof (Qlen_pos l Hlen) as Hpos.
  rewrite div_Fin by lra. simpl.
  unfold Qdiv. rewrite (Qsum_zero l Hl). ring.
Qed.

Lemma window_length (w : nat) (xs : Series) (i : nat) :
  (1 <= w)%nat -> (i < length xs)%nat -> (1 <= length (window_at w xs i))%nat.
Proof.
  intros Hw Hi. unfold window_at. rewrite length_drop, length_take. lia.
Qed.

Lemma rolling_mean_zero (w : nat) (xs : Series) :
  (1 <= w)%nat -> Forall zero xs -> Forall zero (rolling w 1 mean xs).
Proof.
  intros Hw H. unfold rolling. apply Forall_map. apply Forall_forall.
  intros i Hi. cbv beta zeta.
  apply list_elem_of_In, in_seq in Hi.
  pose proof (window_Forall zero w xs i H) as Hwin.
  pose proof (window_length w xs i Hw ltac:(lia)) as Hlen.
  rewrite <- (zero_nonnan _ Hwin) in Hlen.
  apply Nat.leb_le in Hlen as E. rewrite E.
  apply mean_zero; [assumption|]. apply observations_zero, Hwin.
Qed.

Lemma diff_from_flat (q : Q) (n : nat) :
  diff_from (Fin q) (repeat (Fin q) n) = repeat (Fin (q - q)) n.
Proof. induction n as [|n IH]; simpl; [reflexivity|]. now rewrite IH. Qed.

Lemma gains_flat (q : Q) (n : nat) :
  Forall zero (where_ (fun d => (d >? f0)%F) f0 (diff (repeat (Fin q) n))).
Proof.
  destruct n as [|n]; simpl; [constructor|].
  constructor; [simpl; reflexivity|].
  rewrite diff_from_flat. unfold where_. apply Forall_map, Forall_forall.
  intros d Hd. apply list_elem_of_In, repeat_spec in Hd. subst d.
  cbv beta. destruct (Float.Qlt_bool _ _); [change (q - q == 0); ring | reflexivity].
Qed.

Lemma losses_flat (q : Q) (n : nat) :
  Forall zero
    (map Float.neg (where_ (fun d => (d <? f0)%F) f0 (diff (repeat (Fin q) n)))).
Proof.
  destruct n as [|n]; simpl; [constructor|].
  constructor; [simpl; reflexivity|].
  rewrite diff_from_flat. unfold where_. rewrite map_map.
  apply Forall_map, Forall_forall.
  intros d Hd. apply list_elem_of_In, repeat_spec in Hd. subst d.
  cbv beta. destruct (Fin (q - q) <? f0)%F; [change (- (q - q) == 0); ring | reflexivity].
Qed.

(** With no gain and no loss [rs] is [0 / 1e-10], so the RSI is
    [100 - 100 / 1]; it is a number, and [fillna] leaves it alone. *)
Lemma rsi_of_zero (g l : float) :
  zero g -> zero l ->
  zero (let x := (f100 - f100 / (f1 + g / (l + eps)))%F in
        if Float.isnan x then f50 else x).
Proof.
  destruct g as [|g], l as [|l]; simpl; try contradiction.
  intros Hg Hl.
  destruct (Qeq_bool (l + (1 # 10000000000)) 0) eqn:E1.
  { apply Qeq_bool_iff in E1. lra. }
  simpl.
  assert (Hrs : g / (l + (1 # 10000000000)) == 0).
  { unfold Qdiv. rewrite Hg. ring. }
  destruct (Qeq_bool (1 + g / (l + (1 # 10000000000))) 0) eqn:E2.
  { apply Qeq_bool_iff in E2. lra. }
  simpl. rewrite Hrs. reflexivity.
Qed.

Lemma zip_with_map_r (op : float -> float -> float) (f : float -> float)
      (xs ys : Series) :
  zip_with op xs (map f ys) = zip_with (fun x y => op x (f y)) xs ys.
Proof.
  revert ys. induction xs as [|x xs IH]; intros [|y ys]; simpl; auto.
  now rewrite IH.
Qed.

Lemma calculate_rsi_flat_zero (q : Q) (n period : nat) :
  (1 <= period)%nat ->
  Forall zero (calculate_rsi (repeat (Fin q) n) period).
Proof.
  intros Hp. unfold calculate_rsi, fillna.
  rewrite map_map, zip_with_map_r.
  apply Forall_map.
  apply (zip_with_Forall zero zero).
  - intros g l Hg Hl. exact (rsi_of_zero g l Hg Hl).
  - apply rolling_mean_zero; [assumption | apply gains_flat].
  - apply rolling_mean_zero; [assumption | apply losses_flat].
Qed.

(** The first bar has no prior close: its gain and its loss are the [0]
    that [where] puts for the undefined difference. *)
Lemma calculate_rsi_first_bar (p : float) (ps : Series) (n : nat) :
  exists r, hd_error (calculate_rsi (p :: ps) (S n)) = Some (Fin r) /\ r == 0.
Proof. eexists. split; [lazy; reflexivity | reflexivity]. Qed.

End RsiFacts.

(** ** Claims on the indicators *)

Section IndicatorClaims.
Import Pandas TechnicalIndicators RsiSpec RsiFacts.

(** C2 (the code departs from the claim).  The claim: the RSI of a bar
    without prior price movement - the first bar of any series, every bar
    of a flat series - is the neutral 50.  The code: at those bars the gain
    and the loss are both 0, [rs] is [0 / 1e-10 = 0] and the RSI is
    [100 - 100 / 1 = 0]; no position is ever NaN, and [fillna(50)] fills
    nothing.  For every period of one bar or more, the first RSI value of
    every series and every RSI value of every flat series is the number 0,
    not 50. *)
Theorem calculate_rsi_no_movement_is_zero (period : nat) :
  (1 <= period)%nat ->
  (forall (p : float) (ps : Series),
      exists r, hd_error (calculate_rsi (p :: ps) period) = Some (Fin r)
                /\ r == 0 /\ ~ r == 50)
  /\
  (forall (q : Q) (n : nat),
      Forall (fun x => exists r, x = Fin r /\ r == 0 /\ ~ r == 50)
             (calculate_rsi (repeat (Fin q) n) period)).
Proof.
  intros Hp. split.
  - intros p ps. destruct period as [|k]; [lia|].
    destruct (calculate_rsi_first_bar p ps k) as (r & Hhd & Hr).
    exists r. repeat split; [assumption | assumption | lra].
  - intros q n.
    eapply Forall_impl; [apply (calculate_rsi_flat_zero q n period Hp)|].
    intros [|r] Hr; [contradiction|].
    exists r. repeat split; [exact Hr | simpl in Hr; lra].
Qed.

(** C9.  For every close series and every period of one bar or more, the
    RSI series has the length of the input and each of its values is a
    number of the interval [0, 100]. *)
Theorem calculate_rsi_in_0_100 (prices : Series) (period : nat) :
  (1 <= period)%nat ->
  length (calculate_rsi prices period) = length prices
  /\ Forall (fun x => exists r, x = Fin r /\ 0 <= r <= 100)
            (calculate_rsi prices period).
Proof.
  intros _. split; [apply calculate_rsi_length|].
  eapply Forall_impl; [apply calculate_rsi_bounded|].
  intros [|r] Hr; [contradiction|]. exists r. split; [reflexivity | exact Hr].
Qed.

End IndicatorClaims.

(** ** Comparisons of doubles *)

Section Binary64Facts.
Import Binary64.

Lemma Prim2SF_nan (x : t) :
  isnan x = true -> FloatOps.Prim2SF x = SpecFloat.S754_nan.
Proof.
  unfold isnan, PrimFloat.is_nan. rewrite FloatAxioms.eqb_spec.
  destruct (FloatOps.Prim2SF x) as [s | [|] | | [|] m e];
    try reflexivity; cbn;
    rewrite ?Z.compare_refl, ?Pos.compare_cont_refl; discriminate.
Qed.

(** A number that is not NaN is at most itself: [<=] and [>=] include the
    bound. *)
Lemma leb_refl (x : t) : isnan x = false -> (x <=? x)%b64 = true.
Proof.
  unfold isnan, leb, PrimFloat.is_nan.
  rewrite FloatAxioms.leb_spec, FloatAxioms.eqb_spec.
  intros H. apply negb_false_iff in H.
  unfold SpecFloat.SFleb. unfold SpecFloat.SFeqb in H.
  destruct (SpecFloat.SFcompare _ _) as [[]|]; try reflexivity;
    discriminate.
Qed.

Lemma geb_refl (x : t) : isnan x = false -> (x >=? x)%b64 = true.
Proof. exact (leb_refl x). Qed.

(** NaN is below nothing. *)
Lemma ltb_nan (x y : t) : isnan x = true -> (x <? y)%b64 = false.
Proof.
  intros H. unfold ltb. rewrite FloatAxioms.ltb_spec, (Prim2SF_nan x H).
  reflexivity.
Qed.

End Binary64Facts.

(** ** The entry rule *)

Section EntryRule.
Import Binary64 Binary64.TechnicalIndicators.

(** C6.  On doubles, as the code computes: [is_long_signal] is the
    conjunction of its two conditions.  It is true exactly when
    [rsi < rsi_threshold] and the distance that
    [calculate_price_distance_from_bb_lower] returns is at least
    [distance_threshold], and false as soon as one of the two fails.  The
    distance is 0 for a band of zero and
    [(lower_band - price) / lower_band * 100], rounded at each operation,
    otherwise.  An RSI that is NaN gives no signal. *)
Theorem is_long_signal_iff
        (rsi price lower_band rsi_threshold distance_threshold : Binary64.t) :
  let distance := calculate_price_distance_from_bb_lower price lower_band in
  let signal :=
    is_long_signal rsi price lower_band rsi_threshold distance_threshold in
  (signal = true
   <-> (rsi <? rsi_threshold)%b64 = true
       /\ (distance >=? distance_threshold)%b64 = true)
  /\ (signal = false
      <-> (rsi <? rsi_threshold)%b64 = false
          \/ (distance >=? distance_threshold)%b64 = false)
  /\ signal
     = ((rsi <? rsi_threshold)%b64 && (distance >=? distance_threshold)%b64)
  /\ ((lower_band ==? zero)%b64 = true -> distance = zero)
  /\ ((lower_band ==? zero)%b64 = false ->
      distance = ((lower_band - price) / lower_band * hundred)%b64)
  /\ (isnan rsi = true -> signal = false).
Proof.
  intros distance signal. subst distance signal. unfold is_long_signal.
  split; [apply andb_true_iff|]. split; [apply andb_false_iff|].
  split; [reflexivity|].
  unfold calculate_price_distance_from_bb_lower.
  split; [intros ->; reflexivity|]. split; [intros ->; reflexivity|].
  intros Hnan. now rewrite (ltb_nan _ _ Hnan).
Qed.

End EntryRule.

(** The four rows of the truth table, and a distance within one rounding
    of the threshold: [(100 - 71) / 100 * 100] is the double below 29, and
    a threshold of 29 is not reached. *)
Example is_long_signal_truth_table :
  let is_long_signal := Binary64.TechnicalIndicators.is_long_signal in
  let d := Binary64.of_Q in
  is_long_signal (d 20) (d 70) (d 100) (d 30) (d 29) = true
  /\ is_long_signal (d 40) (d 70) (d 100) (d 30) (d 29) = false
  /\ is_long_signal (d 20) (d 99) (d 100) (d 30) (d 29) = false
  /\ is_long_signal (d 40) (d 99) (d 100) (d 30) (d 29) = false
  /\ is_long_signal (d 20) (d 71) (d 100) (d 30) (d 29) = false
  /\ is_long_signal (d 20) (d 71) (d 0) (d 30) (d 0) = true.
Proof. vm_compute. repeat split. Qed.

(** ** Claims on the strategy *)

Section StrategyClaims.
Import TradingStrategy.

Variable config : gmap string SymbolConfig.

(** [calculate_take_profit_stop_loss] on numbers. *)
Lemma take_profit_stop_loss_long (symbol : string) (e : Q) :
  calculate_take_profit_stop_loss config symbol (Fin e) Long
  = (Fin (e * (1 + get (take_profit_percent (pairs_get config symbol)) 2 / 100)),
     Fin (e * (1 - get (stop_loss_percent (pairs_get config symbol)) 1 / 100))).
Proof. reflexivity. Qed.

(** C5.  On a window of fewer than 20 = max(6, 20) bars the evaluator
    answers signal NONE with the reason "Insufficient data" and no
    indicator value, whatever the symbol and the configuration. *)
Theorem analyze_symbol_insufficient_data
        (sqrt : float -> float) (fmt2f fmt : float -> string)
        (symbol : string) (df : DataFrame) :
  (length df < 20)%nat ->
  Nat.max rsi_period bb_period = 20%nat
  /\ analyze_symbol config sqrt fmt2f fmt symbol df
     = {| Analysis.symbol := symbol;
          Analysis.signal := NONE;
          Analysis.reason := "Insufficient data";
          Analysis.rsi := None;
          Analysis.bb_upper := None;
          Analysis.bb_middle := None;
          Analysis.bb_lower := None;
          Analysis.current_price := None;
          Analysis.distance_from_bb_lower := None;
          Analysis.config := None |}.
Proof.
  intros Hlen. split; [reflexivity|].
  unfold analyze_symbol.
  change (Nat.max rsi_period bb_period) with 20%nat.
  apply Nat.ltb_lt in Hlen. rewrite Hlen. reflexivity.
Qed.

End StrategyClaims.

(** ** The exit rule *)

Section ExitRule.
Import Binary64 Binary64.TradingStrategy.

Variable config : gmap string SymbolConfig.

(** The levels as the code computes them, each operation rounded. *)
Lemma calculate_take_profit_stop_loss_eq (symbol : string)
      (entry_price : Binary64.t) (side : Side) :
  calculate_take_profit_stop_loss config symbol entry_price side
  = (level64 entry_price
             (match side with Long => add | Short => sub end)
             (tp_percent_of config symbol),
     level64 entry_price
             (match side with Long => sub | Short => add end)
             (sl_percent_of config symbol)).
Proof. destruct side; reflexivity. Qed.

(** C4, amended.  On doubles, as the code computes.  For a LONG position
    whose entry price is not zero and for every current price, the exit
    check closes with "Take Profit" exactly when the price is at or above
    the level [entry * (1 + take_profit_percent / 100)]; failing that,
    with "Stop Loss" exactly when the price is at or below the level
    [entry * (1 - stop_loss_percent / 100)]; and answers "No exit signal"
    otherwise.  Take-profit is tested first, and both bounds are
    inclusive: a price equal to the level closes.  With an entry price of
    zero the check answers "No entry price available" and does not close,
    whatever the price. *)
Theorem should_close_position_long
        (symbol : string) (position : PositionData.t)
        (current_price : Binary64.t) :
  PositionData.side position = Long ->
  let entry_price := PositionData.entry_price position in
  let take_profit := level64 entry_price add (tp_percent_of config symbol) in
  let stop_loss := level64 entry_price sub (sl_percent_of config symbol) in
  let check := should_close_position config symbol position in
  ((entry_price ==? zero)%b64 = true ->
   check current_price = (false, "No entry price available"))
  /\ ((entry_price ==? zero)%b64 = false ->
      (check current_price = (true, "Take Profit")
       <-> (current_price >=? take_profit)%b64 = true)
      /\ (check current_price = (true, "Stop Loss")
          <-> (current_price >=? take_profit)%b64 = false
              /\ (current_price <=? stop_loss)%b64 = true)
      /\ (check current_price = (false, "No exit signal")
          <-> (current_price >=? take_profit)%b64 = false
              /\ (current_price <=? stop_loss)%b64 = false)
      /\ (isnan take_profit = false ->
          check take_profit = (true, "Take Profit"))
      /\ (isnan stop_loss = false ->
          (stop_loss >=? take_profit)%b64 = false ->
          check stop_loss = (true, "Stop Loss"))).
Proof.
  intros Hside entry_price take_profit stop_loss check.
  assert (Hcheck : forall c,
             (entry_price ==? zero)%b64 = false ->
             check c
             = if (c >=? take_profit)%b64 then (true, "Take Profit"%string)
               else if (c <=? stop_loss)%b64 then (true, "Stop Loss"%string)
                    else (false, "No exit signal"%string)).
  { intros c Hentry. unfold check, should_close_position.
    fold entry_price. rewrite Hentry, calculate_take_profit_stop_loss_eq.
    rewrite Hside. reflexivity. }
  split.
  { intros Hentry. unfold check, should_close_position.
    fold entry_price. now rewrite Hentry. }
  intros Hentry.
  split; [|split; [|split; [|split]]].
  - rewrite (Hcheck _ Hentry).
    destruct (current_price >=? take_profit)%b64; [tauto|].
    destruct (current_price <=? stop_loss)%b64;
      split; intros H; discriminate H.
  - rewrite (Hcheck _ Hentry).
    destruct (current_price >=? take_profit)%b64.
    { split; [discriminate | intros [H _]; discriminate H]. }
    destruct (current_price <=? stop_loss)%b64; [tauto|].
    split; [discriminate | intros [_ H]; discriminate H].
  - rewrite (Hcheck _ Hentry).
    destruct (current_price >=? take_profit)%b64.
    { split; [discriminate | intros [H _]; discriminate H]. }
    destruct (current_price <=? stop_loss)%b64; [|tauto].
    split; [discriminate | intros [_ H]; discriminate H].
  - intros Hnan. rewrite (Hcheck _ Hentry), (geb_refl _ Hnan). reflexivity.
  - intros Hnan Hbelow.
    rewrite (Hcheck _ Hentry), Hbelow, (leb_refl _ Hnan). reflexivity.
Qed.

(** X5.  On doubles, as the code computes.  For a SHORT position whose
    entry price is not zero the exit check is the mirror image of the LONG
    one: "Take Profit" exactly when the price is at or below the level
    [entry * (1 - take_profit_percent / 100)]; failing that, "Stop Loss"
    exactly when it is at or above the level
    [entry * (1 + stop_loss_percent / 100)]; "No exit signal" otherwise.
    Both bounds are inclusive. *)
Theorem should_close_position_short
        (symbol : string) (position : PositionData.t)
        (current_price : Binary64.t) :
  PositionData.side position = Short ->
  (PositionData.entry_price position ==? zero)%b64 = false ->
  let entry_price := PositionData.entry_price position in
  let take_profit := level64 entry_price sub (tp_percent_of config symbol) in
  let stop_loss := level64 entry_price add (sl_percent_of config symbol) in
  let check := should_close_position config symbol position in
  (check current_price = (true, "Take Profit")
   <-> (current_price <=? take_profit)%b64 = true)
  /\ (check current_price = (true, "Stop Loss")
      <-> (current_price <=? take_profit)%b64 = false
          /\ (current_price >=? stop_loss)%b64 = true)
  /\ (check current_price = (false, "No exit signal")
      <-> (current_price <=? take_profit)%b64 = false
          /\ (current_price >=? stop_loss)%b64 = false)
  /\ (isnan take_profit = false ->
      check take_profit = (true, "Take Profit"))
  /\ (isnan stop_loss = false ->
      (stop_loss <=? take_profit)%b64 = false ->
      check stop_loss = (true, "Stop Loss")).
Proof.
  intros Hside Hentry entry_price take_profit stop_loss check.
  assert (Hcheck : forall c,
             check c
             = if (c <=? take_profit)%b64 then (true, "Take Profit"%string)
               else if (c >=? stop_loss)%b64 then (true, "Stop Loss"%string)
                    else (false, "No exit signal"%string)).
  { intros c. unfold check, should_close_position.
    rewrite Hentry, calculate_take_profit_stop_loss_eq.
    rewrite Hside. reflexivity. }
  split; [|split; [|split; [|split]]].
  - rewrite Hcheck.
    destruct (current_price <=? take_profit)%b64; [tauto|].
    destruct (current_price >=? stop_loss)%b64;
      split; intros H; discriminate H.
  - rewrite Hcheck.
    destruct (current_price <=? take_profit)%b64.
    { split; [discriminate | intros [H _]; discriminate H]. }
    destruct (current_price >=? stop_loss)%b64; [tauto|].
    split; [discriminate | intros [_ H]; discriminate H].
  - rewrite Hcheck.
    destruct (current_price <=? take_profit)%b64.
    { split; [discriminate | intros [H _]; discriminate H]. }
    destruct (current_price >=? stop_loss)%b64; [|tauto].
    split; [discriminate | intros [_ H]; discriminate H].
  - intros Hnan. rewrite Hcheck, (leb_refl _ Hnan). reflexivity.
  - intros Hnan Hbelow.
    rewrite Hcheck, Hbelow, (geb_refl _ Hnan). reflexivity.
Qed.

End ExitRule.

(** ** Dict facts *)

Lemma Dict_lookup_set_eq {V : Type} (d : Dict.t V) (k : string) (v : V) :
  Dict.lookup (Dict.set d k v) k = Some v.
Proof.
  induction d as [|[k' v'] d IH]; simpl.
  - now rewrite String.eqb_refl.
  - destruct (String.eqb k k') eqn:E; simpl; rewrite ?String.eqb_refl, ?E; auto.
Qed.

Lemma Dict_lookup_set_ne {V : Type} (d : Dict.t V) (k k' : string) (v : V) :
  k <> k' -> Dict.lookup (Dict.set d k v) k' = Dict.lookup d k'.
Proof.
  intros Hne.
  assert (Hkk : String.eqb k' k = false).
  { apply String.eqb_neq. congruence. }
  induction d as [|[k0 v0] d IH]; simpl.
  - now rewrite Hkk.
  - destruct (String.eqb k k0) eqn:E; simpl.
    + apply String.eqb_eq in E. subst k0. now rewrite Hkk.
    + now rewrite IH.
Qed.

(** ** Sizing and exits of opened positions *)

Section PositionClaims.
Import TradingStrategy.

Variable config : gmap string SymbolConfig.

Lemma calculate_position_size_times_price (symbol : string) (p : Q) :
  ~ p == 0 ->
  exists x,
    (calculate_position_size config symbol (Fin p) * Fin p)%F = Fin x
    /\ x == get (trade_volume (pairs_get config symbol)) 20.
Proof.
  intros Hp. unfold calculate_position_size.
  rewrite (div_Fin _ _ Hp).
  eexists. split; [reflexivity|]. field. exact Hp.
Qed.

(** C8, amended.  For every position opened at a price other than zero, by
    the replay or by the live trade execution, the quantity times the entry
    price is, in exact arithmetic, the trade volume of the symbol's
    configuration (20 when the configuration gives none): the quantity is
    the trade volume divided by the price that is recorded as entry price.
    On the live path the position is in the store as soon as the order has
    gone through, also when the notification that follows raises and
    [execute_trade] answers False. *)
Theorem quantity_times_entry_price (symbol : string) (p : Q) :
  ~ p == 0 ->
  (forall (symbol_config : SymbolConfig) (t : Z) (analysis : Analysis.t),
      Analysis.current_price analysis = Some (Fin p) ->
      exists position x,
        Backtester.open_position config symbol symbol_config t analysis
        = Ok position
        /\ BacktestPosition.entry_price position = Fin p
        /\ (BacktestPosition.quantity position
            * BacktestPosition.entry_price position)%F = Fin x
        /\ x == get (trade_volume (pairs_get config symbol)) 20)
  /\
  (forall (positions : PositionManager.positions_t) (now : Clock.t)
          (exchange : Exchange.t) (analysis : Analysis.t),
      Analysis.symbol analysis = symbol ->
      Analysis.signal analysis = LONG ->
      Analysis.current_price analysis = Some (Fin p) ->
      PositionManager.has_open_position positions symbol = false ->
      Exchange.set_leverage_ok exchange = true ->
      Exchange.place_market_order_ok exchange = true ->
      let outcome :=
        TradingBot.execute_trade config positions now exchange analysis in
      exists position x,
        Dict.lookup (snd outcome) (symbol +:+ "_" +:+ Clock.stamp now)
        = Some position
        /\ Position.status position = OPEN
        /\ Position.entry_price position = Fin p
        /\ (Position.quantity position * Position.entry_price position)%F
           = Fin x
        /\ x == get (trade_volume (pairs_get config symbol)) 20
        /\ (fst outcome = true
            <-> (exists rsi, Analysis.rsi analysis = Some rsi)
                /\ Exchange.notify_position_opened_ok exchange = true)).
Proof.
  intros Hp.
  destruct (calculate_position_size_times_price symbol p Hp) as (x & Hx & Hv).
  split.
  - intros symbol_config t analysis Hprice.
    unfold Backtester.open_position. rewrite Hprice. simpl.
    eexists. exists x. split; [reflexivity|]. simpl.
    split; [reflexivity|]. split; assumption.
  - intros positions now exchange analysis Hsym Hsig Hprice Hnone Hlev Hord
           outcome.
    unfold outcome, TradingBot.execute_trade, TradingBot.execute_trade_try,
      TradingBot.notify_position_opened.
    rewrite Hsig, Hsym, Hnone, Hprice, Hlev, Hord.
    cbn [Signal_eqb negb number].
    unfold PositionManager.add_position.
    destruct (Analysis.rsi analysis) as [rsi|];
      [destruct (Exchange.notify_position_opened_ok exchange)|];
      cbn [number mbind result_bind negb fst snd];
      (eexists; exists x;
       split; [apply Dict_lookup_set_eq|];
       cbn [Position.status Position.entry_price Position.quantity];
       split; [reflexivity|]; split; [reflexivity|];
       split; [exact Hx|]; split; [exact Hv|]).
    + split; [intros _; split; [eauto | reflexivity] | reflexivity].
    + split; [discriminate | intros [_ H]; discriminate H].
    + split; [discriminate | intros [[r H] _]; discriminate H].
Qed.

(** [should_close_position] reads the entry price and the side only. *)
Lemma should_close_position_ext
      {A B : Type} `{PositionData A} `{PositionData B}
      (symbol : string) (a : A) (b : B) (c : float) :
  entry_price_of a = entry_price_of b ->
  side_of a = side_of b ->
  should_close_position config symbol a c
  = should_close_position config symbol b c.
Proof.
  intros He Hs. unfold should_close_position. now rewrite He, Hs.
Qed.

(** Away from an entry price of zero the two paths decide alike.  For
    every position the replay opens under a configuration that stays the
    same, whose entry price is not zero, and for every current price, the
    exit decision of the replay (on the levels stored at entry) and the
    decision of [should_close_position] (on levels recomputed from the
    entry price and the configuration) are the same: both close with the
    same reason, or both hold.  The same holds of [should_close_position]
    on any LONG position data with that entry price, such as the position
    the live path stores. *)
Lemma exit_decisions_agree
        (symbol : string) (symbol_config : SymbolConfig) (t : Z)
        (analysis : Analysis.t) (position : BacktestPosition.t) (c : float) :
  Backtester.open_position config symbol symbol_config t analysis
  = Ok position ->
  (BacktestPosition.entry_price position ==? f0)%F = false ->
  exists decision,
    Backtester.exit_check position (Some c) = Ok decision
    /\ same_decision decision
                     (should_close_position config symbol position c)
    /\ forall (live : Position.t),
        Position.entry_price live = BacktestPosition.entry_price position ->
        Position.side live = Long ->
        same_decision decision
                      (should_close_position config symbol live c).
Proof.
  intros Hopen Hentry.
  unfold Backtester.open_position in Hopen.
  destruct (Analysis.current_price analysis) as [e|]; [|discriminate].
  unfold number, mbind, result_bind in Hopen. cbv beta iota in Hopen.
  destruct (calculate_take_profit_stop_loss config symbol e Long)
    as [take_profit stop_loss] eqn:Hlevels.
  injection Hopen as <-.
  cbn [BacktestPosition.entry_price] in Hentry.
  assert (Hlive : forall (A : Type) (PD : PositionData A) (a : A),
             entry_price_of a = e -> side_of a = Long ->
             should_close_position config symbol a c
             = if (c >=? take_profit)%F then (true, "Take Profit")
               else if (c <=? stop_loss)%F then (true, "Stop Loss")
                    else (false, "No exit signal")).
  { intros A PD a He Hs. unfold should_close_position.
    rewrite He, Hs, Hentry, Hlevels. reflexivity. }
  unfold Backtester.exit_check, number, mbind, result_bind.
  cbn [BacktestPosition.side BacktestPosition.take_profit
       BacktestPosition.stop_loss].
  match goal with
  | |- context [should_close_position config symbol ?p c] =>
      rewrite (Hlive BacktestPosition.t BacktestPosition_data p eq_refl eq_refl)
  end.
  destruct (c >=? take_profit)%F.
  { eexists. split; [reflexivity|]. split; [reflexivity|].
    intros live He Hs. now rewrite (Hlive Position.t Position_data live He Hs). }
  destruct (c <=? stop_loss)%F.
  { eexists. split; [reflexivity|]. split; [reflexivity|].
    intros live He Hs. now rewrite (Hlive Position.t Position_data live He Hs). }
  eexists. split; [reflexivity|]. split; [exact I|].
  intros live He Hs. now rewrite (Hlive Position.t Position_data live He Hs).
Qed.

(** C3 (the code departs from the claim).  The claim: for every position
    opened under an unchanged configuration and every current price, the
    exit decision of the replay equals that of [should_close_position].
    The code: the two agree for every position whose entry price is not
    zero.  For a position the replay opens at an entry price of zero they
    differ at every price: [should_close_position] has the guard
    [entry_price == 0] and answers "No entry price available" without
    closing, while the replay, which compares with the levels stored at
    entry (both zero), closes - with "Take Profit" at a price of zero or
    above, with "Stop Loss" below.  The agreement away from zero is also
    one of the doubles the code computes with: the replay stores the two
    levels it computes at entry, [should_close_position] computes them
    again by the same operations on the same entry price, and the same
    comparisons follow; at an entry price of [0.0] or [-0.0] the guard
    answers before any comparison. *)
Theorem exit_decisions_agree_unless_zero_entry
        (symbol : string) (symbol_config : SymbolConfig) (t : Z)
        (analysis : Analysis.t) (position : BacktestPosition.t) :
  Backtester.open_position config symbol symbol_config t analysis
  = Ok position ->
  ((BacktestPosition.entry_price position ==? f0)%F = false ->
   forall c : float,
   exists decision,
     Backtester.exit_check position (Some c) = Ok decision
     /\ same_decision decision
                      (should_close_position config symbol position c))
  /\ ((BacktestPosition.entry_price position ==? f0)%F = true ->
      forall c : Q,
        should_close_position config symbol position (Fin c)
        = (false, "No entry price available")
        /\ exists reason,
            Backtester.exit_check position (Some (Fin c))
            = Ok (true, Some reason)
            /\ (reason = "Take Profit" <-> 0 <= c)
            /\ (reason = "Stop Loss" <-> c < 0)
            /\ ~ same_decision
                   (true, Some reason)
                   (should_close_position config symbol position (Fin c)))
  /\ (forall (entry_price c : Binary64.t) (side : Side),
        let opened :=
          Binary64.Backtester.open_position config symbol entry_price in
        let live :=
          {| Binary64.PositionData.entry_price := entry_price;
             Binary64.PositionData.side := Binary64.Backtester.side opened |}
        in
        (Binary64.eqb entry_price Binary64.zero = false ->
         same_decision
           (Binary64.Backtester.exit_check opened c)
           (Binary64.TradingStrategy.should_close_position
              config symbol live c))
        /\ (Binary64.eqb entry_price Binary64.zero = true ->
            Binary64.TradingStrategy.should_close_position
              config symbol
              {| Binary64.PositionData.entry_price := entry_price;
                 Binary64.PositionData.side := side |} c
            = (false, "No entry price available"))).
Proof.
  intros Hopen. split; [|split].
  - intros Hentry c.
    destruct (exit_decisions_agree symbol symbol_config t analysis position c
                                   Hopen Hentry)
      as (decision & Hd & Hsame & _).
    exists decision. split; assumption.
  - intros Hentry c.
    assert (Hlive : should_close_position config symbol position (Fin c)
                    = (false, "No entry price available")).
    { unfold should_close_position.
      change (entry_price_of position)
        with (BacktestPosition.entry_price position).
      now rewrite Hentry. }
    split; [exact Hlive|]. rewrite Hlive.
    unfold Backtester.open_position in Hopen.
    destruct (Analysis.current_price analysis) as [[|e]|];
      [| |discriminate].
    { cbn [number mbind result_bind] in Hopen.
      destruct (calculate_take_profit_stop_loss config symbol NaN Long).
      injection Hopen as <-. discriminate Hentry. }
    cbn [number mbind result_bind] in Hopen.
    rewrite take_profit_stop_loss_long in Hopen. injection Hopen as <-.
    cbn [BacktestPosition.entry_price] in Hentry.
    apply eqb_Fin in Hentry.
    unfold Backtester.exit_check.
    cbn [BacktestPosition.side BacktestPosition.take_profit
         BacktestPosition.stop_loss number mbind result_bind].
    set (tp := get (take_profit_percent (pairs_get config symbol)) 2).
    set (sl := get (stop_loss_percent (pairs_get config symbol)) 1).
    assert (Htp : e * (1 + tp / 100) == 0) by (rewrite Hentry; ring).
    assert (Hsl : e * (1 - sl / 100) == 0) by (rewrite Hentry; ring).
    destruct (Fin c >=? Fin (e * (1 + tp / 100)))%F eqn:E1.
    + apply geb_Fin in E1. rewrite Htp in E1.
      exists "Take Profit"%string. split; [reflexivity|].
      split; [tauto|]. split; [|exact (fun H => H)].
      split; [discriminate | intros H; lra].
    + assert (Hc : c < 0).
      { apply Qnot_le_lt. intros H. rewrite <- Htp in H.
        apply geb_Fin in H. congruence. }
      assert (E2 : (Fin c <=? Fin (e * (1 - sl / 100)))%F = true).
      { apply leb_Fin. rewrite Hsl. lra. }
      rewrite E2. exists "Stop Loss"%string. split; [reflexivity|].
      split; [split; [discriminate | intros H; lra]|].
      split; [tauto | exact (fun H => H)].
  - intros e c side opened live. split.
    + intros Hentry. subst opened live.
      unfold Binary64.Backtester.exit_check,
        Binary64.Backtester.open_position,
        Binary64.TradingStrategy.should_close_position.
      destruct (Binary64.TradingStrategy.calculate_take_profit_stop_loss
                  config symbol e Long) as [take_profit stop_loss] eqn:E.
      cbn [Binary64.Backtester.side Binary64.Backtester.take_profit
           Binary64.Backtester.stop_loss Binary64.PositionData.entry_price
           Binary64.PositionData.side].
      rewrite Hentry, E.
      destruct (Binary64.geb c take_profit); [reflexivity|].
      destruct (Binary64.leb c stop_loss); [reflexivity | exact I].
    + intros Hentry.
      unfold Binary64.TradingStrategy.should_close_position.
      cbn [Binary64.PositionData.entry_price]. now rewrite Hentry.
Qed.

End PositionClaims.

(** ** Claims on the replay *)

Section BacktestClaims.
Import Backtester BacktestRun TradingStrategy.

Variable config : gmap string SymbolConfig.
Variable sqrt : float -> float.
Variable fmt2f : float -> string.
Variable fmt : float -> string.
Variable symbol : string.
Variable symbol_config : SymbolConfig.
Variable df : DataFrame.

Lemma analyze_symbol_current_price (window : DataFrame) :
  (20 <= length window)%nat ->
  exists p,
    Analysis.current_price
      (analyze_symbol config sqrt fmt2f fmt symbol window) = Some p.
Proof.
  intros Hlen. unfold analyze_symbol.
  change (Nat.max rsi_period bb_period) with 20%nat.
  assert (E : (length window <? 20)%nat = false) by (apply Nat.ltb_ge; lia).
  rewrite E.
  destruct (TechnicalIndicators.calculate_bollinger_bands _ _ _ _)
    as [[bb_upper bb_middle] bb_lower].
  destruct (is_empty _ || _); [eexists; reflexivity|].
  destruct (TechnicalIndicators.is_long_signal _ _ _ _ _);
    eexists; reflexivity.
Qed.

Lemma exit_check_total (position : BacktestPosition.t) (p : float) :
  exists should_close exit_reason,
    exit_check position (Some p) = Ok (should_close, exit_reason).
Proof.
  unfold exit_check, number, mbind, result_bind.
  destruct (BacktestPosition.side position); [|eauto].
  destruct (p >=? _)%F; [eauto|].
  destruct (p <=? _)%F; eauto.
Qed.

(** One bar of the loop, at an index the loop visits: it raises nothing
    and its effect is a [bar_effect]. *)
Lemma bar_effect_of_bar (st : state) (i : nat) :
  (20 <= i < length df)%nat ->
  exists st',
    bar config sqrt fmt2f fmt symbol symbol_config df st i = Ok st'
    /\ bar_effect st st'.
Proof.
  intros Hi. destruct st as [position trades]. unfold bar.
  assert (Hwin : (20 <= length (firstn (i + 1) df))%nat).
  { rewrite length_take. lia. }
  destruct (analyze_symbol_current_price _ Hwin) as [p Hp].
  destruct position as [position|].
  - rewrite Hp.
    destruct (exit_check_total position p) as (should_close & reason & Hx).
    rewrite Hx. unfold mbind, result_bind, number. cbv beta iota.
    destruct should_close.
    + eexists. split; [reflexivity|]. unfold bar_effect. simpl.
      right. split; [reflexivity|]. eexists. repeat split.
    + eexists. split; [reflexivity|]. unfold bar_effect. simpl. now left.
  - destruct (Signal_eqb _ LONG).
    + unfold open_position. rewrite Hp.
      unfold mbind, result_bind, number. cbv beta iota.
      destruct (calculate_take_profit_stop_loss _ _ _ _).
      eexists. split; [reflexivity|]. reflexivity.
    + eexists. split; [reflexivity|]. reflexivity.
Qed.

Lemma trace_invariant (range : list nat) (st : state) :
  Forall (fun i => (20 <= i < length df)%nat) range ->
  exists states,
    trace (bar config sqrt fmt2f fmt symbol symbol_config df) range st
    = Ok states
    /\ bars (bar config sqrt fmt2f fmt symbol symbol_config df) range st
       = Ok (last_state states)
    /\ hd_error states = Some st
    /\ adjacent bar_effect states
    /\ length (snd (last_state states))
       = (length (snd st) + closes states)%nat
    /\ (opens states + open_now st
        = closes states + open_now (last_state states))%nat.
Proof.
  intros Hrange. revert st.
  induction Hrange as [|i rest Hi _ IH]; intros st.
  - exists [st]. unfold last_state. simpl. repeat split; lia.
  - destruct (bar_effect_of_bar st i Hi) as (st' & Hstep & Heff).
    destruct (IH st') as (states & Htr & Hbars & Hhd & Hadj & Hlen & Hcnt).
    destruct states as [|st0 tl]; [discriminate|].
    injection Hhd as ->.
    exists (st :: st' :: tl).
    split; [simpl; rewrite Hstep; simpl; rewrite Htr; reflexivity|].
    split; [simpl; rewrite Hstep; simpl; rewrite Hbars; reflexivity|].
    split; [reflexivity|].
    split; [split; assumption|].
    change (last_state (st :: st' :: tl)) with (last_state (st' :: tl)).
    change (opens (st :: st' :: tl))
      with ((if (open_now st =? 0)%nat && (open_now st' =? 1)%nat
             then 1 else 0) + opens (st' :: tl))%nat.
    change (closes (st :: st' :: tl))
      with ((if (open_now st =? 1)%nat && (open_now st' =? 0)%nat
             then 1 else 0) + closes (st' :: tl))%nat.
    clear Hstep Htr Hbars Hadj IH.
    set (final := last_state (st' :: tl)) in *.
    set (o := opens (st' :: tl)) in *.
    set (c := closes (st' :: tl)) in *.
    clearbody final o c.
    destruct st as [position trades], st' as [position' trades'].
    unfold bar_effect in Heff. unfold open_now in *.
    cbn [fst snd] in *.
    destruct position as [position|].
    + destruct Heff as [[-> ->] | [-> (trade & -> & _)]];
        cbn [Nat.eqb andb]; [split; lia|].
      rewrite length_app in Hlen. cbn [length] in Hlen. split; lia.
    + subst trades'. destruct position'; cbn [Nat.eqb andb]; split; lia.
Qed.

End BacktestClaims.

(** C10.  In every run of the replay, after any number of bars: the loop
    has raised nothing; each bar that starts with a position either keeps
    that very position or records its trade and ends with no position, and
    each bar that starts without one records no trade ([bar_effect]), so
    that a bar that closes a position opens none; the trades recorded are
    as many as the bars that closed a position; and the bars that opened a
    position are as many as those that closed one, plus one when a position
    is open now - at most one position is open at any bar.  The list
    [run_backtest] returns is the list of trades after the last bar: a
    position still open then has no trade in it. *)
Theorem run_backtest_one_position
        (config : gmap string SymbolConfig) (sqrt : float -> float)
        (fmt2f fmt : float -> string) (symbol : string) (df : DataFrame)
        (n : nat) :
  (20 + n <= length df)%nat ->
  let symbol_config := pairs_get config symbol in
  let step := Backtester.bar config sqrt fmt2f fmt symbol symbol_config df in
  exists states,
    BacktestRun.trace step (seq 20 n) (None, []) = Ok states
    /\ Backtester.bars step (seq 20 n) (None, [])
       = Ok (BacktestRun.last_state states)
    /\ BacktestRun.adjacent BacktestRun.bar_effect states
    /\ BacktestRun.closes states
       = length (snd (BacktestRun.last_state states))
    /\ (BacktestRun.opens states
        = BacktestRun.closes states
          + BacktestRun.open_now (BacktestRun.last_state states))%nat
    /\ ((n = length df - 20)%nat ->
        Backtester.run_backtest config sqrt fmt2f fmt symbol df
        = if is_empty symbol_config
             || negb (get (enabled symbol_config) false)
          then Ok []
          else Ok (snd (BacktestRun.last_state states))).
Proof.
  intros Hn symbol_config step.
  assert (Hrange : Forall (fun i => (20 <= i < length df)%nat) (seq 20 n)).
  { apply Forall_forall. intros i Hi.
    apply list_elem_of_In, in_seq in Hi. lia. }
  destruct (trace_invariant config sqrt fmt2f fmt symbol symbol_config df
                            (seq 20 n) (None, []) Hrange)
    as (states & Htr & Hbars & _ & Hadj & Hlen & Hcnt).
  exists states. fold step in Htr, Hbars.
  split; [exact Htr|]. split; [exact Hbars|]. split; [exact Hadj|].
  cbn [snd length] in Hlen. cbn [BacktestRun.open_now fst] in Hcnt.
  split; [lia|]. split; [unfold BacktestRun.open_now in *; lia|].
  intros ->. unfold Backtester.run_backtest. fold symbol_config.
  destruct (is_empty symbol_config || _); [reflexivity|].
  unfold Backtester.bar_range.
  change (Nat.max 20 6) with 20%nat. fold step. rewrite Hbars.
  unfold mbind, result_bind.
  destruct (BacktestRun.last_state states). reflexivity.
Qed.

(** ** Claims on the position store *)

Section StoreClaims.
Import PositionManager.

(** C1 as stated fails: with an OPEN position of BTCUSDT in the store, a
    second [add_position] for BTCUSDT returns an id and the store then
    holds two OPEN positions of the symbol. *)
Lemma add_position_second_open_accepted :
  has_open_position positions1 btc = true
  /\ exists position_id positions2,
      add_position positions1 clock2 btc Long (Fin (1 # 5)) (Fin 100)
                   (Fin 10) (Fin 102) (Fin 99) (Some (Fin 20))
      = (position_id, positions2)
      /\ position_id = "BTCUSDT_20240101_001500"
      /\ length (open_positions_of positions2 btc) = 2%nat.
Proof.
  split; [reflexivity|].
  eexists. eexists. split; [reflexivity|]. split; reflexivity.
Qed.

(** C1, amended.  [add_position] checks nothing: on every store, also one
    that holds an OPEN position of the symbol, it returns the id
    [symbol_stamp] and stores under it a new OPEN position of the symbol,
    the positions under the other ids staying as they are.  The second
    position of a symbol is refused by the caller, [execute_trade], which
    answers False, without an error, and leaves the store as it is when
    the symbol has an OPEN position. *)
Theorem add_position_no_check
        (positions : positions_t) (now : Clock.t) (symbol : string)
        (side : Side)
        (quantity entry_price leverage take_profit stop_loss : float)
        (rsi_at_entry : option float) :
  let position_id := (symbol +:+ "_" +:+ Clock.stamp now)%string in
  (exists positions' position,
      add_position positions now symbol side quantity entry_price leverage
                   take_profit stop_loss rsi_at_entry
      = (position_id, positions')
      /\ Dict.lookup positions' position_id = Some position
      /\ Position.status position = OPEN
      /\ Position.symbol position = symbol
      /\ forall other, other <> position_id ->
                       Dict.lookup positions' other
                       = Dict.lookup positions other)
  /\ (forall (config : gmap string SymbolConfig) (exchange : Exchange.t)
             (analysis : Analysis.t),
         Analysis.symbol analysis = symbol ->
         has_open_position positions symbol = true ->
         TradingBot.execute_trade config positions now exchange analysis
         = (false, positions)).
Proof.
  intros position_id. split.
  - eexists. eexists. split; [reflexivity|].
    split; [apply Dict_lookup_set_eq|].
    split; [reflexivity|]. split; [reflexivity|].
    intros other Hne. apply Dict_lookup_set_ne.
    intros E. apply Hne. symmetry. exact E.
  - intros config exchange analysis Hsym Hopen.
    unfold TradingBot.execute_trade. rewrite Hsym, Hopen.
    destruct (negb _); reflexivity.
Qed.

(** C7.  [close_position] raises when the id is unknown and when the
    position under the id is not OPEN, and in both cases the store is left
    as it was; more generally, whenever [close_position] raises, the store
    is left as it was.  Closing an OPEN position whose entry price is not
    zero succeeds, stores the position as CLOSED under its id, and after
    that every further [close_position] of the id raises "is not open" and
    leaves the store as it is. *)
Theorem close_position_errors
        (positions : positions_t) (now : Clock.t) (position_id : string)
        (exit_price : float) (reason : string) :
  (Dict.lookup positions position_id = None ->
   close_position positions now position_id exit_price reason
   = (Raise (ValueError ("Position " +:+ position_id +:+ " not found")),
      positions))
  /\ (forall position,
         Dict.lookup positions position_id = Some position ->
         Position.status position <> OPEN ->
         close_position positions now position_id exit_price reason
         = (Raise (ValueError ("Position " +:+ position_id +:+ " is not open")),
            positions))
  /\ (forall e positions',
         close_position positions now position_id exit_price reason
         = (Raise e, positions') ->
         positions' = positions)
  /\ (forall position,
         Dict.lookup positions position_id = Some position ->
         Position.status position = OPEN ->
         (Position.entry_price position ==? f0)%F = false ->
         exists closed positions',
           close_position positions now position_id exit_price reason
           = (Ok closed, positions')
           /\ Dict.lookup positions' position_id = Some closed
           /\ Position.status closed = CLOSED
           /\ forall now' exit_price' reason',
               close_position positions' now' position_id exit_price' reason'
               = (Raise (ValueError
                           ("Position " +:+ position_id +:+ " is not open")),
                  positions')).
Proof.
  split; [|split; [|split]].
  - intros Hnone. unfold close_position. now rewrite Hnone.
  - intros position Hsome Hstatus. unfold close_position. rewrite Hsome.
    destruct (Position.status position); [contradiction|reflexivity].
  - intros e positions'. unfold close_position.
    destruct (Dict.lookup positions position_id) as [position|].
    + destruct (negb _).
      * intros E. now injection E as _ <-.
      * destruct (_ ==? _)%F.
        -- intros E. now injection E as _ <-.
        -- discriminate.
    + intros E. now injection E as _ <-.
  - intros position Hsome Hstatus Hentry. unfold close_position at 1.
    rewrite Hsome, Hstatus, Hentry. cbn [Status_eqb negb].
    eexists. eexists. split; [reflexivity|].
    split; [apply Dict_lookup_set_eq|]. split; [reflexivity|].
    intros now' exit_price' reason'. unfold close_position.
    rewrite Dict_lookup_set_eq. reflexivity.
Qed.

End StoreClaims.

(** ** The scenarios of the specification, run *)

(** Entry at 100 with leverage 10 and a stop of one percent: the level is
    99, the price 99 closes with "Stop Loss" and the stored position shows
    minus ten percent. *)
Example stop_loss_scenario :
  TradingStrategy.should_close_position config1 btc entry_100 (Fin 99)
  = (true, "Stop Loss")
  /\ exists closed positions',
      PositionManager.close_position
        positions1 clock2 "BTCUSDT_20240101_000000" (Fin 99) "Stop Loss"
      = (Ok closed, positions')
      /\ (Position.pnl_percent closed ==? Fin (-10))%F = true
      /\ Position.exit_reason closed = Some "Stop Loss"
      /\ PositionManager.has_open_position positions' btc = false.
Proof.
  split; [reflexivity|]. eexists. eexists.
  split; [reflexivity|]. split; [reflexivity|]. split; reflexivity.
Qed.

(** A fall of ten percent after twenty flat bars gives LONG; two bars
    later the close 92 is above the level 91.8 and the replay records one
    trade, closed with "Take Profit". *)
Example take_profit_scenario :
  Analysis.signal dip_analysis = LONG
  /\ exists trade,
      Backtester.run_backtest config1 sqrt6 no_fmt no_fmt btc dip_bars
      = Ok [trade]
      /\ Trade.entry_price trade = Fin 90
      /\ Trade.exit_price trade = Fin 92
      /\ Trade.exit_reason trade = Some "Take Profit"
      /\ (Trade.quantity trade * Trade.entry_price trade ==? Fin 20)%F = true.
Proof.
  split; [vm_compute; reflexivity|].
  eexists. split; [vm_compute; reflexivity|].
  split; [reflexivity|]. split; [reflexivity|]. split; reflexivity.
Qed.

(** A flat series opens nothing: the RSI is 0, below the threshold, and
    the price is on the lower band, not below it. *)
Example flat_series_scenario :
  Backtester.run_backtest config1 sqrt6 no_fmt no_fmt btc
                          (bars_from 0 (repeat 100 25)) = Ok []
  /\ map (fun x => (x ==? f0)%F) (TechnicalIndicators.calculate_rsi flat3 6)
     = [true; true; true]
  /\ map (fun x => (x ==? f50)%F) (TechnicalIndicators.calculate_rsi flat3 6)
     = [false; false; false].
Proof.
  split; [vm_compute; reflexivity|]. split; vm_compute; reflexivity.
Qed.

(** ** The claims at concrete inputs *)

Lemma calculate_rsi_no_movement_witness :
  (1 <= 6)%nat
  /\ Forall (fun x => exists r, x = Fin r /\ r == 0 /\ ~ r == 50)
            (TechnicalIndicators.calculate_rsi flat3 6).
Proof.
  assert (H : (1 <= 6)%nat) by lia.
  split; [exact H|].
  exact (proj2 (calculate_rsi_no_movement_is_zero 6 H) 100 3%nat).
Defined.

Lemma calculate_rsi_in_0_100_witness :
  (1 <= 6)%nat
  /\ length (TechnicalIndicators.calculate_rsi up4 6) = 4%nat
  /\ Forall (fun x => exists r, x = Fin r /\ 0 <= r <= 100)
            (TechnicalIndicators.calculate_rsi up4 6).
Proof.
  assert (H : (1 <= 6)%nat) by lia.
  split; [exact H|].
  exact (calculate_rsi_in_0_100 up4 6 H).
Defined.

Lemma analyze_symbol_insufficient_data_witness :
  (length (firstn 19 dip_bars) < 20)%nat
  /\ Analysis.signal
       (TradingStrategy.analyze_symbol config1 sqrt6 no_fmt no_fmt btc
                                       (firstn 19 dip_bars)) = NONE
  /\ Analysis.current_price
       (TradingStrategy.analyze_symbol config1 sqrt6 no_fmt no_fmt btc
                                       (firstn 19 dip_bars)) = None.
Proof.
  assert (H : (length (firstn 19 dip_bars) < 20)%nat) by (vm_compute; lia).
  split; [exact H|].
  rewrite (proj2 (analyze_symbol_insufficient_data
                    config1 sqrt6 no_fmt no_fmt btc (firstn 19 dip_bars) H)).
  split; reflexivity.
Defined.

Lemma quantity_times_entry_price_witness :
  ~ 90 == 0
  /\ exists position x,
      Backtester.open_position config1 btc btc_config 18000 dip_analysis
      = Ok position
      /\ BacktestPosition.entry_price position = Fin 90
      /\ (BacktestPosition.quantity position
          * BacktestPosition.entry_price position)%F = Fin x
      /\ x == 20.
Proof.
  assert (H : ~ 90 == 0) by (intros E; discriminate E).
  split; [exact H|].
  apply (proj1 (quantity_times_entry_price config1 btc 90 H)
               btc_config 18000%Z dip_analysis).
  vm_compute. reflexivity.
Defined.

(** C8 as stated fails at a price of zero: the replay opens a position on
    the bar that falls to zero, its quantity is nothing finite, and the
    quantity times the entry price is not the trade volume 20. *)
Lemma quantity_times_entry_price_at_zero :
  Analysis.signal crash_analysis = LONG
  /\ Backtester.open_position config1 btc btc_config 18000 crash_analysis
     = Ok zero_entry
  /\ (BacktestPosition.quantity zero_entry
      * BacktestPosition.entry_price zero_entry)%F = NaN
  /\ (BacktestPosition.quantity zero_entry
      * BacktestPosition.entry_price zero_entry ==? Fin 20)%F = false.
Proof.
  split; [vm_compute; reflexivity|].
  split; [vm_compute; reflexivity|].
  split; reflexivity.
Qed.

(** C3 as stated fails for the position the replay opens at price zero: at
    the next bar, priced 5, the replay closes it with "Take Profit" (and
    records the trade), the check of the live path holds. *)
Lemma exit_decisions_differ_at_zero_entry :
  Backtester.open_position config1 btc btc_config 18000 crash_analysis
  = Ok zero_entry
  /\ Backtester.exit_check zero_entry (Some (Fin 5))
     = Ok (true, Some "Take Profit")
  /\ TradingStrategy.should_close_position config1 btc zero_entry (Fin 5)
     = (false, "No entry price available")
  /\ exists trade,
      Backtester.run_backtest config1 sqrt6 no_fmt no_fmt btc crash_bars
      = Ok [trade]
      /\ Trade.entry_price trade = Fin 0
      /\ Trade.exit_price trade = Fin 5
      /\ Trade.exit_reason trade = Some "Take Profit".
Proof.
  split; [vm_compute; reflexivity|].
  split; [reflexivity|]. split; [reflexivity|].
  eexists. split; [vm_compute; reflexivity|].
  split; [reflexivity|]. split; reflexivity.
Qed.

Lemma run_backtest_one_position_witness :
  (20 + 1 <= length (firstn 21 dip_bars))%nat
  /\ exists states,
      BacktestRun.trace
        (Backtester.bar config1 sqrt6 no_fmt no_fmt btc
                        (pairs_get config1 btc) (firstn 21 dip_bars))
        (seq 20 1) (None, []) = Ok states
      /\ BacktestRun.closes states
         = length (snd (BacktestRun.last_state states))
      /\ (BacktestRun.opens states
          = BacktestRun.closes states
            + BacktestRun.open_now (BacktestRun.last_state states))%nat
      /\ BacktestRun.open_now (BacktestRun.last_state states) = 1%nat
      /\ Backtester.run_backtest config1 sqrt6 no_fmt no_fmt btc
                                 (firstn 21 dip_bars) = Ok [].
Proof.
  assert (H : (20 + 1 <= length (firstn 21 dip_bars))%nat)
    by (vm_compute; lia).
  split; [exact H|].
  destruct (run_backtest_one_position config1 sqrt6 no_fmt no_fmt btc
                                      (firstn 21 dip_bars) 1 H)
    as (states & Htr & _ & _ & Hcl & Hop & _).
  exists states.
  split; [exact Htr|]. split; [exact Hcl|]. split; [exact Hop|].
  assert (E : BacktestRun.trace
                (Backtester.bar config1 sqrt6 no_fmt no_fmt btc
                                (pairs_get config1 btc) (firstn 21 dip_bars))
                (seq 20 1) (None, []) = Ok [(None, []); (Some dip_entry, [])])
    by (vm_compute; reflexivity).
  rewrite E in Htr. injection Htr as <-.
  split; [reflexivity | vm_compute; reflexivity].
Defined.

Lemma add_position_no_check_witness :
  (Analysis.symbol dip_analysis = btc
   /\ PositionManager.has_open_position positions1 btc = true)
  /\ TradingBot.execute_trade config1 positions1 clock2 exchange_ok
                              dip_analysis
     = (false, positions1).
Proof.
  assert (H1 : Analysis.symbol dip_analysis = btc) by (vm_compute; reflexivity).
  assert (H2 : PositionManager.has_open_position positions1 btc = true)
    by reflexivity.
  split; [split; [exact H1 | exact H2]|].
  exact (proj2 (add_position_no_check
                  positions1 clock2 btc Long (Fin (1 # 5)) (Fin 100) (Fin 10)
                  (Fin 102) (Fin 99) (Some (Fin 20)))
               config1 exchange_ok dip_analysis H1 H2).
Defined.

Lemma close_position_errors_witness :
  (Dict.lookup positions1 "ETHUSDT_20240101_000000" = None
   /\ exists position,
       Dict.lookup positions1 "BTCUSDT_20240101_000000" = Some position
       /\ Position.status position = OPEN)
  /\ PositionManager.close_position
       positions1 clock2 "ETHUSDT_20240101_000000" (Fin 102) "Take Profit"
     = (Raise (ValueError "Position ETHUSDT_20240101_000000 not found"),
        positions1)
  /\ exists closed positions',
      PositionManager.close_position
        positions1 clock2 "BTCUSDT_20240101_000000" (Fin 102) "Take Profit"
      = (Ok closed, positions')
      /\ Position.status closed = CLOSED
      /\ PositionManager.close_position
           positions' clock2 "BTCUSDT_20240101_000000" (Fin 102) "Take Profit"
         = (Raise (ValueError "Position BTCUSDT_20240101_000000 is not open"),
            positions').
Proof.
  assert (H1 : Dict.lookup positions1 "ETHUSDT_20240101_000000" = None)
    by reflexivity.
  split.
  { split; [exact H1|]. eexists. split; reflexivity. }
  split.
  - exact (proj1 (close_position_errors
                    positions1 clock2 "ETHUSDT_20240101_000000" (Fin 102)
                    "Take Profit") H1).
  - destruct (proj2 (proj2 (proj2 (close_position_errors
                                     positions1 clock2
                                     "BTCUSDT_20240101_000000"
                                     (Fin 102) "Take Profit")))
                    _ eq_refl eq_refl eq_refl)
      as (closed & positions' & Hclose & _ & Hstatus & Hagain).
    exists closed, positions'.
    split; [exact Hclose|]. split; [exact Hstatus|].
    exact (Hagain clock2 (Fin 102) "Take Profit").
Defined.

(** * Further properties of the code *)

(** ** The configuration helpers *)

Section ConfigFacts.
Import StrategyConfig.

Variable config : gmap string SymbolConfig.

Lemma Qle_bool_false (x y : Q) : Qle_bool x y = false <-> y < x.
Proof.
  split; intros H.
  - apply Qnot_le_lt. intros Hle. apply Qle_bool_iff in Hle. congruence.
  - destruct (Qle_bool x y) eqn:E; [|reflexivity].
    apply Qle_bool_iff in E. lra.
Qed.

Lemma Qlt_bool_false (x y : Q) : Float.Qlt_bool x y = false <-> y <= x.
Proof.
  unfold Float.Qlt_bool. rewrite negb_false_iff. apply Qle_bool_iff.
Qed.

Lemma In_get_enabled_symbols (symbol : string) :
  In symbol (get_enabled_symbols config)
  <-> exists c, config !! symbol = Some c /\ enabled c = Some true.
Proof.
  unfold get_enabled_symbols. rewrite in_map_iff. split.
  - intros ([s c] & <- & Hin). apply filter_In in Hin as [Hin Hen].
    apply list_elem_of_In, elem_of_map_to_list in Hin.
    exists c. split; [exact Hin|]. cbn in Hen.
    destruct (enabled c) as [[|]|]; cbn in Hen; congruence.
  - intros (c & Hc & Hen). exists (symbol, c). split; [reflexivity|].
    apply filter_In. split.
    + apply list_elem_of_In, elem_of_map_to_list, Hc.
    + cbn. now rewrite Hen.
Qed.

Lemma NoDup_map_filter {A B : Type} (f : A -> B) (P : A -> bool)
      (l : list A) :
  NoDup (map f l) -> NoDup (map f (List.filter P l)).
Proof.
  induction l as [|a l IH]; simpl; [auto|].
  intros Hnd. apply NoDup_cons in Hnd as [Hnotin Hnd].
  destruct (P a); simpl; [|auto].
  apply NoDup_cons. split; [|auto].
  intros Hin. apply Hnotin.
  apply list_elem_of_In in Hin. apply list_elem_of_In.
  apply in_map_iff in Hin as (x & Hx & Hin).
  apply in_map_iff. exists x. split; [assumption|].
  apply filter_In in Hin. tauto.
Qed.

(** X2.  The enabled symbols are the keys of the configuration whose entry
    has [enabled] set to true - a key without the [enabled] entry is not
    among them - and each is listed once. *)
Theorem get_enabled_symbols_spec :
  (forall symbol,
      In symbol (get_enabled_symbols config)
      <-> exists c, config !! symbol = Some c /\ enabled c = Some true)
  /\ NoDup (get_enabled_symbols config).
Proof.
  split; [exact In_get_enabled_symbols|].
  unfold get_enabled_symbols. apply NoDup_map_filter.
  apply (NoDup_fst_map_to_list config).
Qed.

End ConfigFacts.

(** ** Validation of the configuration *)

Section ValidationFacts.
Import RawConfig.

Variable config : pairs.
Variable fmt : Json.value -> string.

Lemma above_zero_iff (v : Json.value) :
  negb (Json.is_number v) || Json.le v 0 = false <-> above_zero v.
Proof.
  destruct v as [|b|z|x|s|items|fields];
    cbn [Json.is_number Json.le negb orb above_zero];
    try (split; [discriminate | intros []]).
  - destruct b; cbn; split; congruence.
  - apply Z.leb_gt.
  - reflexivity.
Qed.

(** On a dict the field loop raises nothing, and it passes exactly when
    every field it is given holds a value that passes its test. *)
Lemma check_fields_object (symbol : string) (c : gmap string Json.value)
      (fields : list string) :
  exists failure,
    check_fields fmt symbol (Json.Object c) fields = Ok failure
    /\ (failure = None
        <-> forall field, In field fields ->
                          exists v, c !! field = Some v /\ above_zero v).
Proof.
  induction fields as [|f rest IH];
    cbn [check_fields Json.contains Json.getitem mbind result_bind].
  - exists None. split; [reflexivity|].
    split; [intros _ field [] | reflexivity].
  - destruct (c !! f) as [v|] eqn:Hf; cbn [negb mbind result_bind].
    + destruct (negb (Json.is_number v) || Json.le v 0) eqn:Hv.
      * eexists. split; [reflexivity|].
        split; [discriminate|]. intros H.
        destruct (H f (or_introl eq_refl)) as (v' & Hv' & Hpos).
        rewrite Hf in Hv'. injection Hv' as <-.
        apply above_zero_iff in Hpos. congruence.
      * destruct IH as (failure & Hok & Hiff). exists failure.
        split; [exact Hok|]. rewrite Hiff.
        apply above_zero_iff in Hv. split.
        -- intros H field [<- | Hin]; [eauto | auto].
        -- intros H field Hin. apply H. now right.
    + eexists. split; [reflexivity|].
      split; [discriminate|]. intros H.
      destruct (H f (or_introl eq_refl)) as (v' & Hv' & _). congruence.
Qed.

(** On a value that is no dict the first field already stops the loop:
    the membership test raises, or finds nothing, or the indexing that
    follows it raises. *)
Lemma check_fields_no_object (symbol : string) (v : Json.value)
      (field : string) (rest : list string) :
  (forall c, v <> Json.Object c) ->
  check_fields fmt symbol v (field :: rest) <> Ok None.
Proof.
  intros Hv.
  destruct v as [|b|z|x|s|items|fields];
    cbn [check_fields Json.contains Json.getitem mbind result_bind];
    try discriminate.
  - destruct (String.index 0 field s); cbn [negb mbind result_bind];
      discriminate.
  - destruct (existsb _ items); cbn [negb mbind result_bind]; discriminate.
  - now destruct (Hv fields).
Qed.

Lemma no_fields_lookup (c : gmap string Json.value) (field : string) (v : Json.value) :
  c !! field = Some v -> Json.no_fields c = false.
Proof.
  intros H. unfold Json.no_fields.
  destruct (map_to_list c) as [|item l] eqn:E; [|reflexivity].
  apply elem_of_map_to_list in H. rewrite E in H.
  apply elem_of_nil in H. destruct H.
Qed.

Lemma validate_symbol_config_message (symbol : string) (msg : string) :
  validate_symbol_config config fmt symbol = Ok (true, msg) ->
  msg = "Configuration valid"%string.
Proof.
  unfold validate_symbol_config.
  destruct (negb (Json.truthy _)); [discriminate|].
  destruct (check_fields _ _ _ _) as [[m|]|e];
    cbn [mbind result_bind]; try discriminate.
  destruct (Json.getitem _ "leverage") as [leverage|e];
    cbn [mbind result_bind]; [|discriminate].
  destruct (Json.gt leverage 125); [discriminate|].
  destruct (Json.getitem _ "rsi_long_threshold") as [rsi|e];
    cbn [mbind result_bind]; [|discriminate].
  destruct (Json.ge rsi 100); [discriminate|].
  intros E. now injection E as <-.
Qed.

Lemma validate_symbol_config_accepts (symbol : string) :
  validate_symbol_config config fmt symbol = Ok (true, "Configuration valid")
  <-> exists c, config !! symbol = Some (Json.Object c) /\ valid_entry c.
Proof.
  unfold validate_symbol_config, valid_entry. split.
  - destruct (config !! symbol) as [v|]; cbn [get];
      [|cbn; discriminate].
    destruct (negb (Json.truthy v)); [discriminate|].
    destruct v as [|b|z|x|s|items|c];
      try (intros H; exfalso; revert H;
           destruct (check_fields fmt symbol _ required_fields)
             as [[m|]|e] eqn:Hf;
           cbn [mbind result_bind]; try discriminate;
           exfalso; revert Hf; apply check_fields_no_object;
           discriminate).
    destruct (check_fields_object symbol c required_fields)
      as (failure & Hok & Hiff).
    rewrite Hok. cbn [mbind result_bind Json.getitem].
    destruct failure as [m|]; [discriminate|].
    pose proof (proj1 Hiff eq_refl) as Hfields.
    destruct (c !! "leverage"%string) as [leverage|] eqn:Hl;
      cbn [mbind result_bind]; [|discriminate].
    destruct (Json.gt leverage 125) eqn:E1; [discriminate|].
    destruct (c !! "rsi_long_threshold"%string) as [rsi|] eqn:Hr;
      cbn [mbind result_bind]; [|discriminate].
    destruct (Json.ge rsi 100) eqn:E2; [discriminate|].
    intros _. exists c. split; [reflexivity|].
    split; [exact Hfields|].
    split; intros v Hv; [rewrite Hl in Hv | rewrite Hr in Hv];
      injection Hv as <-; assumption.
  - intros (c & Hc & Hf & Hlev & Hrsi). rewrite Hc. cbn [get Json.truthy].
    destruct (Hf "leverage"%string) as (lev & Hl & _); [now left|].
    destruct (Hf "rsi_long_threshold"%string) as (rsi & Hr & _);
      [right; right; right; now left|].
    rewrite (no_fields_lookup c _ _ Hl). cbn [negb].
    destruct (check_fields_object symbol c required_fields)
      as (failure & Hok & Hiff).
    rewrite Hok, (proj2 Hiff Hf). cbn [mbind result_bind Json.getitem].
    rewrite Hl. cbn [mbind result_bind]. rewrite (Hlev lev Hl), Hr.
    cbn [mbind result_bind]. now rewrite (Hrsi rsi Hr).
Qed.

(** X1.  [validate_symbol_config] accepts a symbol exactly when its entry
    is a dict that holds each of the six required fields with a value that
    passes the test of the loop - [True], an int above zero, or a float
    that is not at or below zero, which a NaN is not - with a leverage
    that is not above 125 and an RSI threshold that is not at or above 100
    ([valid_entry]); the message is then "Configuration valid".  The
    [enabled] key plays no part.  A symbol without entry is refused with
    "No configuration found"; on an entry that is a dict nothing is
    raised. *)
Theorem validate_symbol_config_true_iff (symbol : string) :
  (validate_symbol_config config fmt symbol
   = Ok (true, "Configuration valid")
   <-> exists c, config !! symbol = Some (Json.Object c) /\ valid_entry c)
  /\ (forall msg,
         validate_symbol_config config fmt symbol = Ok (true, msg) ->
         msg = "Configuration valid"%string)
  /\ (config !! symbol = None
      -> validate_symbol_config config fmt symbol
         = Ok (false, "No configuration found for " +:+ symbol))
  /\ (forall c,
         config !! symbol = Some (Json.Object c) ->
         exists answer,
           validate_symbol_config config fmt symbol = Ok answer).
Proof.
  split; [apply validate_symbol_config_accepts|].
  split; [apply validate_symbol_config_message|]. split.
  - intros Hnone. unfold validate_symbol_config.
    rewrite Hnone. reflexivity.
  - intros c Hc. unfold validate_symbol_config. rewrite Hc. cbn [get].
    destruct (negb (Json.truthy _)); [eauto|].
    destruct (check_fields_object symbol c required_fields)
      as (failure & Hok & Hiff).
    rewrite Hok. cbn [mbind result_bind Json.getitem].
    destruct failure as [m|]; [eauto|].
    destruct (proj1 Hiff eq_refl "leverage"%string) as (lev & Hl & _);
      [now left|].
    destruct (proj1 Hiff eq_refl "rsi_long_threshold"%string)
      as (rsi & Hr & _); [right; right; right; now left|].
    rewrite Hl. cbn [mbind result_bind].
    destruct (Json.gt lev 125); [eauto|].
    rewrite Hr. cbn [mbind result_bind].
    destruct (Json.ge rsi 100); eauto.
Qed.

Lemma enabled_entry_iff (c : gmap string Json.value) :
  Json.truthy (get (c !! "enabled"%string) (Json.Bool false)) = true
  <-> enabled_entry c.
Proof.
  unfold enabled_entry.
  destruct (c !! "enabled"%string) as [v|]; cbn [get Json.truthy].
  - split; [eauto|]. intros (v' & E & H). now injection E as ->.
  - split; [discriminate|]. intros (v' & E & _). discriminate.
Qed.

(** The loop of [get_enabled_symbols] ends without raising exactly on
    dicts, and then has added the symbols of the enabled ones. *)
Lemma enabled_loop_Ok (items : list (string * Json.value))
      (acc l : list string) :
  enabled_loop items acc = Ok l ->
  (forall s v, In (s, v) items -> exists c, v = Json.Object c)
  /\ forall s, In s l
               <-> In s acc
                   \/ exists c, In (s, Json.Object c) items
                                /\ enabled_entry c.
Proof.
  revert acc. induction items as [|[s0 v0] items IH]; intros acc;
    cbn [enabled_loop].
  - intros E. injection E as <-. split; [intros s v []|].
    intros s. split; [auto|]. intros [H | (c & [] & _)]. exact H.
  - destruct v0 as [|b|z|x|str|arr|c0];
      cbn [Json.get_default mbind result_bind]; try discriminate.
    pose proof (enabled_entry_iff c0) as Hen.
    destruct (Json.truthy _) eqn:Ht; intros E;
      destruct (IH _ E) as [Hobj Hmem]; (split;
        [intros s v [H | H]; [injection H as <- <-; eauto | eauto]|]);
      intros s; rewrite Hmem; [rewrite in_app_iff|]; split.
    + intros [[H | [<- | []]] | (c & Hin & Hc)].
      * now left.
      * right. exists c0. split; [now left|]. now apply Hen.
      * right. exists c. split; [now right | exact Hc].
    + intros [H | (c & [Heq | Hin] & Hc)].
      * left. now left.
      * injection Heq as <- <-. left. right. now left.
      * right. eauto.
    + intros [H | (c & Hin & Hc)]; [now left|].
      right. exists c. split; [now right | exact Hc].
    + intros [H | (c & [Heq | Hin] & Hc)]; [now left | | right; eauto].
      injection Heq as <- <-. apply Hen in Hc. congruence.
Qed.

Lemma enabled_loop_Raise (items : list (string * Json.value))
      (acc : list string) (e : exn) :
  enabled_loop items acc = Raise e ->
  exists s v, In (s, v) items /\ forall c, v <> Json.Object c.
Proof.
  revert acc. induction items as [|[s0 v0] items IH]; intros acc;
    cbn [enabled_loop]; [discriminate|].
  destruct v0 as [|b|z|x|str|arr|c0];
    cbn [Json.get_default mbind result_bind];
    try (intros _; eexists; eexists; split; [now left | discriminate]).
  destruct (Json.truthy _); intros E;
    destruct (IH _ E) as (s & v & Hin & Hv);
    exists s, v; (split; [now right | exact Hv]).
Qed.

Lemma In_map_to_list (s : string) (v : Json.value) :
  In (s, v) (map_to_list config) <-> config !! s = Some v.
Proof.
  rewrite <- list_elem_of_In. apply elem_of_map_to_list.
Qed.

Lemma validate_loop_true (symbols : list string) :
  validate_loop config fmt symbols = Ok true
  <-> forall s, In s symbols ->
                validate_symbol_config config fmt s
                = Ok (true, "Configuration valid").
Proof.
  induction symbols as [|s0 rest IH]; cbn [validate_loop].
  - split; [intros _ s [] | reflexivity].
  - destruct (validate_symbol_config config fmt s0) as [[[] msg]|e] eqn:E;
      cbn [mbind result_bind negb].
    + rewrite (validate_symbol_config_message s0 msg E) in E.
      rewrite IH. split.
      * intros H s [<- | Hin]; [exact E | auto].
      * intros H s Hin. apply H. now right.
    + split; [discriminate|]. intros H.
      specialize (H s0 (or_introl eq_refl)). congruence.
    + split; [discriminate|]. intros H.
      specialize (H s0 (or_introl eq_refl)). congruence.
Qed.

(** X3.  [validate_configuration] accepts exactly when every entry of the
    configuration is a dict, at least one entry is enabled - its [enabled]
    value reads as true - and every enabled entry is a [valid_entry]; the
    entries that are not enabled are looked at for their [enabled] value
    only. *)
Theorem validate_configuration_true_iff :
  validate_configuration config fmt = true
  <-> (forall symbol v, config !! symbol = Some v ->
                        exists c, v = Json.Object c)
      /\ (exists symbol c,
             config !! symbol = Some (Json.Object c) /\ enabled_entry c)
      /\ forall symbol c,
          config !! symbol = Some (Json.Object c) ->
          enabled_entry c -> valid_entry c.
Proof.
  unfold validate_configuration, validate_configuration_try,
    get_enabled_symbols.
  destruct (enabled_loop (map_to_list config) []) as [l|e] eqn:E;
    cbn [mbind result_bind].
  - destruct (enabled_loop_Ok _ _ _ E) as [Hobj Hmem].
    assert (Hin : forall s, In s l
                            <-> exists c, config !! s = Some (Json.Object c)
                                          /\ enabled_entry c).
    { intros s. rewrite Hmem. split.
      - intros [[] | (c & H & Hc)]. apply In_map_to_list in H. eauto.
      - intros (c & H & Hc). right. exists c.
        split; [now apply In_map_to_list | exact Hc]. }
    assert (Hall : (forall symbol v, config !! symbol = Some v ->
                                     exists c, v = Json.Object c)).
    { intros s v H. apply (Hobj s). now apply In_map_to_list. }
    destruct l as [|s0 l'].
    + split; [discriminate|]. intros (_ & (s & c & Hc & Hen) & _).
      destruct (proj2 (Hin s)); eauto.
    + destruct (validate_loop config fmt (s0 :: l')) as [[]|e] eqn:Hv.
      * split; [intros _ | reflexivity].
        split; [exact Hall|]. split.
        -- destruct (proj1 (Hin s0) (or_introl eq_refl)) as (c & Hc & Hen).
           eauto.
        -- intros s c Hc Hen.
           pose proof (proj1 (validate_loop_true _) Hv s
                             (proj2 (Hin s) (ex_intro _ c (conj Hc Hen))))
             as Hs.
           apply validate_symbol_config_accepts in Hs
             as (c' & Hc' & Hvalid).
           rewrite Hc in Hc'. now injection Hc' as <-.
      * split; [discriminate|]. intros (_ & _ & Hvalid).
        assert (Ht : validate_loop config fmt (s0 :: l') = Ok true).
        { apply validate_loop_true. intros s Hs.
          apply Hin in Hs as (c & Hc & Hen).
          apply validate_symbol_config_accepts. eauto. }
        congruence.
      * split; [discriminate|]. intros (_ & _ & Hvalid).
        assert (Ht : validate_loop config fmt (s0 :: l') = Ok true).
        { apply validate_loop_true. intros s Hs.
          apply Hin in Hs as (c & Hc & Hen).
          apply validate_symbol_config_accepts. eauto. }
        congruence.
  - split; [discriminate|]. intros (Hall & _).
    destruct (enabled_loop_Raise _ _ _ E) as (s & v & Hin & Hv).
    apply In_map_to_list in Hin.
    destruct (Hall s v Hin) as (c & ->). now destruct (Hv c).
Qed.

End ValidationFacts.

(** ** Exit levels *)

Section LevelFacts.
Import TradingStrategy.

Variable config : gmap string SymbolConfig.

Lemma take_profit_stop_loss_short (symbol : string) (e : Q) :
  calculate_take_profit_stop_loss config symbol (Fin e) Short
  = (Fin (e * (1 - tp_percent_of config symbol / 100)),
     Fin (e * (1 + sl_percent_of config symbol / 100))).
Proof. reflexivity. Qed.

Lemma take_profit_stop_loss_long' (symbol : string) (e : Q) :
  calculate_take_profit_stop_loss config symbol (Fin e) Long
  = (Fin (e * (1 + tp_percent_of config symbol / 100)),
     Fin (e * (1 - sl_percent_of config symbol / 100))).
Proof. reflexivity. Qed.

(** X4.  For an entry price above zero and percents above zero, the levels
    of a LONG position lie around the entry price, stop below and target
    above; those of a SHORT position are their mirror images: target
    below, stop above, at the same distances. *)
Theorem take_profit_stop_loss_order (symbol : string) (e : Q) :
  0 < e -> 0 < tp_percent_of config symbol -> 0 < sl_percent_of config symbol ->
  exists tp_long sl_long tp_short sl_short,
    calculate_take_profit_stop_loss config symbol (Fin e) Long
    = (Fin tp_long, Fin sl_long)
    /\ calculate_take_profit_stop_loss config symbol (Fin e) Short
       = (Fin tp_short, Fin sl_short)
    /\ sl_long < e < tp_long
    /\ tp_short < e < sl_short
    /\ tp_long - e == e - tp_short
    /\ e - sl_long == sl_short - e.
Proof.
  intros He Htp Hsl.
  do 4 eexists.
  split; [apply take_profit_stop_loss_long'|].
  split; [apply take_profit_stop_loss_short|].
  set (t := tp_percent_of config symbol) in *. set (s := sl_percent_of config symbol) in *.
  assert (Ht : 0 < e * (t / 100)).
  { apply Qmult_lt_0_compat; [assumption|].
    apply Qlt_shift_div_l; lra. }
  assert (Hs : 0 < e * (s / 100)).
  { apply Qmult_lt_0_compat; [assumption|].
    apply Qlt_shift_div_l; lra. }
  repeat split; try lra; ring.
Qed.

End LevelFacts.

(** ** The evaluator *)

Section EvaluatorFacts.
Import TradingStrategy Pandas.

Variable config : gmap string SymbolConfig.
Variable sqrt : float -> float.
Variable fmt2f : float -> string.
Variable fmt : float -> string.

Lemma close_of_length (df : DataFrame) : length (close_of df) = length df.
Proof. unfold close_of. apply length_map. Qed.

Lemma last_Forall {A : Type} (P : A -> Prop) (l : list A) (d : A) :
  l <> [] -> Forall P l -> P (List.last l d).
Proof.
  intros Hne Hall. induction Hall as [|x l Hx Hall IH]; [contradiction|].
  destruct l as [|y l]; [exact Hx|]. apply IH. discriminate.
Qed.

Lemma iloc_last_close_of (df : DataFrame) (row : Candle.t) :
  last df = Some row -> iloc_last (close_of df) = Fin (Candle.close row).
Proof.
  unfold iloc_last, close_of.
  induction df as [|r df IH]; [discriminate|].
  destruct df as [|r' df]; simpl.
  - intros [= ->]. reflexivity.
  - intros H. apply IH. exact H.
Qed.

Lemma iloc_last_rsi_bounded (prices : Series) (period : nat) :
  prices <> [] ->
  exists r, iloc_last (TechnicalIndicators.calculate_rsi prices period) = Fin r
            /\ 0 <= r <= 100.
Proof.
  intros Hne.
  assert (Hrsi : TechnicalIndicators.calculate_rsi prices period <> []).
  { intros E. apply (f_equal (@length float)) in E.
    rewrite RsiFacts.calculate_rsi_length in E.
    destruct prices; [contradiction | discriminate]. }
  pose proof (last_Forall _ _ NaN Hrsi
                (RsiFacts.calculate_rsi_bounded prices period)) as H.
  unfold iloc_last.
  destruct (List.last _ NaN) as [|r]; [contradiction|].
  exists r. split; [reflexivity | exact H].
Qed.

Lemma enough_bars (df : DataFrame) :
  (20 <= length df)%nat ->
  (length df <? Nat.max rsi_period bb_period)%nat = false
  /\ close_of df <> [] /\ exists row, last df = Some row.
Proof.
  intros Hlen. split; [apply Nat.ltb_ge; exact Hlen|]. split.
  - intros E. apply (f_equal (@length float)) in E.
    rewrite close_of_length in E. simpl in E. lia.
  - destruct (last df) as [row|] eqn:E; [eauto|].
    apply last_None in E. subst df. simpl in Hlen. lia.
Qed.

(** X7.  On 20 bars or more, a symbol that is not configured, or not
    enabled, gets signal NONE with the reason "Symbol not configured or
    disabled" - and still the indicator values of the last bar: the last
    value of the RSI(6) series of the closes, which is a number of
    [0, 100]; the last values of the three bands of
    [calculate_bollinger_bands] on the closes with period 20 and width 2,
    each under its own key; and the close of the last bar as current
    price.  The answer carries no distance and no configuration. *)
Theorem analyze_symbol_disabled (symbol : string) (df : DataFrame) :
  (20 <= length df)%nat ->
  get (enabled (pairs_get config symbol)) false = false ->
  let analysis := analyze_symbol config sqrt fmt2f fmt symbol df in
  let bands :=
    TechnicalIndicators.calculate_bollinger_bands
      sqrt (close_of df) 20 (Fin 2) in
  Analysis.signal analysis = NONE
  /\ Analysis.reason analysis = "Symbol not configured or disabled"
  /\ Analysis.rsi analysis
     = Some (iloc_last (TechnicalIndicators.calculate_rsi (close_of df) 6))
  /\ (exists r, Analysis.rsi analysis = Some (Fin r) /\ 0 <= r <= 100)
  /\ Analysis.current_price analysis = Some (iloc_last (close_of df))
  /\ (exists row, last df = Some row
                  /\ Analysis.current_price analysis
                     = Some (Fin (Candle.close row)))
  /\ Analysis.bb_upper analysis = Some (iloc_last (fst (fst bands)))
  /\ Analysis.bb_middle analysis = Some (iloc_last (snd (fst bands)))
  /\ Analysis.bb_lower analysis = Some (iloc_last (snd bands))
  /\ Analysis.distance_from_bb_lower analysis = None
  /\ Analysis.config analysis = None.
Proof.
  intros Hlen Hdis analysis bands. subst analysis bands.
  destruct (enough_bars df Hlen) as (Hltb & Hne & row & Hrow).
  destruct (iloc_last_rsi_bounded (close_of df) rsi_period Hne)
    as (r & Hr & Hbound).
  unfold analyze_symbol. rewrite Hltb.
  change bb_period with 20%nat. change bb_std_dev with (Fin 2).
  change rsi_period with 6%nat in *.
  destruct (TechnicalIndicators.calculate_bollinger_bands _ _ _ _)
    as [[bb_upper bb_middle] bb_lower].
  rewrite Hdis, orb_true_r.
  cbn [Analysis.signal Analysis.reason Analysis.rsi Analysis.current_price
         Analysis.bb_upper Analysis.bb_middle Analysis.bb_lower
         Analysis.distance_from_bb_lower Analysis.config fst snd].
  split; [reflexivity|]. split; [reflexivity|]. split; [reflexivity|].
  split; [exists r; split; [f_equal; exact Hr | exact Hbound]|].
  split; [reflexivity|].
  split.
  { exists row. split; [exact Hrow|]. f_equal.
    exact (iloc_last_close_of df row Hrow). }
  repeat split.
Qed.

(** X8.  The evaluator answers LONG exactly when the window has 20 bars or
    more, the symbol's entry is enabled, and [is_long_signal] holds of the
    last RSI value, the last close and the last lower band with the
    thresholds of the entry (30 and 1.5 when it gives none); it never
    answers ERROR; and a LONG answer carries an RSI that is a number of
    [0, 100] below the threshold. *)
Theorem analyze_symbol_long_iff (symbol : string) (df : DataFrame) :
  let analysis := analyze_symbol config sqrt fmt2f fmt symbol df in
  let symbol_config := pairs_get config symbol in
  let rsi_threshold := get (rsi_long_threshold symbol_config) 30 in
  (Analysis.signal analysis = LONG
   <-> (20 <= length df)%nat
       /\ enabled symbol_config = Some true
       /\ TechnicalIndicators.is_long_signal
            (iloc_last (TechnicalIndicators.calculate_rsi (close_of df) 6))
            (iloc_last (close_of df))
            (iloc_last
               (snd (TechnicalIndicators.calculate_bollinger_bands
                       sqrt (close_of df) 20 (Fin 2))))
            (Fin rsi_threshold)
            (Fin (get (shadow_distance_threshold symbol_config) (3 # 2)))
          = true)
  /\ Analysis.signal analysis <> ERROR
  /\ (Analysis.signal analysis = LONG ->
      exists r, Analysis.rsi analysis = Some (Fin r)
                /\ 0 <= r <= 100 /\ r < rsi_threshold).
Proof.
  intros analysis symbol_config rsi_threshold. subst analysis.
  unfold analyze_symbol. fold symbol_config.
  change (Nat.max rsi_period bb_period) with 20%nat.
  change rsi_period with 6%nat. change bb_period with 20%nat.
  change bb_std_dev with (Fin 2).
  destruct (length df <? 20)%nat eqn:Hltb.
  { apply Nat.ltb_lt in Hltb.
    cbn [Analysis.signal Analysis.reason Analysis.rsi Analysis.current_price
           Analysis.bb_upper Analysis.bb_middle Analysis.bb_lower
           Analysis.config].
    split; [split; [discriminate | intros [H _]; lia]|].
    split; discriminate. }
  apply Nat.ltb_ge in Hltb.
  destruct (enough_bars df Hltb) as (_ & Hne & _).
  destruct (iloc_last_rsi_bounded (close_of df) 6 Hne) as (r & Hr & Hbound).
  destruct (TechnicalIndicators.calculate_bollinger_bands _ _ _ _)
    as [[bb_upper bb_middle] bb_lower]. cbn [snd].
  assert (Hen : is_empty symbol_config
                || negb (get (enabled symbol_config) false) = false
                <-> enabled symbol_config = Some true).
  { destruct symbol_config as [[[|]|] [?|] [?|] [?|] [?|] [?|] [?|]];
      cbn; split; congruence. }
  destruct (is_empty symbol_config
            || negb (get (enabled symbol_config) false)) eqn:Hdis.
  { cbn [Analysis.signal Analysis.reason Analysis.rsi Analysis.current_price
           Analysis.bb_upper Analysis.bb_middle Analysis.bb_lower
           Analysis.config].
    split; [split; [discriminate|]|split; discriminate].
    intros (_ & He & _). apply Hen in He. discriminate. }
  fold rsi_threshold.
  destruct (TechnicalIndicators.is_long_signal _ _ _ _ _) eqn:Hlong;
    cbn [Analysis.signal Analysis.reason Analysis.rsi Analysis.current_price
           Analysis.bb_upper Analysis.bb_middle Analysis.bb_lower
           Analysis.config].
  - split; [split; [intros _|reflexivity]|].
    + split; [exact Hltb|]. split; [apply Hen; reflexivity | reflexivity].
    + split; [discriminate|]. intros _. exists r.
      split; [f_equal; exact Hr|]. split; [exact Hbound|].
      unfold TechnicalIndicators.is_long_signal in Hlong.
      apply andb_true_iff in Hlong as [Hlt _].
      rewrite Hr in Hlt. apply ltb_Fin in Hlt. exact Hlt.
  - split; [split; [discriminate|]|split; discriminate].
    intros (_ & _ & H). discriminate.
Qed.

Lemma analyze_symbol_ext (symbol : string) (df df' : DataFrame) :
  close_of df = close_of df' ->
  analyze_symbol config sqrt fmt2f fmt symbol df
  = analyze_symbol config sqrt fmt2f fmt symbol df'.
Proof.
  intros Hc. unfold analyze_symbol.
  rewrite <- (close_of_length df), <- (close_of_length df'), Hc.
  reflexivity.
Qed.

End EvaluatorFacts.

(** ** The position store *)

Section DictFacts.
Context {V : Type}.

Lemma Dict_set_fresh (d : Dict.t V) (k : string) (v : V) :
  Dict.lookup d k = None -> Dict.set d k v = d ++ [(k, v)].
Proof.
  induction d as [|[k' v'] d IH]; simpl; [reflexivity|].
  destruct (String.eqb k k'); [discriminate|].
  intros H. now rewrite IH.
Qed.

Lemma Dict_set_present (d : Dict.t V) (k : string) (v v0 : V) :
  Dict.lookup d k = Some v0 ->
  exists d1 d2,
    d = d1 ++ (k, v0) :: d2 /\ Dict.set d k v = d1 ++ (k, v) :: d2.
Proof.
  induction d as [|[k' v'] d IH]; simpl; [discriminate|].
  destruct (String.eqb k k') eqn:E.
  - apply String.eqb_eq in E. subst k'. intros [= ->].
    exists [], d. split; reflexivity.
  - intros H. destruct (IH H) as (d1 & d2 & -> & ->).
    exists ((k', v') :: d1), d2. split; reflexivity.
Qed.

Lemma Dict_lookup_In (d : Dict.t V) (k : string) (v : V) :
  Dict.lookup d k = Some v -> In (k, v) d.
Proof.
  induction d as [|[k' v'] d IH]; simpl; [discriminate|].
  destruct (String.eqb k k') eqn:E.
  - apply String.eqb_eq in E. subst k'. intros [= ->]. now left.
  - intros H. right. exact (IH H).
Qed.

Lemma filter_values_app (P : V -> bool) (d1 d2 : Dict.t V) :
  List.filter P (Dict.values (d1 ++ d2))
  = List.filter P (Dict.values d1) ++ List.filter P (Dict.values d2).
Proof. unfold Dict.values. now rewrite map_app, List.filter_app. Qed.

(** Assignment to a key that is present: the old value leaves the
    count, the new one enters it. *)
Lemma Dict_set_count_present (P : V -> bool) (d : Dict.t V) (k : string)
      (v v0 : V) :
  Dict.lookup d k = Some v0 ->
  (length (List.filter P (Dict.values (Dict.set d k v)))
   + (if P v0 then 1 else 0)
   = length (List.filter P (Dict.values d)) + (if P v then 1 else 0))%nat.
Proof.
  intros H. destruct (Dict_set_present d k v v0 H) as (d1 & d2 & -> & ->).
  rewrite !filter_values_app. unfold Dict.values. simpl.
  destruct (P v), (P v0); rewrite !length_app; simpl; lia.
Qed.

Lemma Dict_set_count_fresh (P : V -> bool) (d : Dict.t V) (k : string)
      (v : V) :
  Dict.lookup d k = None ->
  length (List.filter P (Dict.values (Dict.set d k v)))
  = (length (List.filter P (Dict.values d)) + (if P v then 1 else 0))%nat.
Proof.
  intros H. rewrite (Dict_set_fresh d k v H), filter_values_app.
  unfold Dict.values. simpl. rewrite length_app.
  destruct (P v); reflexivity.
Qed.

Lemma Dict_set_count_le (P : V -> bool) (d : Dict.t V) (k : string) (v : V) :
  (length (List.filter P (Dict.values (Dict.set d k v)))
   <= length (List.filter P (Dict.values d)) + (if P v then 1 else 0))%nat.
Proof.
  destruct (Dict.lookup d k) as [v0|] eqn:E.
  - pose proof (Dict_set_count_present P d k v v0 E). lia.
  - rewrite (Dict_set_count_fresh P d k v E). lia.
Qed.

Lemma Dict_set_length_present (d : Dict.t V) (k : string) (v v0 : V) :
  Dict.lookup d k = Some v0 -> length (Dict.set d k v) = length d.
Proof.
  intros H. destruct (Dict_set_present d k v v0 H) as (d1 & d2 & -> & ->).
  rewrite !length_app. reflexivity.
Qed.

End DictFacts.

Section StoreFacts.
Import PositionManager.

Lemma filter_filter {A : Type} (f g : A -> bool) (l : list A) :
  List.filter f (List.filter g l) = List.filter (fun x => g x && f x) l.
Proof.
  induction l as [|a l IH]; simpl; [reflexivity|].
  destruct (g a); simpl; [destruct (f a)|]; now rewrite IH.
Qed.

Lemma open_positions_of_filter (positions : positions_t) (symbol : string) :
  open_positions_of positions symbol
  = List.filter (is_open_of symbol) (Dict.values positions).
Proof.
  unfold open_positions_of, get_open_positions. apply filter_filter.
Qed.

Lemma find_filter {A : Type} (f : A -> bool) (l : list A) :
  List.find f l = hd_error (List.filter f l).
Proof.
  induction l as [|a l IH]; simpl; [reflexivity|].
  destruct (f a); [reflexivity | exact IH].
Qed.

Lemma get_position_by_symbol_hd (positions : positions_t) (symbol : string) :
  get_position_by_symbol positions symbol
  = hd_error (open_positions_of positions symbol).
Proof. unfold get_position_by_symbol, open_positions_of. apply find_filter. Qed.

Lemma has_open_position_length (positions : positions_t) (symbol : string) :
  has_open_position positions symbol = true
  <-> (1 <= length (open_positions_of positions symbol))%nat.
Proof.
  unfold has_open_position. rewrite get_position_by_symbol_hd.
  destruct (open_positions_of positions symbol); simpl; split;
    try discriminate; try reflexivity; lia.
Qed.

Lemma has_open_position_false (positions : positions_t) (symbol : string) :
  has_open_position positions symbol = false
  <-> length (open_positions_of positions symbol) = 0%nat.
Proof.
  unfold has_open_position. rewrite get_position_by_symbol_hd.
  destruct (open_positions_of positions symbol); simpl; split;
    try discriminate; try reflexivity.
Qed.

Lemma is_open_of_iff (symbol : string) (position : Position.t) :
  is_open_of symbol position = true
  <-> Position.status position = OPEN /\ Position.symbol position = symbol.
Proof.
  unfold is_open_of. rewrite andb_true_iff, String.eqb_eq.
  destruct (Position.status position); simpl; intuition congruence.
Qed.

Lemma In_open_positions_of (positions : positions_t) (symbol : string)
      (position : Position.t) :
  In position (open_positions_of positions symbol)
  <-> Position.status position = OPEN
      /\ Position.symbol position = symbol
      /\ exists position_id, In (position_id, position) positions.
Proof.
  rewrite open_positions_of_filter, filter_In.
  rewrite is_open_of_iff. unfold Dict.values. rewrite in_map_iff.
  split.
  - intros [([k v] & Hv & Hin) [Hs Hy]]. simpl in Hv. subst v.
    split; [assumption|]. split; [assumption|]. eauto.
  - intros (Hs & Hy & k & Hin). split; [|auto].
    exists (k, position). auto.
Qed.

Lemma get_position_by_symbol_In (positions : positions_t) (symbol : string)
      (position : Position.t) :
  get_position_by_symbol positions symbol = Some position ->
  In position (open_positions_of positions symbol).
Proof.
  rewrite get_position_by_symbol_hd.
  destruct (open_positions_of positions symbol) as [|p l]; [discriminate|].
  intros [= ->]. now left.
Qed.

(** X9.  The store's queries mean what they say: [has_open_position] is
    true exactly when some stored position has status OPEN and the symbol;
    and the position [get_position_by_symbol] returns is a stored position
    with status OPEN and the symbol. *)
Theorem has_open_position_iff (positions : positions_t) (symbol : string) :
  (has_open_position positions symbol = true
   <-> exists position_id position,
      In (position_id, position) positions
      /\ Position.status position = OPEN
      /\ Position.symbol position = symbol)
  /\ (forall position,
         get_position_by_symbol positions symbol = Some position ->
         Position.status position = OPEN
         /\ Position.symbol position = symbol
         /\ exists position_id, In (position_id, position) positions).
Proof.
  split.
  - rewrite has_open_position_length. split.
    + intros Hlen.
      destruct (open_positions_of positions symbol) as [|p l] eqn:E;
        [simpl in Hlen; lia|].
      assert (Hp : In p (open_positions_of positions symbol))
        by (rewrite E; now left).
      apply In_open_positions_of in Hp as (Hs & Hy & k & Hk). eauto.
    + intros (k & p & Hk & Hs & Hy).
      assert (Hp : In p (open_positions_of positions symbol))
        by (apply In_open_positions_of; eauto).
      destruct (open_positions_of positions symbol); [destruct Hp|].
      simpl. lia.
  - intros position Hget.
    apply In_open_positions_of, get_position_by_symbol_In, Hget.
Qed.

End StoreFacts.

Section LifecycleFacts.
Import PositionManager.

(** The position [add_position] stores. *)
Lemma add_position_eq (positions : positions_t) (now : Clock.t)
      (symbol : string) (side : Side)
      (quantity entry_price leverage take_profit stop_loss : float)
      (rsi_at_entry : option float) :
  exists position,
    add_position positions now symbol side quantity entry_price leverage
                 take_profit stop_loss rsi_at_entry
    = (Position.id position,
       Dict.set positions (Position.id position) position)
    /\ Position.id position = (symbol +:+ "_" +:+ Clock.stamp now)%string
    /\ Position.symbol position = symbol
    /\ Position.status position = OPEN
    /\ Position.quantity position = quantity
    /\ Position.entry_price position = entry_price
    /\ Position.leverage position = leverage
    /\ Position.side position = side
    /\ Position.entry_time position = Clock.iso now.
Proof.
  exists {| Position.id := symbol +:+ "_" +:+ Clock.stamp now;
            Position.symbol := symbol;
            Position.side := side;
            Position.quantity := quantity;
            Position.entry_price := entry_price;
            Position.leverage := leverage;
            Position.take_profit := take_profit;
            Position.stop_loss := stop_loss;
            Position.rsi_at_entry := rsi_at_entry;
            Position.entry_time := Clock.iso now;
            Position.status := OPEN;
            Position.exit_price := None;
            Position.exit_time := None;
            Position.pnl := f0;
            Position.pnl_percent := f0;
            Position.exit_reason := None |}.
  repeat split.
Qed.

(** X10.  [add_position] under an id that the store does not hold appends
    the position: the store grows by one, the symbol has one OPEN position
    more and every other symbol as many as before.  Under an id that the
    store holds already - a second position of the symbol within the same
    second - the earlier position is overwritten: the store keeps its size
    and the id now leads to the new position. *)
Theorem add_position_fresh_or_overwrite
        (positions : positions_t) (now : Clock.t) (symbol : string)
        (side : Side)
        (quantity entry_price leverage take_profit stop_loss : float)
        (rsi_at_entry : option float) :
  let position_id := (symbol +:+ "_" +:+ Clock.stamp now)%string in
  let positions' :=
    snd (add_position positions now symbol side quantity entry_price
                      leverage take_profit stop_loss rsi_at_entry) in
  (Dict.lookup positions position_id = None ->
   length positions' = S (length positions)
   /\ (forall other, In other positions -> In other positions')
   /\ length (open_positions_of positions' symbol)
      = S (length (open_positions_of positions symbol))
   /\ forall symbol', symbol' <> symbol ->
        open_positions_of positions' symbol'
        = open_positions_of positions symbol')
  /\ (forall earlier,
         Dict.lookup positions position_id = Some earlier ->
         length positions' = length positions
         /\ exists position,
             Dict.lookup positions' position_id = Some position
             /\ Position.entry_time position = Clock.iso now
             /\ Position.status position = OPEN).
Proof.
  intros position_id positions'.
  destruct (add_position_eq positions now symbol side quantity entry_price
                            leverage take_profit stop_loss rsi_at_entry)
    as (position & Hadd & Hid & Hsym & Hst & _ & _ & _ & _ & Htime).
  assert (Hpos : positions' = Dict.set positions position_id position).
  { unfold positions'. rewrite Hadd. cbn [snd]. now rewrite Hid. }
  assert (Hopen : forall s, is_open_of s position = String.eqb symbol s).
  { intros s. unfold is_open_of. now rewrite Hst, Hsym. }
  split.
  - intros Hnone. rewrite Hpos, (Dict_set_fresh _ _ _ Hnone).
    split; [rewrite length_app; simpl; lia|].
    split; [intros other Hin; apply in_or_app; now left|].
    split.
    + rewrite !open_positions_of_filter, filter_values_app, length_app.
      unfold Dict.values at 2. simpl.
      rewrite Hopen, String.eqb_refl. simpl. lia.
    + intros s Hne. rewrite !open_positions_of_filter, filter_values_app.
      unfold Dict.values at 2. simpl. rewrite Hopen.
      assert (E : String.eqb symbol s = false)
        by (apply String.eqb_neq; congruence).
      rewrite E. apply app_nil_r.
  - intros earlier Hsome. rewrite Hpos.
    split; [exact (Dict_set_length_present _ _ _ _ Hsome)|].
    exists position. split; [apply Dict_lookup_set_eq|].
    split; [exact Htime | exact Hst].
Qed.

(** A successful close, spelled out. *)
Lemma close_position_ok (positions : positions_t) (now : Clock.t)
      (position_id : string) (exit_price : float) (reason : string)
      (position : Position.t) :
  Dict.lookup positions position_id = Some position ->
  Position.status position = OPEN ->
  (Position.entry_price position ==? f0)%F = false ->
  exists closed,
    close_position positions now position_id exit_price reason
    = (Ok closed, Dict.set positions position_id closed)
    /\ Position.status closed = CLOSED
    /\ Position.symbol closed = Position.symbol position
    /\ Position.id closed = Position.id position
    /\ Position.side closed = Position.side position
    /\ Position.quantity closed = Position.quantity position
    /\ Position.entry_price closed = Position.entry_price position
    /\ Position.leverage closed = Position.leverage position
    /\ Position.entry_time closed = Position.entry_time position
    /\ Position.exit_price closed = Some exit_price
    /\ Position.exit_reason closed = Some reason
    /\ Position.exit_time closed = Some (Clock.iso now)
    /\ Position.pnl closed
       = (match Position.side position with
          | Long => exit_price - Position.entry_price position
          | Short => Position.entry_price position - exit_price
          end / Position.entry_price position * Position.quantity position
          * Position.entry_price position * Position.leverage position)%F
    /\ Position.pnl_percent closed
       = (match Position.side position with
          | Long => exit_price - Position.entry_price position
          | Short => Position.entry_price position - exit_price
          end / Position.entry_price position * f100
          * Position.leverage position)%F.
Proof.
  intros Hsome Hopen Hentry. unfold close_position.
  rewrite Hsome, Hopen, Hentry.
  cbn [Status_eqb negb]. eexists. split; [reflexivity|].
  cbn. repeat split.
Qed.

(** Any call of [close_position] leaves the store as it is or is a
    successful close of an OPEN position. *)
Lemma close_position_store (positions : positions_t) (now : Clock.t)
      (position_id : string) (exit_price : float) (reason : string) :
  snd (close_position positions now position_id exit_price reason)
  = positions
  \/ exists position closed,
      Dict.lookup positions position_id = Some position
      /\ Position.status position = OPEN
      /\ Position.status closed = CLOSED
      /\ Position.symbol closed = Position.symbol position
      /\ Position.exit_reason closed = Some reason
      /\ snd (close_position positions now position_id exit_price reason)
         = Dict.set positions position_id closed.
Proof.
  destruct (Dict.lookup positions position_id) as [position|] eqn:Hsome.
  - destruct (Position.status position) eqn:Hst.
    + destruct (Position.entry_price position ==? f0)%F eqn:Hentry.
      { left. unfold close_position. now rewrite Hsome, Hst, Hentry. }
      right.
      destruct (close_position_ok positions now position_id exit_price
                                  reason position Hsome Hst Hentry)
        as (closed & Hc & Hcs & Hsym & _ & _ & _ & _ & _ & _ & _ & Hr & _).
      exists position, closed. rewrite Hc. auto 10.
    + left. unfold close_position. now rewrite Hsome, Hst.
  - left. unfold close_position. now rewrite Hsome.
Qed.

Lemma is_open_of_closed (symbol : string) (position : Position.t) :
  Position.status position = CLOSED -> is_open_of symbol position = false.
Proof. intros H. unfold is_open_of. now rewrite H. Qed.

(** Replacing an OPEN position by a CLOSED one of the same symbol. *)
Lemma close_count (positions : positions_t) (position_id symbol : string)
      (position closed : Position.t) :
  Dict.lookup positions position_id = Some position ->
  Position.status position = OPEN ->
  Position.status closed = CLOSED ->
  (length (open_positions_of (Dict.set positions position_id closed) symbol)
   + (if String.eqb (Position.symbol position) symbol then 1 else 0)
   = length (open_positions_of positions symbol))%nat.
Proof.
  intros Hsome Hopen Hclosed.
  rewrite !open_positions_of_filter.
  pose proof (Dict_set_count_present (is_open_of symbol) positions
                position_id closed position Hsome) as H.
  rewrite (is_open_of_closed symbol closed Hclosed) in H.
  unfold is_open_of at 2 in H. rewrite Hopen in H. cbn [Status_eqb andb] in H.
  lia.
Qed.

(** X11.  A successful [close_position] books the profit of the price
    move: for an OPEN position with a non-zero entry price, the stored
    [pnl_percent] is [(exit - entry) / entry * 100 * leverage] and the
    stored [pnl] is [(exit - entry) * quantity * leverage] (the entry price
    cancels), with [entry - exit] in place of [exit - entry] for a SHORT
    position.  With entry price, quantity and leverage above zero, a LONG
    position closes with a profit exactly when the exit price is above the
    entry price, a SHORT one exactly when it is below. *)
Theorem close_position_pnl
        (positions : positions_t) (now : Clock.t) (position_id : string)
        (reason : string) (position : Position.t) (e q l x : Q) :
  Dict.lookup positions position_id = Some position ->
  Position.status position = OPEN ->
  Position.entry_price position = Fin e ->
  Position.quantity position = Fin q ->
  Position.leverage position = Fin l ->
  ~ e == 0 ->
  let change :=
    match Position.side position with
    | Long => x - e
    | Short => e - x
    end in
  exists closed positions' pnl pnl_percent,
    close_position positions now position_id (Fin x) reason
    = (Ok closed, positions')
    /\ Position.pnl closed = Fin pnl
    /\ Position.pnl_percent closed = Fin pnl_percent
    /\ pnl == change * q * l
    /\ pnl_percent == change / e * 100 * l
    /\ (0 < e -> 0 < q -> 0 < l ->
        (0 < pnl <-> 0 < change) /\ (0 < pnl_percent <-> 0 < change)).
Proof.
  intros Hsome Hopen He Hq Hl Hne change.
  assert (Hentry : (Position.entry_price position ==? f0)%F = false).
  { rewrite He. destruct (Fin e ==? f0)%F eqn:E; [|reflexivity].
    apply eqb_Fin in E. contradiction. }
  destruct (close_position_ok positions now position_id (Fin x) reason
                              position Hsome Hopen Hentry)
    as (closed & Hc & _ & _ & _ & _ & _ & _ & _ & _ & _ & _ & _
        & Hpnl & Hpct).
  rewrite He, Hq, Hl in Hpnl. rewrite He, Hl in Hpct.
  assert (Hchange :
            match Position.side position with
            | Long => (Fin x - Fin e)%F
            | Short => (Fin e - Fin x)%F
            end = Fin change).
  { unfold change. destruct (Position.side position); reflexivity. }
  rewrite Hchange, (div_Fin _ _ Hne) in Hpnl, Hpct.
  exists closed, (Dict.set positions position_id closed).
  exists (change / e * q * e * l), (change / e * 100 * l).
  split; [exact Hc|]. split; [exact Hpnl|]. split; [exact Hpct|].
  split; [field; exact Hne|]. split; [reflexivity|].
  intros He0 Hq0 Hl0.
  assert (Hk : 0 < q * l) by (apply Qmult_lt_0_compat; assumption).
  assert (Hk' : 0 < / e * 100 * l).
  { apply Qmult_lt_0_compat; [|assumption].
    apply Qmult_lt_0_compat; [apply Qinv_lt_0_compat; assumption | lra]. }
  assert (E1 : change / e * q * e * l == change * (q * l))
    by (field; exact Hne).
  assert (E2 : change / e * 100 * l == change * (/ e * 100 * l))
    by (field; exact Hne).
  rewrite E1, E2. split; split; intros H; nra.
Qed.

(** X12.  Closing a stored OPEN position whose entry price is not zero
    succeeds and keeps the history: the store has as many entries as
    before and every other id leads to the position it led to; the symbol
    of the closed position has one OPEN position less and every other
    symbol as many as before; the closed position stays in the store,
    under its id, with status CLOSED. *)
Theorem close_position_store_effect
        (positions : positions_t) (now : Clock.t) (position_id : string)
        (exit_price : float) (reason : string) (position : Position.t) :
  Dict.lookup positions position_id = Some position ->
  Position.status position = OPEN ->
  (Position.entry_price position ==? f0)%F = false ->
  exists closed positions',
    close_position positions now position_id exit_price reason
    = (Ok closed, positions')
    /\ length positions' = length positions
    /\ Dict.lookup positions' position_id = Some closed
    /\ Position.status closed = CLOSED
    /\ (forall other, other <> position_id ->
                      Dict.lookup positions' other
                      = Dict.lookup positions other)
    /\ S (length (open_positions_of positions' (Position.symbol position)))
       = length (open_positions_of positions (Position.symbol position))
    /\ forall symbol, symbol <> Position.symbol position ->
        length (open_positions_of positions' symbol)
        = length (open_positions_of positions symbol).
Proof.
  intros Hsome Hopen Hentry.
  destruct (close_position_ok positions now position_id exit_price reason
                              position Hsome Hopen Hentry)
    as (closed & Hc & Hst & _).
  exists closed, (Dict.set positions position_id closed).
  split; [exact Hc|].
  split; [exact (Dict_set_length_present _ _ _ _ Hsome)|].
  split; [apply Dict_lookup_set_eq|]. split; [exact Hst|].
  split.
  { intros other Hne. apply Dict_lookup_set_ne. congruence. }
  split.
  - pose proof (close_count positions position_id (Position.symbol position)
                            position closed Hsome Hopen Hst) as H.
    rewrite String.eqb_refl in H. lia.
  - intros symbol Hne.
    pose proof (close_count positions position_id symbol
                            position closed Hsome Hopen Hst) as H.
    assert (E : String.eqb (Position.symbol position) symbol = false)
      by (apply String.eqb_neq; congruence).
    rewrite E in H. lia.
Qed.

(** X13.  The unrealized profit [calculate_unrealized_pnl] reports for a
    symbol at a price is the profit [close_position] books when the
    position it reports on (the first OPEN position of the symbol, stored
    under its id, with an entry price other than zero) is closed at that
    price: both amounts agree, in money and in percent.  Without OPEN
    position of the symbol the report is [None]. *)
Theorem unrealized_pnl_is_realized
        (positions : positions_t) (now : Clock.t) (symbol : string)
        (current_price : float) (reason : string) :
  (has_open_position positions symbol = false ->
   PositionReports.calculate_unrealized_pnl positions symbol current_price
   = Ok None)
  /\ forall position,
      get_position_by_symbol positions symbol = Some position ->
      Dict.lookup positions (Position.id position) = Some position ->
      (Position.entry_price position ==? f0)%F = false ->
      exists report closed positions',
        PositionReports.calculate_unrealized_pnl
          positions symbol current_price = Ok (Some report)
        /\ close_position positions now (Position.id position)
                          current_price reason
           = (Ok closed, positions')
        /\ UnrealizedPnl.unrealized_pnl report = Position.pnl closed
        /\ UnrealizedPnl.unrealized_pnl_percent report
           = Position.pnl_percent closed
        /\ UnrealizedPnl.entry_price report = Position.entry_price closed.
Proof.
  split.
  - unfold has_open_position, PositionReports.calculate_unrealized_pnl.
    destruct (get_position_by_symbol positions symbol);
      [discriminate | reflexivity].
  - intros position Hget Hsome Hentry.
    assert (Hopen : Position.status position = OPEN).
    { apply get_position_by_symbol_In, In_open_positions_of in Hget.
      tauto. }
    destruct (close_position_ok positions now (Position.id position)
                                current_price reason position Hsome Hopen
                                Hentry)
      as (closed & Hc & _ & _ & _ & _ & _ & He & _ & _ & _ & _ & _
          & Hpnl & Hpct).
    unfold PositionReports.calculate_unrealized_pnl. rewrite Hget, Hentry.
    eexists. exists closed. eexists.
    split; [reflexivity|]. split; [exact Hc|].
    cbn [UnrealizedPnl.unrealized_pnl UnrealizedPnl.unrealized_pnl_percent
         UnrealizedPnl.entry_price].
    rewrite Hpnl, Hpct, He. repeat split.
Qed.

End LifecycleFacts.

(** ** Trade execution and monitoring *)

Section LiveFacts.
Import PositionManager TradingBot Monitor.

Variable config : gmap string SymbolConfig.

(** The two ways [execute_trade] can go: nothing is ordered, the answer
    is False and the store is left as it is; or the order goes through and
    the position is stored, and the answer tells whether the notification
    went through as well. *)
Lemma execute_trade_store (positions : positions_t) (now : Clock.t)
      (exchange : Exchange.t) (analysis : Analysis.t) :
  (~ order_placed positions exchange analysis
   /\ execute_trade config positions now exchange analysis
      = (false, positions))
  \/ (order_placed positions exchange analysis
      /\ (fst (execute_trade config positions now exchange analysis) = true
          <-> notified exchange analysis)
      /\ exists price position,
          Analysis.current_price analysis = Some price
          /\ Position.symbol position = Analysis.symbol analysis
          /\ Position.status position = OPEN
          /\ Position.entry_price position = price
          /\ Position.id position
             = (Analysis.symbol analysis +:+ "_" +:+ Clock.stamp now)%string
          /\ snd (execute_trade config positions now exchange analysis)
             = Dict.set positions (Position.id position) position).
Proof.
  unfold execute_trade, order_placed.
  destruct (Analysis.signal analysis) eqn:Hsig; cbn [Signal_eqb negb];
    try (left; split; [intros [H _]; discriminate H | reflexivity]).
  destruct (has_open_position positions (Analysis.symbol analysis)) eqn:Hopen;
    [left; split; [intros (_ & H & _); discriminate H | reflexivity]|].
  unfold execute_trade_try.
  destruct (Exchange.set_leverage_ok exchange) eqn:Hlev; cbn [negb];
    [|left; split; [intros (_ & _ & _ & H & _); discriminate H
                   | reflexivity]].
  destruct (Analysis.current_price analysis) as [price|] eqn:Hprice;
    [|left; split; [intros (_ & _ & [x H] & _); discriminate H
                   | reflexivity]].
  cbn [number].
  destruct (TradingStrategy.calculate_take_profit_stop_loss _ _ _ _)
    as [take_profit stop_loss].
  destruct (Exchange.place_market_order_ok exchange) eqn:Hord; cbn [negb];
    [|left; split; [intros (_ & _ & _ & _ & H); discriminate H
                   | reflexivity]].
  right. split; [eauto 10|].
  destruct (add_position_eq
              positions now (Analysis.symbol analysis) Long
              (TradingStrategy.calculate_position_size
                 config (Analysis.symbol analysis) price)
              price
              (Fin (get (leverage (get (Analysis.config analysis) no_config))
                        10))
              take_profit stop_loss (Analysis.rsi analysis))
    as (position & Hadd & Hid & Hsym & Hst & _ & Hentry & _).
  rewrite Hadd. unfold notify_position_opened, notified.
  split.
  - destruct (Analysis.rsi analysis) as [rsi|]; cbn [number mbind result_bind].
    + destruct (Exchange.notify_position_opened_ok exchange); cbn [negb fst].
      * split; [intros _; split; [eauto | reflexivity] | reflexivity].
      * split; [discriminate | intros [_ H]; discriminate H].
    + cbn [fst]. split; [discriminate | intros [[r H] _]; discriminate H].
  - exists price, position.
    repeat (split; [assumption || reflexivity|]).
    destruct (_ ← number (Analysis.rsi analysis); _); reflexivity.
Qed.

Lemma In_values_set {V : Type} (d : Dict.t V) (k : string) (v : V) :
  In v (Dict.values (Dict.set d k v)).
Proof.
  unfold Dict.values. apply in_map_iff. exists (k, v).
  split; [reflexivity|]. apply Dict_lookup_In, Dict_lookup_set_eq.
Qed.

(** X14.  For an analysis whose price is not zero, [execute_trade] stores
    a position exactly when the order goes through: the signal is LONG,
    the symbol has no OPEN position, the analysis carries a price and both
    calls of the exchange succeed; otherwise it answers False and leaves
    the store as it is.  It answers True exactly when, in addition, the
    notification goes through; with an analysis without RSI the
    notification raises and the answer is False although the position is
    stored.  Once the position is stored the symbol has an OPEN position,
    and a further [execute_trade] for the analysis is refused and changes
    nothing. *)
Theorem execute_trade_outcome
        (positions : positions_t) (now : Clock.t) (exchange : Exchange.t)
        (analysis : Analysis.t) :
  price_not_zero analysis ->
  let outcome := execute_trade config positions now exchange analysis in
  (fst outcome = true
   <-> order_placed positions exchange analysis
       /\ notified exchange analysis)
  /\ (~ order_placed positions exchange analysis ->
      outcome = (false, positions))
  /\ (order_placed positions exchange analysis ->
      (exists position,
          Dict.lookup (snd outcome)
                      (Analysis.symbol analysis +:+ "_" +:+ Clock.stamp now)
          = Some position
          /\ Position.status position = OPEN
          /\ Position.symbol position = Analysis.symbol analysis)
      /\ has_open_position (snd outcome) (Analysis.symbol analysis) = true
      /\ forall now' exchange',
          execute_trade config (snd outcome) now' exchange' analysis
          = (false, snd outcome)).
Proof.
  intros _ outcome. subst outcome.
  destruct (execute_trade_store positions now exchange analysis)
    as [[Hno Hf] | (Hord & Hflag & price & position
                    & Hprice & Hsym & Hst & _ & Hid & Hs)].
  - rewrite Hf. cbn [fst snd].
    split; [split; [discriminate | intros [H _]; contradiction]|].
    split; [reflexivity | contradiction].
  - split; [rewrite Hflag; tauto|]. split; [contradiction|].
    intros _.
    assert (Hnow : has_open_position
                     (snd (execute_trade config positions now exchange
                                         analysis))
                     (Analysis.symbol analysis) = true).
    { rewrite Hs. apply has_open_position_length.
      assert (Hin : In position
                       (open_positions_of
                          (Dict.set positions (Position.id position) position)
                          (Analysis.symbol analysis))).
      { rewrite open_positions_of_filter. apply filter_In.
        split; [apply In_values_set|]. apply is_open_of_iff. auto. }
      destruct (open_positions_of _ _); [destruct Hin | simpl; lia]. }
    split.
    { exists position. rewrite Hs, <- Hid.
      split; [apply Dict_lookup_set_eq | auto]. }
    split; [exact Hnow|].
    intros now' exchange'. unfold execute_trade at 1.
    destruct Hord as (Hsig & _). rewrite Hsig, Hnow. reflexivity.
Qed.

(** X15.  [execute_trade] keeps the rule of one position per symbol: from a
    store in which no symbol has two OPEN positions it leads to such a
    store, whatever the analysis and the answers of the exchange. *)
Theorem execute_trade_at_most_one_open
        (positions : positions_t) (now : Clock.t) (exchange : Exchange.t)
        (analysis : Analysis.t) :
  at_most_one_open positions ->
  at_most_one_open
    (snd (execute_trade config positions now exchange analysis)).
Proof.
  intros Hone.
  destruct (execute_trade_store positions now exchange analysis)
    as [[_ Hf] | ((_ & Hopen & _) & _ & price & position
                  & _ & Hsym & Hst & _ & _ & Hs)].
  { rewrite Hf. exact Hone. }
  rewrite Hs.
  intros symbol.
  pose proof (Dict_set_count_le (is_open_of symbol) positions
                                (Position.id position) position) as Hle.
  rewrite <- !open_positions_of_filter in Hle.
  destruct (String.eqb (Analysis.symbol analysis) symbol) eqn:E.
  - apply String.eqb_eq in E. subst symbol.
    apply has_open_position_false in Hopen. rewrite Hopen in Hle.
    destruct (is_open_of _ position); lia.
  - assert (Hno : is_open_of symbol position = false).
    { unfold is_open_of. rewrite Hsym, E. apply andb_false_r. }
    rewrite Hno in Hle. specialize (Hone symbol). lia.
Qed.

Lemma only_closes_refl (positions : positions_t) :
  only_closes positions positions.
Proof. split; [reflexivity|]. split; [intros; lia | auto]. Qed.

Lemma only_closes_trans (p1 p2 p3 : positions_t) :
  only_closes p1 p2 -> only_closes p2 p3 -> only_closes p1 p3.
Proof.
  intros (L1 & C1 & K1) (L2 & C2 & K2).
  split; [congruence|]. split.
  - intros s. specialize (C1 s). specialize (C2 s). lia.
  - intros k p Hk Hc. apply K2; [apply K1|]; assumption.
Qed.

Lemma close_position_only_closes (positions : positions_t) (now : Clock.t)
      (position_id : string) (exit_price : float) (reason : string) :
  only_closes positions
    (snd (close_position positions now position_id exit_price reason)).
Proof.
  destruct (close_position_store positions now position_id exit_price reason)
    as [-> | (position & closed & Hsome & Hopen & Hcl & _ & _ & ->)];
    [apply only_closes_refl|].
  split; [exact (Dict_set_length_present _ _ _ _ Hsome)|]. split.
  - intros s.
    pose proof (close_count positions position_id s position closed
                            Hsome Hopen Hcl). lia.
  - intros k p Hk Hc.
    destruct (String.eqb position_id k) eqn:E.
    + apply String.eqb_eq in E. subst k. congruence.
    + apply String.eqb_neq in E.
      now rewrite (Dict_lookup_set_ne _ _ _ _ E).
Qed.

Lemma monitor_position_only_closes (positions : positions_t)
      (position : Position.t) (visit : Visit.t) :
  only_closes positions (monitor_position config positions position visit).
Proof.
  unfold monitor_position.
  destruct (Visit.current_price visit) as [price|];
    [|apply only_closes_refl].
  destruct (TradingStrategy.should_close_position _ _ _ _)
    as [[|] reason]; [|apply only_closes_refl].
  destruct (negb (Visit.close_position_ok visit));
    [apply only_closes_refl | apply close_position_only_closes].
Qed.

Lemma monitor_loop_only_closes (open_positions : list Position.t)
      (visits : nat -> Visit.t) (i : nat) (positions : positions_t) :
  only_closes positions
              (monitor_loop config open_positions visits i positions).
Proof.
  revert i positions.
  induction open_positions as [|position rest IH]; intros i positions;
    simpl; [apply only_closes_refl|].
  eapply only_closes_trans; [apply monitor_position_only_closes | apply IH].
Qed.

(** X16.  A pass of [monitor_positions] only closes positions, whatever the
    ticker and the exchange answer: the store keeps its size, no symbol
    gains an OPEN position, every position that was CLOSED stays exactly
    as it was, and a store in which no symbol has two OPEN positions
    remains one.  The same holds of any single [close_position]. *)
Theorem monitor_positions_only_closes
        (positions : positions_t) (visits : nat -> Visit.t) :
  only_closes positions (monitor_positions config positions visits)
  /\ (at_most_one_open positions ->
      at_most_one_open (monitor_positions config positions visits))
  /\ forall now position_id exit_price reason,
      only_closes positions
        (snd (close_position positions now position_id exit_price reason)).
Proof.
  assert (H : only_closes positions
                          (monitor_positions config positions visits))
    by apply monitor_loop_only_closes.
  split; [exact H|]. split.
  - intros Hone symbol. destruct H as (_ & Hc & _).
    specialize (Hc symbol). specialize (Hone symbol). lia.
  - intros. apply close_position_only_closes.
Qed.

Lemma should_close_position_reason
      {A : Type} `{PositionData A} (symbol : string) (position : A)
      (price : float) (reason : string) :
  TradingStrategy.should_close_position config symbol position price
  = (true, reason) ->
  reason = "Take Profit" \/ reason = "Stop Loss".
Proof.
  unfold TradingStrategy.should_close_position.
  destruct (_ ==? f0)%F; [discriminate|].
  destruct (TradingStrategy.calculate_take_profit_stop_loss _ _ _ _)
    as [take_profit stop_loss].
  destruct (side_of position).
  - destruct (price >=? take_profit)%F; [intros [= <-]; now left|].
    destruct (price <=? stop_loss)%F; [intros [= <-]; now right|].
    discriminate.
  - destruct (price <=? take_profit)%F; [intros [= <-]; now left|].
    destruct (price >=? stop_loss)%F; [intros [= <-]; now right|].
    discriminate.
Qed.

(** The check never closes a position whose entry price is zero. *)
Lemma should_close_position_entry
      {A : Type} `{PositionData A} (symbol : string) (position : A)
      (price : float) (reason : string) :
  TradingStrategy.should_close_position config symbol position price
  = (true, reason) ->
  (entry_price_of position ==? f0)%F = false.
Proof.
  unfold TradingStrategy.should_close_position.
  destruct (_ ==? f0)%F; [discriminate | reflexivity].
Qed.

(** X17.  The visit of one OPEN position, stored under its id.  When the
    ticker fails, when the exit check holds, or when the close order of the
    exchange fails, the store is left as it is and the position stays
    OPEN.  When the ticker answers, the exit check closes and the close
    order goes through, the position is stored as CLOSED with the ticker
    price as exit price and the reason of the check, which is "Take
    Profit" or "Stop Loss". *)
Theorem monitor_position_visit
        (positions : positions_t) (position : Position.t) (visit : Visit.t) :
  Dict.lookup positions (Position.id position) = Some position ->
  Position.status position = OPEN ->
  let positions' := monitor_position config positions position visit in
  (forall e, Visit.current_price visit = Raise e -> positions' = positions)
  /\ (forall price,
         Visit.current_price visit = Ok price ->
         fst (TradingStrategy.should_close_position
                config (Position.symbol position) position price) = false ->
         positions' = positions)
  /\ (forall price,
         Visit.current_price visit = Ok price ->
         Visit.close_position_ok visit = false ->
         positions' = positions)
  /\ (forall price reason,
         Visit.current_price visit = Ok price ->
         TradingStrategy.should_close_position
           config (Position.symbol position) position price
         = (true, reason) ->
         Visit.close_position_ok visit = true ->
         (reason = "Take Profit" \/ reason = "Stop Loss")
         /\ exists closed,
             Dict.lookup positions' (Position.id position) = Some closed
             /\ Position.status closed = CLOSED
             /\ Position.exit_price closed = Some price
             /\ Position.exit_reason closed = Some reason
             /\ Position.entry_price closed = Position.entry_price position).
Proof.
  intros Hsome Hopen positions'. subst positions'. unfold monitor_position.
  split; [intros e ->; reflexivity|].
  split.
  { intros price -> Hhold.
    destruct (TradingStrategy.should_close_position _ _ _ _) as [[|] r];
      [discriminate | reflexivity]. }
  split.
  { intros price -> Hfail. rewrite Hfail.
    destruct (TradingStrategy.should_close_position _ _ _ _) as [[|] r];
      reflexivity. }
  intros price reason -> Hclose Hok. rewrite Hclose, Hok. cbn [negb].
  split; [exact (should_close_position_reason _ _ _ _ Hclose)|].
  destruct (close_position_ok
              positions (Visit.now visit) (Position.id position) price reason
              position Hsome Hopen
              (should_close_position_entry _ _ _ _ Hclose))
    as (closed & Hc & Hst & _ & _ & _ & _ & Hentry & _ & _ & Hx & Hr & _).
  rewrite Hc. cbn [snd]. exists closed.
  split; [apply Dict_lookup_set_eq|]. auto.
Qed.

End LiveFacts.

(** ** Counting wins and losses *)

Section CountFacts.

Lemma filter_disjoint_length {A : Type} (f g : A -> bool) (l : list A) :
  (forall x, f x = true -> g x = false) ->
  (length (List.filter f l) + length (List.filter g l) <= length l)%nat.
Proof.
  intros Hd. induction l as [|a l IH]; simpl; [lia|].
  destruct (f a) eqn:Ef.
  - rewrite (Hd a Ef). simpl. lia.
  - destruct (g a); simpl; lia.
Qed.

Lemma filter_length_le {A : Type} (f : A -> bool) (l : list A) :
  (length (List.filter f l) <= length l)%nat.
Proof.
  induction l as [|a l IH]; simpl; [lia|]. destruct (f a); simpl; lia.
Qed.

Lemma gtb_ltb_disjoint (x : float) :
  (x >? f0)%F = true -> (x <? f0)%F = false.
Proof.
  destruct x as [|q]; [discriminate|]. intros H. apply gtb_Fin in H.
  destruct (Fin q <? f0)%F eqn:E; [|reflexivity].
  apply ltb_Fin in E. lra.
Qed.

(** A share of [w] in [n], in percent. *)
Lemma rate_bounds (w n : nat) :
  (w <= n)%nat -> (1 <= n)%nat ->
  exists r, (of_nat w / of_nat n * f100)%F = Fin r
            /\ r == inject_Z (Z.of_nat w) / inject_Z (Z.of_nat n) * 100
            /\ 0 <= r <= 100.
Proof.
  intros Hwn Hn. unfold of_nat.
  assert (Hpos : 0 < inject_Z (Z.of_nat n)).
  { change 0 with (inject_Z 0). rewrite <- Zlt_Qlt. lia. }
  assert (Hw : 0 <= inject_Z (Z.of_nat w)).
  { change 0 with (inject_Z 0). rewrite <- Zle_Qle. lia. }
  assert (Hle : inject_Z (Z.of_nat w) <= inject_Z (Z.of_nat n)).
  { rewrite <- Zle_Qle. lia. }
  rewrite div_Fin by lra.
  eexists. split; [reflexivity|]. split; [reflexivity|].
  assert (H0 : 0 <= inject_Z (Z.of_nat w) / inject_Z (Z.of_nat n))
    by (apply Qle_shift_div_l; lra).
  assert (H1 : inject_Z (Z.of_nat w) / inject_Z (Z.of_nat n) <= 1)
    by (apply Qle_shift_div_r; lra).
  lra.
Qed.

(** X18.  The summary of the store counts each stored position once; the
    winning and the losing positions are CLOSED positions and no position
    is both; the win rate is the share of the winning among the CLOSED
    positions, a number of [0, 100], and it is 0 while no position is
    CLOSED. *)
Theorem get_position_summary_counts (positions : PositionManager.positions_t) :
  let summary := PositionReports.get_position_summary positions in
  Summary.total_positions summary = length positions
  /\ Summary.open_positions summary
     = length (PositionManager.get_open_positions positions)
  /\ (Summary.open_positions summary + Summary.closed_positions summary
      <= Summary.total_positions summary)%nat
  /\ (Summary.winning_trades summary + Summary.losing_trades summary
      <= Summary.closed_positions summary)%nat
  /\ exists rate,
      Summary.win_rate summary = Fin rate
      /\ 0 <= rate <= 100
      /\ (Summary.closed_positions summary = 0%nat -> rate == 0)
      /\ ((1 <= Summary.closed_positions summary)%nat ->
          rate == inject_Z (Z.of_nat (Summary.winning_trades summary))
                  / inject_Z (Z.of_nat (Summary.closed_positions summary))
                  * 100).
Proof.
  intros summary. subst summary.
  unfold PositionReports.get_position_summary.
  cbn [Summary.total_positions Summary.open_positions
       Summary.closed_positions Summary.winning_trades
       Summary.losing_trades Summary.win_rate].
  set (closed := List.filter
                   (fun pos => Status_eqb (Position.status pos) CLOSED)
                   (Dict.values positions)).
  split; [unfold Dict.values; apply length_map|].
  split; [reflexivity|].
  split.
  { rewrite Nat.add_comm.
    apply filter_disjoint_length.
    intros pos. destruct (Position.status pos); [discriminate|reflexivity]. }
  split.
  { apply filter_disjoint_length. intros pos. apply gtb_ltb_disjoint. }
  destruct closed as [|c rest] eqn:E.
  - exists 0. split; [reflexivity|]. split; [lra|].
    split; [reflexivity|]. simpl. lia.
  - destruct (rate_bounds
                (length (List.filter
                           (fun pos => (Position.pnl pos >? f0)%F)
                           (c :: rest)))
                (length (c :: rest)))
      as (r & Hr & Hrv & Hb);
      [apply filter_length_le | simpl; lia|].
    exists r. split; [exact Hr|]. split; [exact Hb|].
    split; [discriminate|]. intros _. exact Hrv.
Qed.

End CountFacts.

(** ** The metrics of the replay *)

Section MetricsFacts.
Import Pandas BacktestMetrics.

Lemma fold_left_add_Fin (qs : list Q) (a : Q) :
  fold_left Float.add (map Fin qs) (Fin a) = Fin (fold_left Qplus qs a).
Proof.
  revert a. induction qs as [|q qs IH]; intros a; simpl; [reflexivity|].
  apply IH.
Qed.

Lemma fold_left_Qplus (qs : list Q) (a : Q) :
  fold_left Qplus qs a == a + Qsum qs.
Proof.
  revert a. induction qs as [|q qs IH]; intros a; simpl.
  - unfold Qsum. simpl. ring.
  - rewrite IH. unfold Qsum. simpl. ring.
Qed.

Lemma fsum_Fin (qs : list Q) :
  exists t, fsum (map Fin qs) = Fin t /\ t == Qsum qs.
Proof.
  unfold fsum, f0. rewrite fold_left_add_Fin. eexists.
  split; [reflexivity|]. rewrite fold_left_Qplus. ring.
Qed.

Lemma numbers_observations (xs : Series) :
  Forall (fun x => Float.isnan x = false) xs ->
  xs = map Fin (observations xs).
Proof.
  induction 1 as [|x xs Hx _ IH]; simpl; [reflexivity|].
  destruct x; [discriminate|]. simpl. now rewrite <- IH.
Qed.

Lemma filter_gtb_Fin (qs : list Q) :
  List.filter (fun x => (x >? f0)%F) (map Fin qs)
  = map Fin (List.filter (fun q => Float.Qlt_bool 0 q) qs).
Proof.
  induction qs as [|q qs IH]; [reflexivity|].
  cbn [map List.filter]. rewrite IH.
  change (Fin q >? f0)%F with (Float.Qlt_bool 0 q).
  destruct (Float.Qlt_bool 0 q); reflexivity.
Qed.

Lemma filter_ltb_Fin (qs : list Q) :
  List.filter (fun x => (x <? f0)%F) (map Fin qs)
  = map Fin (List.filter (fun q => Float.Qlt_bool q 0) qs).
Proof.
  induction qs as [|q qs IH]; [reflexivity|].
  cbn [map List.filter]. rewrite IH.
  change (Fin q <? f0)%F with (Float.Qlt_bool q 0).
  destruct (Float.Qlt_bool q 0); reflexivity.
Qed.

Lemma Qsum_cons (q : Q) (qs : list Q) : Qsum (q :: qs) == q + Qsum qs.
Proof. unfold Qsum. simpl. reflexivity. Qed.

(** The sum is the sum of the gains plus the sum of the losses. *)
Lemma Qsum_split (qs : list Q) :
  Qsum qs
  == Qsum (List.filter (fun q => Float.Qlt_bool 0 q) qs)
     + Qsum (List.filter (fun q => Float.Qlt_bool q 0) qs).
Proof.
  induction qs as [|q qs IH]; [unfold Qsum; simpl; ring|].
  rewrite Qsum_cons, IH. simpl.
  destruct (Float.Qlt_bool 0 q) eqn:E1, (Float.Qlt_bool q 0) eqn:E2;
    rewrite ?Qsum_cons; try ring.
  - apply Qlt_bool_iff in E1, E2. lra.
  - apply Qlt_bool_false in E1, E2. assert (q == 0) by lra. lra.
Qed.

Lemma Qsum_gains (qs : list Q) :
  0 <= Qsum (List.filter (fun q => Float.Qlt_bool 0 q) qs).
Proof.
  induction qs as [|q qs IH]; [unfold Qsum; simpl; lra|]. simpl.
  destruct (Float.Qlt_bool 0 q) eqn:E; [|exact IH].
  apply Qlt_bool_iff in E. rewrite Qsum_cons. lra.
Qed.

Lemma Qsum_losses (qs : list Q) :
  Qsum (List.filter (fun q => Float.Qlt_bool q 0) qs) <= 0
  /\ (List.filter (fun q => Float.Qlt_bool q 0) qs <> [] ->
      Qsum (List.filter (fun q => Float.Qlt_bool q 0) qs) < 0).
Proof.
  induction qs as [|q qs [IH1 IH2]]; simpl.
  - split; [unfold Qsum; simpl; lra | congruence].
  - destruct (Float.Qlt_bool q 0) eqn:E; [|split; assumption].
    apply Qlt_bool_iff in E. rewrite Qsum_cons. split; intros; lra.
Qed.

(** X19.  [calculate_symbol_metrics] gives nothing for an empty list.  For
    a list of trades it counts every trade; no trade counts both as
    winning and as losing; the win rate is a number of [0, 100].  When the
    amounts of the trades are numbers, the total is the sum of the gains
    plus the sum of the losses, and the profit factor is infinite exactly
    when no trade has lost, and else the sum of the gains divided by the
    sum of the losses taken positive - a number that is not negative. *)
Theorem calculate_symbol_metrics_spec (trades : list Trade.t) :
  (calculate_symbol_metrics trades = None <-> trades = [])
  /\ forall metrics,
      calculate_symbol_metrics trades = Some metrics ->
      Metrics.total_trades metrics = length trades
      /\ (Metrics.winning_trades metrics + Metrics.losing_trades metrics
          <= Metrics.total_trades metrics)%nat
      /\ (exists rate, Metrics.win_rate metrics = Fin rate
                       /\ 0 <= rate <= 100)
      /\ (Forall (fun t => Float.isnan (Trade.pnl_usdt t) = false) trades ->
          (exists total,
              Metrics.total_pnl metrics = Fin total
              /\ total == gross_profit trades + gross_loss trades)
          /\ match Metrics.profit_factor metrics with
             | Infinite => gross_loss trades == 0
             | Factor f =>
                 gross_loss trades < 0
                 /\ exists x, f = Fin x
                              /\ x == gross_profit trades
                                      / - gross_loss trades
                              /\ 0 <= x
             end).
Proof.
  split.
  { destruct trades; simpl; split; congruence. }
  intros metrics Hm.
  destruct trades as [|t0 rest] eqn:Et; [discriminate|].
  rewrite <- Et in *. clear Et t0 rest.
  assert (Hlen : (1 <= length trades)%nat).
  { destruct trades; [discriminate | simpl; lia]. }
  unfold calculate_symbol_metrics in Hm.
  destruct trades as [|t0 rest] eqn:Et; [simpl in Hlen; lia|].
  rewrite <- Et in *. injection Hm as <-.
  cbn [Metrics.total_trades Metrics.winning_trades Metrics.losing_trades
       Metrics.win_rate Metrics.total_pnl Metrics.profit_factor].
  split; [reflexivity|].
  split.
  { apply filter_disjoint_length. intros t. apply gtb_ltb_disjoint. }
  split.
  { destruct (rate_bounds
                (length (List.filter
                           (fun t => (Trade.pnl_percent t >? f0)%F) trades))
                (length trades)) as (r & Hr & _ & Hb);
      [apply filter_length_le | exact Hlen|].
    exists r. split; assumption. }
  intros Hnum.
  assert (Hmap : map Trade.pnl_usdt trades = map Fin (pnl_amounts trades)).
  { unfold pnl_amounts. apply numbers_observations.
    apply Forall_map. exact Hnum. }
  rewrite Hmap, filter_gtb_Fin, filter_ltb_Fin.
  unfold gross_profit, gross_loss.
  set (qs := pnl_amounts trades).
  set (gains := List.filter (fun q => Float.Qlt_bool 0 q) qs).
  set (losses := List.filter (fun q => Float.Qlt_bool q 0) qs).
  split.
  { destruct (fsum_Fin qs) as (t & Ht & Hv). exists t.
    split; [exact Ht|]. rewrite Hv. apply Qsum_split. }
  destruct (Qsum_losses qs) as [Hle Hlt]. fold losses in Hle, Hlt.
  pose proof (Qsum_gains qs) as Hg. fold gains in Hg.
  destruct losses as [|l0 ls] eqn:El.
  { simpl. unfold Qsum. simpl. reflexivity. }
  rewrite <- El in *.
  assert (Hneg : Qsum losses < 0) by (apply Hlt; rewrite El; discriminate).
  assert (Hmatch : match map Fin losses with
                   | [] => Infinite
                   | _ :: _ =>
                       Factor (fabs (fsum (map Fin gains)
                                     / fsum (map Fin losses))%F)
                   end
                   = Factor (fabs (fsum (map Fin gains)
                                   / fsum (map Fin losses))%F)).
  { rewrite El. reflexivity. }
  rewrite Hmatch.
  split; [exact Hneg|].
  destruct (fsum_Fin gains) as (w & Hw & Hwv).
  destruct (fsum_Fin losses) as (l & Hl & Hlv).
  rewrite Hw, Hl.
  assert (Hl0 : ~ l == 0) by lra.
  rewrite (div_Fin _ _ Hl0). cbn [fabs].
  eexists. split; [reflexivity|].
  assert (H1 : 0 <= w / - l) by (apply Qle_shift_div_l; lra).
  assert (H2 : w / l == - (w / - l)) by (field; lra).
  assert (H3 : Qabs (w / l) == w / - l).
  { rewrite H2, Qabs_opp. apply Qabs_pos. exact H1. }
  split; [rewrite H3, Hwv, Hlv; reflexivity|].
  rewrite H3. exact H1.
Qed.

End MetricsFacts.

(** ** Further properties of the replay *)

Section ReplayFacts.
Import Backtester BacktestRun TradingStrategy.

Variable config : gmap string SymbolConfig.
Variable sqrt : float -> float.
Variable fmt2f : float -> string.
Variable fmt : float -> string.
Variable symbol : string.
Variable symbol_config : SymbolConfig.

Lemma bars_app (step : state -> nat -> result state) (r1 r2 : list nat)
      (st : state) :
  bars step (r1 ++ r2) st = (st' ← bars step r1 st; bars step r2 st').
Proof.
  revert st. induction r1 as [|i r1 IH]; intros st; simpl; [reflexivity|].
  unfold mbind, result_bind. destruct (step st i); [apply IH | reflexivity].
Qed.

Lemma bars_ext (step1 step2 : state -> nat -> result state)
      (range : list nat) (st : state) :
  (forall st i, In i range -> step1 st i = step2 st i) ->
  bars step1 range st = bars step2 range st.
Proof.
  revert st. induction range as [|i range IH]; intros st Heq; simpl;
    [reflexivity|].
  rewrite (Heq st i) by now left.
  unfold mbind, result_bind. destruct (step2 st i); [|reflexivity].
  apply IH. intros st' j Hj. apply Heq. now right.
Qed.

(** A run over bars of the frame raises nothing, only appends trades, and
    needs two bars for each trade. *)
Lemma bars_grow (df : DataFrame) (range : list nat) (st : state) :
  Forall (fun i => (20 <= i < length df)%nat) range ->
  exists st' more,
    bars (bar config sqrt fmt2f fmt symbol symbol_config df) range st
    = Ok st'
    /\ snd st' = snd st ++ more
    /\ (2 * length more + open_now st' <= open_now st + length range)%nat.
Proof.
  intros Hrange. revert st.
  induction Hrange as [|i rest Hi _ IH]; intros st.
  - exists st, []. simpl. rewrite app_nil_r. repeat split; lia.
  - destruct (bar_effect_of_bar config sqrt fmt2f fmt symbol symbol_config
                                df st i Hi) as (st1 & Hstep & Heff).
    destruct (IH st1) as (st' & more & Hbars & Hsnd & Hcnt).
    simpl. rewrite Hstep. unfold mbind, result_bind. rewrite Hbars.
    destruct st as [position trades], st1 as [position1 trades1].
    unfold bar_effect in Heff. unfold open_now in *. cbn [fst snd] in *.
    destruct position as [position|].
    + destruct Heff as [[-> ->] | [-> (trade & -> & _)]].
      * exists st', more. repeat split; [assumption | lia].
      * exists st', (trade :: more).
        split; [reflexivity|].
        split; [rewrite Hsnd, <- app_assoc; reflexivity|].
        simpl. lia.
    + subst trades1. exists st', more.
      split; [reflexivity|]. split; [assumption|].
      destruct position1; lia.
Qed.

Lemma bar_range_in (df : DataFrame) :
  Forall (fun i => (20 <= i < length df)%nat) (bar_range df).
Proof.
  unfold bar_range. change (Nat.max 20 6) with 20%nat.
  apply Forall_forall. intros i Hi.
  apply list_elem_of_In, in_seq in Hi. lia.
Qed.

End ReplayFacts.

Section ReplayClaims.
Import Backtester BacktestRun TradingStrategy.

Variable config : gmap string SymbolConfig.
Variable sqrt : float -> float.
Variable fmt2f : float -> string.
Variable fmt : float -> string.
Variable symbol : string.

Lemma run_backtest_enabled (df : DataFrame) :
  is_empty (pairs_get config symbol)
  || negb (get (enabled (pairs_get config symbol)) false) = false ->
  run_backtest config sqrt fmt2f fmt symbol df
  = (st ← bars (bar config sqrt fmt2f fmt symbol (pairs_get config symbol)
                    df)
               (bar_range df) (None, []);
     Ok (snd st)).
Proof.
  intros He. unfold run_backtest. rewrite He.
  unfold mbind, result_bind.
  destruct (bars _ _ _) as [[position trades]|]; reflexivity.
Qed.

Lemma run_backtest_disabled (df : DataFrame) :
  is_empty (pairs_get config symbol)
  || negb (get (enabled (pairs_get config symbol)) false) = true ->
  run_backtest config sqrt fmt2f fmt symbol df = Ok [].
Proof. intros He. unfold run_backtest. now rewrite He. Qed.

(** X20.  The replay always returns a list of trades, and each trade takes
    two bars after the warm-up, one to open and a later one to close: twice
    the number of trades is at most the number of bars beyond the first
    twenty.  A frame of 21 bars or fewer gives no trade. *)
Theorem run_backtest_trade_bound (df : DataFrame) :
  exists trades,
    run_backtest config sqrt fmt2f fmt symbol df = Ok trades
    /\ (2 * length trades <= length df - 20)%nat.
Proof.
  destruct (is_empty (pairs_get config symbol)
            || negb (get (enabled (pairs_get config symbol)) false)) eqn:He.
  - exists []. split; [apply run_backtest_disabled, He | simpl; lia].
  - rewrite (run_backtest_enabled df He).
    destruct (bars_grow config sqrt fmt2f fmt symbol
                        (pairs_get config symbol) df (bar_range df)
                        (None, []) (bar_range_in df))
      as (st' & more & Hbars & Hsnd & Hcnt).
    rewrite Hbars. unfold mbind, result_bind. exists (snd st').
    split; [reflexivity|].
    rewrite Hsnd. cbn [snd app]. unfold bar_range in Hcnt.
    rewrite length_seq in Hcnt. change (Nat.max 20 6) with 20%nat in Hcnt.
    unfold open_now in Hcnt at 2. cbn [fst] in Hcnt. lia.
Qed.

Lemma index_at_take (df : DataFrame) (k i : nat) :
  (i < k)%nat -> index_at (firstn k df) i = index_at df i.
Proof.
  intros Hi. unfold index_at. rewrite <- firstn_map, nth_firstn.
  apply Nat.ltb_lt in Hi. now rewrite Hi.
Qed.

(** A bar of the replay sees the frame up to that bar only. *)
Lemma bar_take (symbol_config : SymbolConfig) (df : DataFrame) (k : nat)
      (st : state) (i : nat) :
  (i < k)%nat ->
  bar config sqrt fmt2f fmt symbol symbol_config (firstn k df) st i
  = bar config sqrt fmt2f fmt symbol symbol_config df st i.
Proof.
  intros Hi. unfold bar.
  rewrite take_take, (index_at_take df k i Hi).
  replace (Nat.min (i + 1) k) with (i + 1)%nat by lia. reflexivity.
Qed.

(** X21.  The replay does not look ahead: the trades it returns on the
    first [k] bars of a frame are the first trades it returns on the whole
    frame; the bars after [k] can only add trades after them. *)
Theorem run_backtest_no_lookahead (df : DataFrame) (k : nat) :
  (k <= length df)%nat ->
  exists trades more,
    run_backtest config sqrt fmt2f fmt symbol (firstn k df) = Ok trades
    /\ run_backtest config sqrt fmt2f fmt symbol df = Ok (trades ++ more).
Proof.
  intros Hk.
  destruct (is_empty (pairs_get config symbol)
            || negb (get (enabled (pairs_get config symbol)) false)) eqn:He.
  { exists [], []. split; apply run_backtest_disabled, He. }
  rewrite !(run_backtest_enabled _ He).
  set (sc := pairs_get config symbol).
  assert (Hr1 : bar_range (firstn k df) = seq 20 (k - 20)).
  { unfold bar_range. rewrite length_take.
    change (Nat.max 20 6) with 20%nat. f_equal. lia. }
  assert (Hr2 : bar_range df
                = seq 20 (k - 20) ++ seq (20 + (k - 20))
                                         (length df - 20 - (k - 20))).
  { unfold bar_range. change (Nat.max 20 6) with 20%nat.
    rewrite <- seq_app. f_equal. lia. }
  assert (Hin1 : Forall (fun i => (20 <= i < length df)%nat)
                        (seq 20 (k - 20))).
  { apply Forall_forall. intros i Hi.
    apply list_elem_of_In, in_seq in Hi. lia. }
  assert (Hin2 : Forall (fun i => (20 <= i < length df)%nat)
                        (seq (20 + (k - 20)) (length df - 20 - (k - 20)))).
  { apply Forall_forall. intros i Hi.
    apply list_elem_of_In, in_seq in Hi. lia. }
  rewrite Hr1, Hr2, bars_app.
  rewrite (bars_ext (bar config sqrt fmt2f fmt symbol sc (firstn k df))
                    (bar config sqrt fmt2f fmt symbol sc df)).
  2:{ intros st i Hi. apply in_seq in Hi. apply bar_take. lia. }
  destruct (bars_grow config sqrt fmt2f fmt symbol sc df _ (None, []) Hin1)
    as (st1 & more1 & Hb1 & Hs1 & _).
  destruct (bars_grow config sqrt fmt2f fmt symbol sc df _ st1 Hin2)
    as (st2 & more2 & Hb2 & Hs2 & _).
  rewrite Hb1. unfold mbind, result_bind. rewrite Hb2.
  exists (snd st1), more2. split; [reflexivity|]. now rewrite Hs2.
Qed.

(** X22.  The replay reads the closes and the index of the frame and
    nothing else: two frames with the same closes and the same index give
    the same trades, whatever their open, high, low and volume columns - a
    bar whose low falls through the stop while its close does not, does not
    close the position.  The evaluator reads the closes only. *)
Theorem run_backtest_reads_closes (df df' : DataFrame) :
  map Candle.close df = map Candle.close df' ->
  map Candle.timestamp df = map Candle.timestamp df' ->
  run_backtest config sqrt fmt2f fmt symbol df
  = run_backtest config sqrt fmt2f fmt symbol df'
  /\ analyze_symbol config sqrt fmt2f fmt symbol df
     = analyze_symbol config sqrt fmt2f fmt symbol df'.
Proof.
  intros Hc Ht.
  assert (Hclose : forall n, close_of (firstn n df) = close_of (firstn n df')).
  { intros n. unfold close_of.
    rewrite <- !(map_map Candle.close Fin), <- !firstn_map, Hc.
    reflexivity. }
  assert (Hlen : length df = length df').
  { rewrite <- (length_map Candle.close df), Hc. apply length_map. }
  split.
  - unfold run_backtest.
    destruct (is_empty _ || _); [reflexivity|].
    unfold bar_range. rewrite Hlen. f_equal.
    apply bars_ext. intros st i _. unfold bar, index_at.
    rewrite Ht.
    rewrite (analyze_symbol_ext config sqrt fmt2f fmt symbol
                                (firstn (i + 1) df) (firstn (i + 1) df')
                                (Hclose (i + 1)%nat)).
    reflexivity.
  - apply analyze_symbol_ext.
    specialize (Hclose (length df)). rewrite firstn_all in Hclose.
    rewrite Hlen, firstn_all in Hclose. exact Hclose.
Qed.

Lemma bars_invariant (Inv : state -> Prop) (symbol_config : SymbolConfig)
      (df : DataFrame) (range : list nat) (st st' : state) :
  Forall (fun i => (20 <= i < length df)%nat) range ->
  (forall st i st1,
      (20 <= i < length df)%nat -> Inv st ->
      bar config sqrt fmt2f fmt symbol symbol_config df st i = Ok st1 ->
      Inv st1) ->
  Inv st ->
  bars (bar config sqrt fmt2f fmt symbol symbol_config df) range st = Ok st' ->
  Inv st'.
Proof.
  intros Hrange Hstep. revert st.
  induction Hrange as [|i rest Hi _ IH]; intros st Hinv; simpl.
  - intros [= <-]. exact Hinv.
  - unfold mbind, result_bind.
    destruct (bar _ _ _ _ _ _ _ st i) as [st1|] eqn:E; [|discriminate].
    apply IH. exact (Hstep st i st1 Hi Hinv E).
Qed.

(** The price of the analysis of a bar is the close of that bar. *)
Lemma analyze_symbol_price_in (df : DataFrame) (i : nat) :
  (20 <= i < length df)%nat ->
  exists x,
    In x (map Candle.close df)
    /\ Analysis.current_price
         (analyze_symbol config sqrt fmt2f fmt symbol (firstn (i + 1) df))
       = Some (Fin x).
Proof.
  intros Hi.
  assert (Hlen : (20 <= length (firstn (i + 1) df))%nat)
    by (rewrite length_take; lia).
  destruct (enough_bars _ Hlen) as (Hltb & _ & row & Hrow).
  exists (Candle.close row). split.
  - apply in_map. apply last_Some in Hrow as [l' Hl'].
    rewrite <- (firstn_skipn (i + 1) df), Hl'.
    apply in_or_app. left. apply in_or_app. right. now left.
  - unfold analyze_symbol. rewrite Hltb.
    destruct (TechnicalIndicators.calculate_bollinger_bands _ _ _ _)
      as [[bb_upper bb_middle] bb_lower].
    rewrite <- (iloc_last_close_of _ row Hrow).
    destruct (is_empty _ || _); [reflexivity|].
    destruct (TechnicalIndicators.is_long_signal _ _ _ _ _); reflexivity.
Qed.

Lemma bar_keeps_invariant (df : DataFrame) (st : state) (i : nat)
      (st1 : state) :
  (20 <= i < length df)%nat ->
  replay_invariant config symbol (map Candle.close df) st ->
  bar config sqrt fmt2f fmt symbol (pairs_get config symbol) df st i
  = Ok st1 ->
  replay_invariant config symbol (map Candle.close df) st1.
Proof.
  intros Hi [Hpos Htrades] Hbar.
  destruct (analyze_symbol_price_in df i Hi) as (x & Hx & Hprice).
  destruct st as [position trades]. cbn [fst snd] in Hpos, Htrades.
  unfold bar in Hbar. rewrite Hprice in Hbar.
  destruct position as [position|].
  - destruct Hpos as (Hside & e & He & Hentry & Htp & Hsl & Hlev).
    unfold exit_check, number, mbind, result_bind in Hbar.
    rewrite Hside, Htp, Hsl in Hbar. cbv beta iota in Hbar.
    destruct (Fin x >=? _)%F eqn:E1.
    + apply geb_Fin in E1. injection Hbar as <-.
      split; [exact I|]. cbn [snd]. apply Forall_app. split; [exact Htrades|].
      constructor; [|constructor].
      unfold closed_at_level, make_trade.
      cbn [Trade.side Trade.entry_price Trade.exit_price Trade.exit_reason
           Trade.pnl_percent Trade.pnl_usdt].
      rewrite Hside, Hentry, Hlev.
      split; [reflexivity|]. exists e, x. auto 10.
    + assert (Hlt : x < e * (1 + tp_percent_of config symbol / 100)).
      { apply Qnot_le_lt. intros Hle. apply geb_Fin in Hle. congruence. }
      destruct (Fin x <=? _)%F eqn:E2.
      * apply leb_Fin in E2. injection Hbar as <-.
        split; [exact I|]. cbn [snd]. apply Forall_app.
        split; [exact Htrades|].
        constructor; [|constructor].
        unfold closed_at_level, make_trade.
        cbn [Trade.side Trade.entry_price Trade.exit_price Trade.exit_reason
             Trade.pnl_percent Trade.pnl_usdt].
        rewrite Hside, Hentry, Hlev.
        split; [reflexivity|]. exists e, x. auto 10.
      * injection Hbar as <-. split; [|exact Htrades]. cbn [fst].
        split; [exact Hside|]. exists e. auto.
  - destruct (Signal_eqb _ LONG).
    + unfold open_position, number, mbind, result_bind in Hbar.
      rewrite Hprice in Hbar. cbv beta iota in Hbar.
      rewrite take_profit_stop_loss_long' in Hbar.
      injection Hbar as <-. split; [|exact Htrades]. cbn [fst].
      split; [reflexivity|]. exists x. cbn. auto.
    + injection Hbar as <-. split; [exact I | exact Htrades].
Qed.

Lemma closed_at_level_between (closes : list Q) (trade : Trade.t) :
  closed_at_level config symbol closes trade -> between_closes closes trade.
Proof.
  intros (Hside & e & x & He & Hx & Hentry & Hexit & Hreason & _).
  split; [exact Hside|]. split; [eauto|]. split; [eauto|]. tauto.
Qed.

Lemma closed_at_level_side (closes : list Q) (trade : Trade.t) :
  Forall (fun c => 0 < c) closes ->
  0 <= tp_percent_of config symbol ->
  0 <= sl_percent_of config symbol ->
  0 < get (leverage (pairs_get config symbol)) 10 ->
  closed_at_level config symbol closes trade ->
  right_side_of_entry trade.
Proof.
  intros Hpos Htp Hsl Hlev
         (_ & e & x & He & _ & Hentry & Hexit & Hreason & Hpct & _).
  assert (He0 : 0 < e).
  { rewrite Forall_forall in Hpos. apply Hpos, list_elem_of_In, He. }
  assert (Hne : ~ e == 0) by lra.
  change (Fin x - Fin e)%F with (Fin (x - e)) in Hpct.
  rewrite (div_Fin _ _ Hne) in Hpct.
  change (Fin ((x - e) / e) * f100
          * Fin (get (leverage (pairs_get config symbol)) 10))%F
    with (Fin ((x - e) / e * 100
               * get (leverage (pairs_get config symbol)) 10)) in Hpct.
  set (lev := get (leverage (pairs_get config symbol)) 10) in *.
  set (t := tp_percent_of config symbol) in *.
  set (s := sl_percent_of config symbol) in *.
  exists e, x. eexists.
  split; [exact Hentry|]. split; [exact Hexit|]. split; [exact Hpct|].
  set (r := (x - e) / e).
  assert (Hr : r * e == x - e) by (unfold r; field; exact Hne).
  assert (Ht : e * (1 + t / 100) == e + e * t * (1 # 100)) by field.
  assert (Hs : e * (1 - s / 100) == e - e * s * (1 # 100)) by field.
  split.
  - intros Hr1. destruct Hreason as [[_ Hle] | [Hr2 _]]; [|congruence].
    assert (Hx : e <= x) by nra.
    assert (H0 : 0 <= r) by nra.
    split; [exact Hx | nra].
  - intros Hr1. destruct Hreason as [[Hr2 _] | [_ [Hle _]]]; [congruence|].
    assert (Hx : x <= e) by nra.
    assert (H0 : r <= 0) by nra.
    split; [exact Hx | nra].
Qed.

(** X23.  Every trade the replay returns is a LONG trade entered at a close
    of the frame and left at a close of the frame, with the reason "Take
    Profit" or "Stop Loss".  When the closes of the frame and the leverage
    are above zero and the two percents are not negative, a "Take Profit"
    trade is left at or above its entry price and shows no loss, and a
    "Stop Loss" trade is left at or below its entry price and shows no
    gain. *)
Theorem run_backtest_trades_between_closes (df : DataFrame) :
  exists trades,
    run_backtest config sqrt fmt2f fmt symbol df = Ok trades
    /\ Forall (between_closes (map Candle.close df)) trades
    /\ (Forall (fun c => 0 < c) (map Candle.close df) ->
        0 <= tp_percent_of config symbol ->
        0 <= sl_percent_of config symbol ->
        0 < get (leverage (pairs_get config symbol)) 10 ->
        Forall right_side_of_entry trades).
Proof.
  assert (Hex : exists trades,
             run_backtest config sqrt fmt2f fmt symbol df = Ok trades
             /\ Forall (closed_at_level config symbol (map Candle.close df))
                       trades).
  { destruct (is_empty (pairs_get config symbol)
              || negb (get (enabled (pairs_get config symbol)) false))
      eqn:He.
    - exists []. split; [apply run_backtest_disabled, He | constructor].
    - rewrite (run_backtest_enabled df He).
      destruct (bars_grow config sqrt fmt2f fmt symbol
                          (pairs_get config symbol) df (bar_range df)
                          (None, []) (bar_range_in df))
        as (st' & more & Hbars & _).
      rewrite Hbars. unfold mbind, result_bind. exists (snd st').
      split; [reflexivity|].
      refine (proj2 (bars_invariant
                       (replay_invariant config symbol (map Candle.close df))
                       (pairs_get config symbol) df (bar_range df)
                       (None, []) st' (bar_range_in df) _ _ Hbars)).
      + intros st i st1 Hi Hinv Hbar.
        exact (bar_keeps_invariant df st i st1 Hi Hinv Hbar).
      + split; [exact I | constructor]. }
  destruct Hex as (trades & Hrun & Hall).
  exists trades. split; [exact Hrun|].
  split.
  { eapply Forall_impl; [exact Hall|].
    intros trade. apply closed_at_level_between. }
  intros Hpos Htp Hsl Hlev.
  eapply Forall_impl; [exact Hall|].
  intros trade. apply closed_at_level_side; assumption.
Qed.

End ReplayClaims.

(** ** The two paths book the same profit *)

Section SamePnl.
Import PositionManager TradingBot.

Variable config : gmap string SymbolConfig.



End SamePnl.

(** ** Further properties of the indicators *)

Section IndicatorFacts.
Import Pandas TechnicalIndicators RsiSpec RsiFacts.

Lemma rolling_nth (w m : nat) (agg : list Q -> float) (xs : Series)
      (i : nat) :
  (i < length xs)%nat ->
  nth i (rolling w m agg xs) NaN
  = let obs := observations (window_at w xs i) in
    if (m <=? length obs)%nat then agg obs else NaN.
Proof.
  intros Hi. unfold rolling.
  set (f := fun i : nat =>
              let obs := observations (window_at w xs i) in
              if (m <=? length obs)%nat then agg obs else NaN).
  rewrite (nth_indep _ NaN (f 0%nat))
    by (rewrite length_map, length_seq; exact Hi).
  rewrite map_nth, seq_nth by exact Hi. reflexivity.
Qed.

Lemma zip_with_nth (op : float -> float -> float) (xs ys : Series)
      (i : nat) :
  (i < length xs)%nat -> (i < length ys)%nat ->
  nth i (zip_with op xs ys) NaN = op (nth i xs NaN) (nth i ys NaN).
Proof.
  revert ys i. induction xs as [|x xs IH]; intros [|y ys] [|i] Hx Hy;
    simpl in *; try lia; [reflexivity|].
  apply IH; lia.
Qed.

Lemma map_nth_NaN (f : float -> float) (xs : Series) (i : nat) :
  (i < length xs)%nat -> nth i (map f xs) NaN = f (nth i xs NaN).
Proof.
  intros Hi. rewrite (nth_indep _ NaN (f NaN)) by (now rewrite length_map).
  apply map_nth.
Qed.

Lemma observations_length_le (xs : Series) :
  (length (observations xs) <= length xs)%nat.
Proof.
  induction xs as [|[|q] xs IH]; simpl; lia.
Qed.

Lemma observations_Fin (qs : list Q) : observations (map Fin qs) = qs.
Proof. induction qs as [|q qs IH]; simpl; [reflexivity | now rewrite IH]. Qed.

Lemma window_at_Fin (w : nat) (qs : list Q) (i : nat) :
  window_at w (map Fin qs) i = map Fin (trailing w qs i).
Proof. unfold window_at, trailing. now rewrite firstn_map, skipn_map. Qed.

Lemma trailing_length (period : nat) (qs : list Q) (i : nat) :
  (period <= i + 1)%nat -> (i < length qs)%nat ->
  length (trailing period qs i) = period.
Proof.
  intros Hp Hi. unfold trailing. rewrite length_drop, length_take. lia.
Qed.

Section Bands.
Variable sqrt : float -> float.
Variable prices : Series.
Variable period : nat.
Variable std_dev : float.

Let bands := calculate_bollinger_bands sqrt prices period std_dev.
Let upper := fst (fst bands).
Let middle := snd (fst bands).
Let lower := snd bands.
Let deviation := rolling period period (std sqrt) prices.

Lemma bands_length :
  length upper = length prices /\ length middle = length prices
  /\ length lower = length prices.
Proof.
  unfold upper, middle, lower, bands, calculate_bollinger_bands.
  cbn [fst snd].
  rewrite !zip_with_length; rewrite ?length_map, !rolling_length;
    auto.
Qed.

Lemma bands_nth (i : nat) :
  (i < length prices)%nat ->
  nth i upper NaN = (nth i middle NaN + nth i deviation NaN * std_dev)%F
  /\ nth i lower NaN = (nth i middle NaN - nth i deviation NaN * std_dev)%F.
Proof.
  intros Hi.
  unfold upper, middle, lower, deviation, bands, calculate_bollinger_bands.
  cbn [fst snd].
  rewrite !zip_with_nth; rewrite ?length_map, ?rolling_length; try exact Hi.
  rewrite !(map_nth_NaN (fun s => (s * std_dev)%F))
    by (rewrite rolling_length; exact Hi).
  split; reflexivity.
Qed.

(** X25.  The three bands have the length of the price series, and each
    is undefined (NaN) at every bar that has fewer than [period] bars up to
    and including itself: the first [period - 1] positions. *)
Theorem bollinger_bands_warm_up :
  (length upper = length prices /\ length middle = length prices
   /\ length lower = length prices)
  /\ forall i,
      (i + 1 < period)%nat -> (i < length prices)%nat ->
      nth i upper NaN = NaN /\ nth i middle NaN = NaN
      /\ nth i lower NaN = NaN.
Proof.
  split; [exact bands_length|].
  intros i Hwarm Hi.
  assert (Hobs : (period <=? length (observations (window_at period prices i)))
                 %nat = false).
  { apply Nat.leb_gt.
    pose proof (observations_length_le (window_at period prices i)) as H.
    assert (Hw : (length (window_at period prices i) <= i + 1)%nat).
    { unfold window_at. rewrite length_drop, length_take. lia. }
    lia. }
  assert (Hm : nth i middle NaN = NaN).
  { unfold middle, bands, calculate_bollinger_bands. cbn [fst snd].
    rewrite rolling_nth by exact Hi. cbv zeta. now rewrite Hobs. }
  destruct (bands_nth i Hi) as [Hu Hl].
  rewrite Hu, Hl, Hm. repeat split.
Qed.

(** X26.  Wherever the upper and the lower band are numbers the middle
    band is a number too and lies exactly half way between them:
    [upper - middle = middle - lower].  The upper band is a number exactly
    where the lower band is one. *)
Theorem bollinger_bands_symmetric (i : nat) :
  (i < length prices)%nat ->
  (Float.isnan (nth i upper NaN) = Float.isnan (nth i lower NaN))
  /\ forall u l,
      nth i upper NaN = Fin u -> nth i lower NaN = Fin l ->
      exists m, nth i middle NaN = Fin m /\ u - m == m - l.
Proof.
  intros Hi. destruct (bands_nth i Hi) as [Hu Hl].
  rewrite Hu, Hl.
  destruct (nth i middle NaN) as [|m]; [split; [reflexivity | discriminate]|].
  destruct (nth i deviation NaN * std_dev)%F as [|t];
    [split; [reflexivity | discriminate]|].
  split; [reflexivity|].
  intros u l [= <-] [= <-]. exists m. split; [reflexivity | ring].
Qed.

End Bands.

(** X27.  On a series of numbers, from the bar that completes the first
    window on, the middle band is the simple moving average of the last
    [period] closes: their sum divided by [period]. *)
Theorem bollinger_middle_is_sma
        (sqrt : float -> float) (qs : list Q) (period : nat)
        (std_dev : float) (i : nat) :
  (1 <= period)%nat -> (period <= i + 1)%nat -> (i < length qs)%nat ->
  length (trailing period qs i) = period
  /\ exists m,
      nth i (snd (fst (calculate_bollinger_bands
                         sqrt (map Fin qs) period std_dev))) NaN = Fin m
      /\ m == Qsum (trailing period qs i) / inject_Z (Z.of_nat period).
Proof.
  intros Hp Hwin Hi.
  pose proof (trailing_length period qs i Hwin Hi) as Hlen.
  split; [exact Hlen|].
  unfold calculate_bollinger_bands. cbn [fst snd].
  rewrite rolling_nth by (rewrite length_map; exact Hi). cbv zeta.
  rewrite window_at_Fin, observations_Fin, Hlen, Nat.leb_refl.
  unfold mean.
  assert (Hpos : 0 < Qlen (trailing period qs i))
    by (apply Qlen_pos; lia).
  rewrite div_Fin by lra.
  eexists. split; [reflexivity|]. unfold Qlen. rewrite Hlen. reflexivity.
Qed.

(** X28.  The distance in percent below the lower band, on numbers: it
    is 0 for a band of zero; for another band [d * band = (band - price) *
    100].  For a band above zero it is positive exactly when the price is
    below the band and zero exactly when the price is on it; for a band
    below zero the sign is reversed: positive exactly when the price is
    above the band. *)
Theorem price_distance_sign (p l : Q) :
  exists d,
    calculate_price_distance_from_bb_lower (Fin p) (Fin l) = Fin d
    /\ (l == 0 -> d == 0)
    /\ (~ l == 0 -> d * l == (l - p) * 100)
    /\ (0 < l -> (0 < d <-> p < l) /\ (d == 0 <-> p == l))
    /\ (l < 0 -> (0 < d <-> l < p)).
Proof.
  unfold calculate_price_distance_from_bb_lower.
  change (Fin l ==? f0)%F with (Qeq_bool l 0).
  destruct (Qeq_bool l 0) eqn:E.
  - apply Qeq_bool_iff in E. exists 0. split; [reflexivity|].
    split; [reflexivity|]. split; [intros H; contradiction|].
    split; intros H; lra.
  - apply Qeq_bool_neq in E.
    change (Fin l - Fin p)%F with (Fin (l - p)).
    rewrite (div_Fin _ _ E).
    exists ((l - p) / l * 100). split; [reflexivity|].
    split; [intros H; contradiction|].
    assert (Hd : (l - p) / l * 100 * l == (l - p) * 100)
      by (field; exact E).
    split; [intros _; exact Hd|].
    set (d := (l - p) / l * 100) in *.
    split.
    + intros Hl. split; split; intros H; nra.
    + intros Hl. split; intros H; nra.
Qed.

Lemma nonneg_observations_length (xs : Series) :
  Forall nonneg xs -> length (observations xs) = length xs.
Proof.
  induction 1 as [|x xs Hx _ IH]; simpl; [reflexivity|].
  destruct x; [contradiction|]. simpl. congruence.
Qed.

Lemma rolling_mean_nonneg_defined (w : nat) (xs : Series) :
  (1 <= w)%nat -> Forall nonneg xs -> Forall nonneg (rolling w 1 mean xs).
Proof.
  intros Hw H. unfold rolling. apply Forall_map. apply Forall_forall.
  intros i Hi. cbv beta zeta.
  apply list_elem_of_In, in_seq in Hi.
  pose proof (window_Forall nonneg w xs i H) as Hwin.
  pose proof (window_length w xs i Hw ltac:(lia)) as Hlen.
  rewrite <- (nonneg_observations_length _ Hwin) in Hlen.
  apply Nat.leb_le in Hlen as E. rewrite E.
  apply mean_nonneg; [assumption|]. apply observations_nonneg, Hwin.
Qed.

Lemma diff_from_never_rises (a : Q) (rest : list Q) :
  never_rises (a :: rest) ->
  Forall (fun d => exists q, d = Fin q /\ q <= 0)
         (diff_from (Fin a) (map Fin rest)).
Proof.
  revert a. induction rest as [|b rest IH]; intros a H; simpl;
    [constructor|].
  destruct H as [Hba Hrest]. constructor.
  - exists (b - a). split; [reflexivity | lra].
  - apply IH. exact Hrest.
Qed.

Lemma gains_never_rises (qs : list Q) :
  never_rises qs ->
  Forall zero (where_ (fun d => (d >? f0)%F) f0 (diff (map Fin qs))).
Proof.
  intros H. destruct qs as [|a rest]; [constructor|].
  cbn [map diff where_]. constructor; [simpl; reflexivity|].
  apply Forall_map.
  eapply Forall_impl; [exact (diff_from_never_rises a rest H)|].
  intros d (q & -> & Hq). cbv beta.
  destruct (Fin q >? f0)%F eqn:E; [|simpl; reflexivity].
  apply gtb_Fin in E. lra.
Qed.

(** With no gain [rs] is 0, whatever the loss, and so is the RSI. *)
Lemma rsi_of_no_gain (g l : float) :
  zero g -> nonneg l ->
  zero (let x := (f100 - f100 / (f1 + g / (l + eps)))%F in
        if Float.isnan x then f50 else x).
Proof.
  destruct g as [|g], l as [|l]; simpl; try contradiction.
  intros Hg Hl.
  destruct (Qeq_bool (l + (1 # 10000000000)) 0) eqn:E1.
  { apply Qeq_bool_iff in E1. lra. }
  simpl.
  assert (Hrs : g / (l + (1 # 10000000000)) == 0).
  { unfold Qdiv. rewrite Hg. ring. }
  destruct (Qeq_bool (1 + g / (l + (1 # 10000000000))) 0) eqn:E2.
  { apply Qeq_bool_iff in E2. lra. }
  simpl. rewrite Hrs. reflexivity.
Qed.

(** X29.  On a series of closes that never rises - a falling market as
    well as a flat one - the RSI is the number 0 at every bar, for every
    period of one bar or more: without a gain in the window the ratio
    [rs] is [0 / (loss + 1e-10) = 0]. *)
Theorem calculate_rsi_never_rises (qs : list Q) (period : nat) :
  (1 <= period)%nat ->
  never_rises qs ->
  Forall (fun x => exists r, x = Fin r /\ r == 0)
         (calculate_rsi (map Fin qs) period).
Proof.
  intros Hp Hfall.
  assert (H : Forall zero (calculate_rsi (map Fin qs) period)).
  { unfold calculate_rsi, fillna.
    rewrite map_map, zip_with_map_r.
    apply Forall_map.
    apply (zip_with_Forall zero nonneg).
    - intros g l Hg Hl. exact (rsi_of_no_gain g l Hg Hl).
    - apply rolling_mean_zero; [assumption | apply gains_never_rises, Hfall].
    - apply rolling_mean_nonneg_defined; [assumption | apply losses_nonneg]. }
  eapply Forall_impl; [exact H|].
  intros [|r] Hr; [contradiction|]. exists r. split; [reflexivity | exact Hr].
Qed.

End IndicatorFacts.

(** ** The claims on the two paths and on doubles at concrete inputs *)

Lemma exit_decisions_agree_unless_zero_entry_witness :
  Backtester.open_position config1 btc btc_config 18000 crash_analysis
  = Ok zero_entry
  /\ forall c : Q,
      TradingStrategy.should_close_position config1 btc zero_entry (Fin c)
      = (false, "No entry price available")
      /\ exists reason,
          Backtester.exit_check zero_entry (Some (Fin c))
          = Ok (true, Some reason)
          /\ (reason = "Take Profit" <-> 0 <= c)
          /\ (reason = "Stop Loss" <-> c < 0)
          /\ ~ same_decision
                 (true, Some reason)
                 (TradingStrategy.should_close_position
                    config1 btc zero_entry (Fin c)).
Proof.
  assert (H : Backtester.open_position config1 btc btc_config 18000
                                       crash_analysis = Ok zero_entry)
    by (vm_compute; reflexivity).
  split; [exact H|].
  exact (proj1 (proj2 (exit_decisions_agree_unless_zero_entry
                         config1 btc btc_config 18000%Z crash_analysis
                         zero_entry H))
               eq_refl).
Defined.

(** The same on doubles: on a position entered at [0.0] the replay closes
    at every price, and [should_close_position] at none. *)
Example exit_check_zero_entry_doubles :
  let opened := Binary64.Backtester.open_position config1 btc Binary64.zero in
  Binary64.Backtester.exit_check opened (Binary64.of_Q 5)
  = (true, Some "Take Profit"%string)
  /\ Binary64.Backtester.exit_check opened Binary64.zero
     = (true, Some "Take Profit"%string)
  /\ Binary64.Backtester.exit_check opened (Binary64.of_Q (-1))
     = (true, Some "Stop Loss"%string)
  /\ Binary64.TradingStrategy.should_close_position
       config1 btc long_0 (Binary64.of_Q 5)
     = (false, "No entry price available"%string)
  /\ Binary64.TradingStrategy.should_close_position
       config1 btc long_0 (Binary64.of_Q (-1))
     = (false, "No entry price available"%string).
Proof. vm_compute. repeat split. Qed.

(** C4 as stated fails at an entry price of zero: the price 5 is at or
    above the take-profit level [0 * (1 + 2 / 100) = 0], and the check
    does not close. *)
Lemma should_close_position_zero_entry :
  Binary64.PositionData.side long_0 = Long
  /\ Binary64.geb (Binary64.of_Q 5)
                  (level64 (Binary64.PositionData.entry_price long_0)
                           Binary64.add (tp_percent_of config1 btc))
     = true
  /\ Binary64.TradingStrategy.should_close_position
       config1 btc long_0 (Binary64.of_Q 5)
     = (false, "No entry price available").
Proof. split; [reflexivity|]. split; vm_compute; reflexivity. Qed.

(** At an entry price of 90.0 the take-profit level is the double 91.8,
    which lies below the rational 459/5, and the stop-loss level the
    double 89.1: both close. *)
Lemma should_close_position_long_witness :
  Binary64.PositionData.side long_90 = Long
  /\ Binary64.TradingStrategy.should_close_position config1 btc long_90 d91_8
     = (true, "Take Profit")
  /\ Binary64.TradingStrategy.should_close_position config1 btc long_90 d89_1
     = (true, "Stop Loss")
  /\ Binary64.TradingStrategy.should_close_position
       config1 btc long_90 (Binary64.of_Q 90)
     = (false, "No exit signal").
Proof.
  assert (Hside : Binary64.PositionData.side long_90 = Long) by reflexivity.
  assert (Hentry : Binary64.eqb (Binary64.PositionData.entry_price long_90)
                                Binary64.zero = false)
    by (vm_compute; reflexivity).
  split; [exact Hside|].
  split; [|split].
  - apply (proj1 (proj2 (should_close_position_long
                           config1 btc long_90 d91_8 Hside) Hentry)).
    vm_compute. reflexivity.
  - apply (proj1 (proj2 (proj2 (should_close_position_long
                                  config1 btc long_90 d89_1 Hside) Hentry))).
    split; vm_compute; reflexivity.
  - apply (proj1 (proj2 (proj2 (proj2 (should_close_position_long
                                         config1 btc long_90
                                         (Binary64.of_Q 90) Hside)
                                      Hentry)))).
    split; vm_compute; reflexivity.
Defined.

(** The live trade execution for an analysis without RSI: the order goes
    through and the position is stored; the notification raises and the
    answer is False. *)
Example execute_trade_without_rsi :
  let outcome :=
    TradingBot.execute_trade config1 [] clock1 exchange_ok
                             dip_analysis_no_rsi in
  fst outcome = false
  /\ exists position,
      snd outcome = [("BTCUSDT_20240101_000000"%string, position)]
      /\ Position.status position = OPEN
      /\ Position.entry_price position = Fin 90
      /\ (Position.quantity position * Position.entry_price position
          ==? Fin 20)%F = true.
Proof.
  vm_compute. split; [reflexivity|].
  eexists. split; [reflexivity|]. repeat split.
Qed.

(** The sizing of a position on doubles: at a price of about [1e-315] the
    quantity is [inf] and its product with the price is not the trade
    volume; a price of zero raises ZeroDivisionError. *)
Example calculate_position_size_overflow :
  Binary64.TradingStrategy.calculate_position_size config1 btc tiny_price
  = Ok PrimFloat.infinity
  /\ Binary64.eqb (Binary64.mul PrimFloat.infinity tiny_price)
                  (Binary64.of_Q 20) = false
  /\ Binary64.TradingStrategy.calculate_position_size
       config1 btc Binary64.zero
     = Raise ZeroDivisionError.
Proof. vm_compute. repeat split. Qed.

(** Validation of a configuration as [json.load] returns it: a usual
    entry and an entry of NaNs are accepted; an entry that lacks the
    fields, a leverage of 126 and a symbol without entry are refused.  On
    entries that are no dicts the check raises or misses its first field,
    and the configuration as a whole is refused. *)
Example validate_symbol_config_examples :
  RawConfig.validate_symbol_config raw_config no_fmt_json "BTCUSDT"
  = Ok (true, "Configuration valid")
  /\ RawConfig.validate_symbol_config raw_config no_fmt_json "NANUSDT"
     = Ok (true, "Configuration valid")
  /\ RawConfig.validate_symbol_config raw_config no_fmt_json "ETHUSDT"
     = Ok (false, "Missing required field 'leverage' for ETHUSDT")
  /\ RawConfig.validate_symbol_config raw_config no_fmt_json "XRPUSDT"
     = Ok (false, "No configuration found for XRPUSDT")
  /\ RawConfig.validate_symbol_config
       {[ "BTCUSDT"%string := raw_high_leverage ]} no_fmt_json "BTCUSDT"
     = Ok (false, "Leverage too high for BTCUSDT: ")
  /\ RawConfig.validate_configuration raw_config no_fmt_json = true
  /\ RawConfig.validate_symbol_config
       raw_config_no_dicts no_fmt_json "ADAUSDT"
     = Raise TypeError
  /\ RawConfig.validate_symbol_config
       raw_config_no_dicts no_fmt_json "SOLUSDT"
     = Raise TypeError
  /\ RawConfig.validate_symbol_config
       raw_config_no_dicts no_fmt_json "DOTUSDT"
     = Ok (false, "Missing required field 'leverage' for DOTUSDT")
  /\ RawConfig.get_enabled_symbols raw_config_no_dicts
     = Raise AttributeError
  /\ RawConfig.validate_configuration raw_config_no_dicts no_fmt_json
     = false.
Proof. vm_compute. repeat split. Qed.

(** ** The further properties at concrete inputs *)

Lemma take_profit_stop_loss_order_witness :
  (0 < 100 /\ 0 < tp_percent_of config1 btc /\ 0 < sl_percent_of config1 btc)
  /\ exists tp_long sl_long tp_short sl_short,
      TradingStrategy.calculate_take_profit_stop_loss
        config1 btc (Fin 100) Long = (Fin tp_long, Fin sl_long)
      /\ TradingStrategy.calculate_take_profit_stop_loss
           config1 btc (Fin 100) Short = (Fin tp_short, Fin sl_short)
      /\ sl_long < 100 < tp_long
      /\ tp_short < 100 < sl_short
      /\ tp_long - 100 == 100 - tp_short
      /\ 100 - sl_long == sl_short - 100.
Proof.
  assert (H1 : 0 < 100) by reflexivity.
  assert (H2 : 0 < tp_percent_of config1 btc) by reflexivity.
  assert (H3 : 0 < sl_percent_of config1 btc) by reflexivity.
  split; [auto|].
  exact (take_profit_stop_loss_order config1 btc 100 H1 H2 H3).
Defined.

Lemma close_position_pnl_witness :
  (Dict.lookup positions1 "BTCUSDT_20240101_000000" = Some position1
   /\ Position.status position1 = OPEN /\ ~ 100 == 0)
  /\ exists closed positions' pnl pnl_percent,
      PositionManager.close_position
        positions1 clock2 "BTCUSDT_20240101_000000" (Fin 102) "Take Profit"
      = (Ok closed, positions')
      /\ Position.pnl closed = Fin pnl
      /\ Position.pnl_percent closed = Fin pnl_percent
      /\ pnl == (102 - 100) * (1 # 5) * 10
      /\ pnl_percent == (102 - 100) / 100 * 100 * 10.
Proof.
  assert (H1 : Dict.lookup positions1 "BTCUSDT_20240101_000000"
               = Some position1) by reflexivity.
  assert (H2 : Position.status position1 = OPEN) by reflexivity.
  assert (H3 : ~ 100 == 0) by (intros E; discriminate E).
  split; [auto|].
  destruct (close_position_pnl positions1 clock2 "BTCUSDT_20240101_000000"
                               "Take Profit" position1 100 (1 # 5) 10 102
                               H1 H2 eq_refl eq_refl eq_refl H3)
    as (closed & positions' & pnl & pct & Hc & Hp & Hpp & Hv & Hvp & _).
  exists closed, positions', pnl, pct. auto 10.
Defined.

Lemma positions1_at_most_one_open : at_most_one_open positions1.
Proof.
  intros symbol. unfold open_positions_of.
  change (PositionManager.get_open_positions positions1) with [position1].
  cbn [List.filter]. destruct (String.eqb _ symbol); simpl; lia.
Qed.

Lemma execute_trade_at_most_one_open_witness :
  at_most_one_open positions1
  /\ at_most_one_open
       (snd (TradingBot.execute_trade config1 positions1 clock2 exchange_ok
                                      dip_analysis)).
Proof.
  split; [exact positions1_at_most_one_open|].
  exact (execute_trade_at_most_one_open
           config1 positions1 clock2 exchange_ok dip_analysis
           positions1_at_most_one_open).
Defined.

Lemma monitor_position_visit_witness :
  (Dict.lookup positions1 (Position.id position1) = Some position1
   /\ Position.status position1 = OPEN)
  /\ exists closed,
      Dict.lookup (Monitor.monitor_position config1 positions1 position1
                                            visit_102)
                  (Position.id position1) = Some closed
      /\ Position.status closed = CLOSED
      /\ Position.exit_price closed = Some (Fin 102)
      /\ Position.exit_reason closed = Some "Take Profit"%string.
Proof.
  assert (H1 : Dict.lookup positions1 (Position.id position1)
               = Some position1) by reflexivity.
  assert (H2 : Position.status position1 = OPEN) by reflexivity.
  split; [auto|].
  destruct (proj2 (proj2 (proj2 (monitor_position_visit
                                   config1 positions1 position1 visit_102
                                   H1 H2)))
                  (Fin 102) "Take Profit"%string eq_refl eq_refl eq_refl)
    as (_ & closed & Hk & Hs & Hx & Hr & _).
  exists closed. auto.
Defined.

Lemma run_backtest_no_lookahead_witness :
  (22 <= length dip_bars)%nat
  /\ exists trades more,
      Backtester.run_backtest config1 sqrt6 no_fmt no_fmt btc
                              (firstn 22 dip_bars) = Ok trades
      /\ Backtester.run_backtest config1 sqrt6 no_fmt no_fmt btc dip_bars
         = Ok (trades ++ more).
Proof.
  assert (H : (22 <= length dip_bars)%nat) by (vm_compute; lia).
  split; [exact H|].
  exact (run_backtest_no_lookahead config1 sqrt6 no_fmt no_fmt btc
                                   dip_bars 22 H).
Defined.

Lemma run_backtest_reads_closes_witness :
  (map Candle.close dip_bars = map Candle.close dip_bars_wicks
   /\ map Candle.timestamp dip_bars = map Candle.timestamp dip_bars_wicks)
  /\ Backtester.run_backtest config1 sqrt6 no_fmt no_fmt btc dip_bars
     = Backtester.run_backtest config1 sqrt6 no_fmt no_fmt btc dip_bars_wicks.
Proof.
  assert (H1 : map Candle.close dip_bars = map Candle.close dip_bars_wicks)
    by reflexivity.
  assert (H2 : map Candle.timestamp dip_bars
               = map Candle.timestamp dip_bars_wicks) by reflexivity.
  split; [auto|].
  exact (proj1 (run_backtest_reads_closes config1 sqrt6 no_fmt no_fmt btc
                                          dip_bars dip_bars_wicks H1 H2)).
Defined.

Lemma bollinger_bands_symmetric_witness :
  (20 < length (map Fin dip_closes))%nat
  /\ forall u l,
      nth 20 (fst (fst (TechnicalIndicators.calculate_bollinger_bands
                          sqrt6 (map Fin dip_closes) 20 (Fin 2)))) NaN
      = Fin u ->
      nth 20 (snd (TechnicalIndicators.calculate_bollinger_bands
                     sqrt6 (map Fin dip_closes) 20 (Fin 2))) NaN
      = Fin l ->
      exists m,
        nth 20 (snd (fst (TechnicalIndicators.calculate_bollinger_bands
                            sqrt6 (map Fin dip_closes) 20 (Fin 2)))) NaN
        = Fin m
        /\ u - m == m - l.
Proof.
  assert (H : (20 < length (map Fin dip_closes))%nat) by (vm_compute; lia).
  split; [exact H|].
  exact (proj2 (bollinger_bands_symmetric
                  sqrt6 (map Fin dip_closes) 20 (Fin 2) 20 H)).
Defined.

Lemma bollinger_middle_is_sma_witness :
  ((1 <= 20)%nat /\ (20 <= 20 + 1)%nat /\ (20 < length dip_closes)%nat)
  /\ exists m,
      nth 20 (snd (fst (TechnicalIndicators.calculate_bollinger_bands
                          sqrt6 (map Fin dip_closes) 20 (Fin 2)))) NaN
      = Fin m
      /\ m == Pandas.Qsum (trailing 20 dip_closes 20)
              / inject_Z (Z.of_nat 20).
Proof.
  assert (H1 : (1 <= 20)%nat) by lia.
  assert (H2 : (20 <= 20 + 1)%nat) by lia.
  assert (H3 : (20 < length dip_closes)%nat) by (vm_compute; lia).
  split; [auto|].
  exact (proj2 (bollinger_middle_is_sma sqrt6 dip_closes 20 (Fin 2) 20
                                        H1 H2 H3)).
Defined.

Lemma falling5_never_rises : never_rises falling5.
Proof. cbn. repeat split; discriminate. Qed.

Lemma calculate_rsi_never_rises_witness :
  ((1 <= 6)%nat /\ never_rises falling5)
  /\ Forall (fun x => exists r, x = Fin r /\ r == 0)
            (TechnicalIndicators.calculate_rsi (map Fin falling5) 6).
Proof.
  assert (H : (1 <= 6)%nat) by lia.
  split; [split; [exact H | exact falling5_never_rises]|].
  exact (calculate_rsi_never_rises falling5 6 H falling5_never_rises).
Defined.

Lemma should_close_position_short_witness :
  (Binary64.PositionData.side short_90 = Short
   /\ Binary64.eqb (Binary64.PositionData.entry_price short_90)
                   Binary64.zero = false)
  /\ Binary64.TradingStrategy.should_close_position config1 btc short_90 d88_2
     = (true, "Take Profit")
  /\ Binary64.TradingStrategy.should_close_position
       config1 btc short_90 (Binary64.of_Q 91)
     = (true, "Stop Loss")
  /\ Binary64.TradingStrategy.should_close_position
       config1 btc short_90 (Binary64.of_Q 90)
     = (false, "No exit signal").
Proof.
  assert (Hside : Binary64.PositionData.side short_90 = Short)
    by reflexivity.
  assert (Hentry : Binary64.eqb (Binary64.PositionData.entry_price short_90)
                                Binary64.zero = false)
    by (vm_compute; reflexivity).
  split; [split; [exact Hside | exact Hentry]|].
  split; [|split].
  - apply (proj1 (should_close_position_short
                    config1 btc short_90 d88_2 Hside Hentry)).
    vm_compute. reflexivity.
  - apply (proj1 (proj2 (should_close_position_short
                           config1 btc short_90 (Binary64.of_Q 91)
                           Hside Hentry))).
    split; vm_compute; reflexivity.
  - apply (proj1 (proj2 (proj2 (should_close_position_short
                                  config1 btc short_90 (Binary64.of_Q 90)
                                  Hside Hentry)))).
    split; vm_compute; reflexivity.
Defined.

Lemma analyze_symbol_disabled_witness :
  ((20 <= length dip_bars)%nat
   /\ get (enabled (pairs_get config2 "ETHUSDT")) false = false)
  /\ Analysis.signal
       (TradingStrategy.analyze_symbol config2 sqrt6 no_fmt no_fmt
                                       "ETHUSDT" dip_bars) = NONE
  /\ Analysis.rsi
       (TradingStrategy.analyze_symbol config2 sqrt6 no_fmt no_fmt
                                       "ETHUSDT" dip_bars)
     = Some (Pandas.iloc_last
               (TechnicalIndicators.calculate_rsi (close_of dip_bars) 6))
  /\ Analysis.bb_lower
       (TradingStrategy.analyze_symbol config2 sqrt6 no_fmt no_fmt
                                       "ETHUSDT" dip_bars)
     = Some (Pandas.iloc_last
               (snd (TechnicalIndicators.calculate_bollinger_bands
                       sqrt6 (close_of dip_bars) 20 (Fin 2)))).
Proof.
  assert (H1 : (20 <= length dip_bars)%nat) by (vm_compute; lia).
  assert (H2 : get (enabled (pairs_get config2 "ETHUSDT")) false = false)
    by (vm_compute; reflexivity).
  split; [auto|].
  destruct (analyze_symbol_disabled config2 sqrt6 no_fmt no_fmt
                                    "ETHUSDT" dip_bars H1 H2)
    as (Hs & _ & Hr & _ & _ & _ & _ & _ & Hl & _).
  split; [exact Hs|]. split; [exact Hr | exact Hl].
Defined.

Lemma close_position_store_effect_witness :
  (Dict.lookup positions1 "BTCUSDT_20240101_000000" = Some position1
   /\ Position.status position1 = OPEN
   /\ (Position.entry_price position1 ==? f0)%F = false)
  /\ exists closed positions',
      PositionManager.close_position
        positions1 clock2 "BTCUSDT_20240101_000000" (Fin 102) "Take Profit"
      = (Ok closed, positions')
      /\ length positions' = length positions1
      /\ Dict.lookup positions' "BTCUSDT_20240101_000000" = Some closed
      /\ Position.status closed = CLOSED.
Proof.
  assert (H1 : Dict.lookup positions1 "BTCUSDT_20240101_000000"
               = Some position1) by reflexivity.
  assert (H2 : Position.status position1 = OPEN) by reflexivity.
  assert (H3 : (Position.entry_price position1 ==? f0)%F = false)
    by reflexivity.
  split; [auto|].
  destruct (close_position_store_effect
              positions1 clock2 "BTCUSDT_20240101_000000" (Fin 102)
              "Take Profit" position1 H1 H2 H3)
    as (closed & positions' & Hc & Hl & Hk & Hs & _).
  exists closed, positions'. auto.
Defined.

Lemma dip_analysis_no_rsi_price : price_not_zero dip_analysis_no_rsi.
Proof.
  intros e H.
  assert (E : Analysis.current_price dip_analysis_no_rsi = Some (Fin 90))
    by (vm_compute; reflexivity).
  rewrite E in H. injection H as <-. intros H0. discriminate H0.
Qed.

Lemma dip_analysis_no_rsi_order :
  order_placed [] exchange_ok dip_analysis_no_rsi.
Proof.
  split; [vm_compute; reflexivity|]. split; [reflexivity|].
  split; [eexists; vm_compute; reflexivity|]. split; reflexivity.
Qed.

Lemma execute_trade_outcome_witness :
  price_not_zero dip_analysis_no_rsi
  /\ order_placed [] exchange_ok dip_analysis_no_rsi
  /\ (fst (TradingBot.execute_trade config1 [] clock1 exchange_ok
                                    dip_analysis_no_rsi) = true
      <-> order_placed [] exchange_ok dip_analysis_no_rsi
          /\ notified exchange_ok dip_analysis_no_rsi)
  /\ PositionManager.has_open_position
       (snd (TradingBot.execute_trade config1 [] clock1 exchange_ok
                                      dip_analysis_no_rsi))
       (Analysis.symbol dip_analysis_no_rsi) = true.
Proof.
  split; [exact dip_analysis_no_rsi_price|].
  split; [exact dip_analysis_no_rsi_order|].
  destruct (execute_trade_outcome config1 [] clock1 exchange_ok
                                  dip_analysis_no_rsi
                                  dip_analysis_no_rsi_price)
    as (Hflag & _ & Hstored).
  split; [exact Hflag|].
  exact (proj1 (proj2 (Hstored dip_analysis_no_rsi_order))).
Defined.

